(** * Smart TRV controller

    A shallow embedding of [custom_components/smart_trv/climate.py] (class
    [SmartTRVClimate]) and of the constants of [const.py] it uses.

    Conventions of the model:
    - a Python [float] is a real number ([R]); rounding error, infinities and
      NaN are outside the model;
    - a Python [int] is a [Z]; [x | None] is [option x];
    - the attributes of the entity are split in two records: the ones fixed by
      [__init__] ([Params]) and the ones the control loop mutates ([State]);
    - [time.monotonic()], [hass.states.get], [hass.services.async_call] and
      the builtin [float()] on strings belong to the environment ([Env]);
      methods are state transformers over the entity state, the number of
      clock readings taken so far and the list of service calls issued. *)

From Stdlib Require Import Reals Lra Lia ZArith String List Bool.
From stdpp Require Import base gmap strings.

Open Scope R_scope.

(** ** Python numerics *)

Module Py.

Definition Rltb (x y : R) : bool := if Rlt_dec x y then true else false.
Definition Rleb (x y : R) : bool := if Rle_dec x y then true else false.
Definition Reqb (x y : R) : bool := if Req_dec_T x y then true else false.

(** [max(a, b)] and [min(a, b)]: Python returns the first argument unless the
    second is strictly larger (resp. smaller). *)
Definition max (a b : R) : R := if Rltb a b then b else a.
Definition min (a b : R) : R := if Rltb b a then b else a.

(** [abs(x)]. *)
Definition abs (x : R) : R := if Rltb x 0 then - x else x.

(** [round(x)] with one argument: nearest integer, ties to the even one. *)
Definition round (x : R) : Z :=
  let f := Zfloor x in
  let d := x - IZR f in
  if Rltb d (1 / 2) then f
  else if Rltb (1 / 2) d then (f + 1)%Z
  else if Z.even f then f else (f + 1)%Z.

(** Truthiness of [float | None], as used by [a or b]. *)
Definition or_float (a : option R) (b : R) : R :=
  match a with
  | Some x => if Reqb x 0 then b else x
  | None => b
  end.

(** [s.startswith(p)]. *)
Fixpoint startswith (p s : string) : bool :=
  match p, s with
  | EmptyString, _ => true
  | String a p', String b s' => if Ascii.eqb a b then startswith p' s' else false
  | String _ _, EmptyString => false
  end.

(** [s.replace(old, new)] for a non-empty [old]: every non-overlapping
    occurrence, scanning from the left.  [skip] counts the characters of an
    occurrence already replaced that the scan still has to pass over. *)
Fixpoint replace_from (old new : string) (skip : nat) (s : string) : string :=
  match s with
  | EmptyString => EmptyString
  | String c s' =>
      match skip with
      | S k => replace_from old new k s'
      | O =>
          if startswith old s
          then new ++ replace_from old new (Nat.pred (String.length old)) s'
          else String c (replace_from old new 0 s')
      end
  end.

Definition replace (old new s : string) : string := replace_from old new 0 s.

End Py.

Notation "x <? y" := (Py.Rltb x y) : R_scope.
Notation "x <=? y" := (Py.Rleb x y) : R_scope.
Notation "x =? y" := (Py.Reqb x y) : R_scope.

(** ** Constants of [const.py] *)

Definition DEFAULT_MIN_TEMP : R := 5.
Definition DEFAULT_MAX_TEMP : R := 28.
Definition DEFAULT_TARGET_TEMP : R := 21.
Definition DEFAULT_FF_K_FLOW : R := 2 / 100.
Definition DEFAULT_FF_K_OUTDOOR : R := 1 / 100.
Definition DEFAULT_FF_TFLOW_REF : R := 55.
Definition DEFAULT_FF_TOUT_REF : R := 10.
Definition DEFAULT_FF_ENABLE_SMOOTHING : bool := true.
Definition DEFAULT_FF_FLOW_FILTER_TAU_S : R := 300.
Definition DEFAULT_FF_OUTDOOR_FILTER_TAU_S : R := 600.
Definition DEFAULT_FF_FLOW_DEADBAND_K : R := 1 / 2.
Definition DEFAULT_FF_OUTDOOR_DEADBAND_K : R := 1 / 2.
Definition VALVE_OPEN_POSITION : Z := 255.
Definition VALVE_CLOSED_POSITION : Z := 0.
Definition VALVE_UPDATE_MIN_INTERVAL_S : R := 60.
Definition DEFAULT_IMC_PROCESS_GAIN : R := 4.
Definition DEFAULT_IMC_DEAD_TIME : R := 900.
Definition DEFAULT_IMC_TIME_CONSTANT : R := 5400.
Definition DEFAULT_IMC_LAMBDA : R := 5400.
Definition DEFAULT_STEADY_DEADBAND_C : R := 1 / 2.
Definition DEFAULT_DECAY_TAU_S : R := 900.
Definition DEFAULT_WINDOW_OPEN_THRESHOLD_PER_MIN : R := 1.
Definition DEFAULT_WINDOW_OPEN_DURATION : R := 900.
Definition MIN_TEMP_RANGE_C : R := 1 / 10.
Definition WINDOW_CHECK_MIN_INTERVAL_S : R := 30.
Definition DEFAULT_BOOST_DURATION_S : R := 15 * 60.

(** ** Static helpers of [SmartTRVClimate] *)

(** [_clamp(x, lo, hi)]: [lo if x < lo else hi if x > hi else x]. *)
Definition _clamp (x lo hi : R) : R :=
  if x <? lo then lo else if hi <? x then hi else x.

Definition _clamp01 (x : R) : R := _clamp x 0 1.

(** The same helper applied to integers (its callers pass [int]s). *)
Definition _clampZ (x lo hi : Z) : Z :=
  if (x <? lo)%Z then lo else if (hi <? x)%Z then hi else x.

(** [_apply_deadband(x, db)]. *)
Definition _apply_deadband (x db : R) : R :=
  if db <=? 0 then x
  else if Py.abs x <=? db then 0
  else if 0 <? x then x - db else x + db.

(** [_snap_to_step(value, step, lo, hi)]. *)
Definition _snap_to_step (value step lo hi : Z) : Z :=
  if (step <=? 1)%Z then _clampZ value lo hi
  else
    let v := _clampZ value lo hi in
    let snapped := (Py.round (IZR v / IZR step) * step)%Z in
    _clampZ snapped lo hi.

(** [_alpha(dt_s, tau_s)]: [1 - exp(-dt/tau)], or [1] when the timing or the
    time constant is invalid. *)
Definition _alpha (dt_s : option R) (tau_s : R) : R :=
  match dt_s with
  | None => 1
  | Some dt => if (dt <=? 0) || (tau_s <=? 0) then 1 else 1 - exp (- dt / tau_s)
  end.

(** [_classify_band(error, eps)] returns [(in_band, heat_side, cool_side)]. *)
Definition _classify_band (error eps : R) : bool * bool * bool :=
  let in_band := Py.abs error <=? eps in
  let cool_side := error <? - eps in
  let heat_side := eps <? error in
  (in_band, heat_side, cool_side).

(** ** Data model *)

(** [homeassistant.components.climate.HVACMode], a string enumeration. *)
Inductive HVACMode := OFF | HEAT | COOL | HEAT_COOL | AUTO | DRY | FAN_ONLY.

Definition HVACMode_eqb (a b : HVACMode) : bool :=
  match a, b with
  | OFF, OFF | HEAT, HEAT | COOL, COOL | HEAT_COOL, HEAT_COOL
  | AUTO, AUTO | DRY, DRY | FAN_ONLY, FAN_ONLY => true
  | _, _ => false
  end.

Definition HVACMode_value (m : HVACMode) : string :=
  match m with
  | OFF => "off" | HEAT => "heat" | COOL => "cool" | HEAT_COOL => "heat_cool"
  | AUTO => "auto" | DRY => "dry" | FAN_ONLY => "fan_only"
  end.

Definition STATE_UNAVAILABLE : string := "unavailable".
Definition STATE_UNKNOWN : string := "unknown".

(** The value of a state attribute, as far as [float()] tells values apart. *)
Inductive AttrValue :=
| AttrFloat (x : R)
| AttrStr (s : string)
| AttrOther.

(** A state object of the host registry: its [state] string and its
    [attributes.get("valve_position")]. *)
Record HassState := {
  hs_state : string;
  hs_valve_position : option AttrValue
}.

(** A call of [hass.services.async_call(domain, service, data)]. *)
Inductive ServiceCall :=
| number_set_value (entity_id : string) (value : Z)
| climate_set_hvac_mode (entity_id : string) (hvac_mode : HVACMode)
| climate_set_temperature (entity_id : string) (temperature : R).

(** What the controller reads from outside itself. [monotonic n] is the value
    returned by the [n]-th call of [time.monotonic()]; [states_get] is
    [hass.states.get]; [call_raises c] tells whether the service call [c]
    raises; [call_later_raises n] tells whether [async_call_later] raises
    when it is called after [n] readings of the clock; [float_of_str] is the
    builtin [float()] on a string, [None] for [ValueError]. *)
Record Env := {
  monotonic : nat -> R;
  states_get : string -> option HassState;
  call_raises : ServiceCall -> bool;
  call_later_raises : nat -> bool;
  float_of_str : string -> option R
}.

(** The configuration dictionary handed to [__init__]: [None] is a missing
    key. *)
Record Config := {
  CONF_TEMPERATURE_SENSOR : string;
  CONF_TRV_ENTITIES : option (list string);
  CONF_MIN_TEMP : option R;
  CONF_MAX_TEMP : option R;
  CONF_TARGET_TEMP : option R;
  CONF_OUTDOOR_TEMPERATURE_SENSOR : option string;
  CONF_BOILER_FLOW_TEMPERATURE_SENSOR : option string;
  CONF_FF_K_FLOW : option R;
  CONF_FF_K_OUTDOOR : option R;
  CONF_FF_TFLOW_REF : option R;
  CONF_FF_TOUT_REF : option R;
  CONF_FF_ENABLE_SMOOTHING : option bool;
  CONF_FF_FLOW_FILTER_TAU_S : option R;
  CONF_FF_OUTDOOR_FILTER_TAU_S : option R;
  CONF_FF_FLOW_DEADBAND_K : option R;
  CONF_FF_OUTDOOR_DEADBAND_K : option R;
  CONF_WINDOW_OPEN_THRESHOLD_PER_MIN : option R;
  CONF_WINDOW_OPEN_DURATION : option R;
  CONF_IMC_PROCESS_GAIN : option R;
  CONF_IMC_TIME_CONSTANT : option R;
  CONF_IMC_DEAD_TIME : option R;
  CONF_IMC_LAMBDA : option R
}.

(** Attributes of the entity that only [__init__] assigns. *)
Record Params := {
  _temperature_sensor : string;
  _trv_entities : list string;
  _min_temp : R;
  _max_temp : R;
  _outdoor_sensor : option string;
  _boiler_flow_sensor : option string;
  _ff_k_flow : R;
  _ff_k_outdoor : R;
  _ff_tflow_ref : R;
  _ff_tout_ref : R;
  _ff_enable_smoothing : bool;
  _ff_flow_tau_s : R;
  _ff_outdoor_tau_s : R;
  _ff_flow_deadband_k : R;
  _ff_outdoor_deadband_k : R;
  _proportional_gain : R;
  _integral_gain : R;
  _window_threshold_per_min : R;
  _window_duration : R;
  _steady_deadband_c : R;
  _decay_tau_s : R
}.

(** Attributes of the entity that the control loop and the commands mutate.
    [_last_window_check] holds [_last_window_check_temp] and
    [_last_window_check_time], which the source always assigns together;
    [_boost_unsub] records whether a boost timer handle is held. *)
Record State := {
  _target_temp : R;
  _hvac_mode : HVACMode;
  _current_temperature : option R;
  _valve_position : Z;
  _desired_valve_position : option Z;
  _last_valve_send_monotonic : option R;
  _i_accum : R;
  _last_update_monotonic : option R;
  _last_u_total : option R;
  _boost_unsub : bool;
  _boost_until : option R;
  _actual_valve_position : option Z;
  _actual_valve_map : gmap string Z;
  _outdoor_temp : option R;
  _boiler_flow_temp : option R;
  _flow_filt : option R;
  _outdoor_filt : option R;
  _last_ff_update_monotonic : option R;
  _last_window_check : option (R * R);
  _window_open_until : option R;
  _diag_error_c : option R;
  _diag_error_norm : option R;
  _diag_u_pi : option R;
  _diag_u_i : option R;
  _diag_u_ff : option R;
  _diag_u_total : option R
}.

(** Assignment [self.attr = v]: the record [s] with the field [proj]
    replaced by [v]. *)
Ltac assign proj v s :=
  let f p := lazymatch p with proj => constr:(v) | _ => constr:(p s) end in
  let a1 := f _target_temp in let a2 := f _hvac_mode in
  let a3 := f _current_temperature in let a4 := f _valve_position in
  let a5 := f _desired_valve_position in
  let a6 := f _last_valve_send_monotonic in let a7 := f _i_accum in
  let a8 := f _last_update_monotonic in let a9 := f _last_u_total in
  let a10 := f _boost_unsub in let a11 := f _boost_until in
  let a12 := f _actual_valve_position in let a13 := f _actual_valve_map in
  let a14 := f _outdoor_temp in let a15 := f _boiler_flow_temp in
  let a16 := f _flow_filt in let a17 := f _outdoor_filt in
  let a18 := f _last_ff_update_monotonic in let a19 := f _last_window_check in
  let a20 := f _window_open_until in let a21 := f _diag_error_c in
  let a22 := f _diag_error_norm in let a23 := f _diag_u_pi in
  let a24 := f _diag_u_i in let a25 := f _diag_u_ff in
  let a26 := f _diag_u_total in
  exact (Build_State a1 a2 a3 a4 a5 a6 a7 a8 a9 a10 a11 a12 a13 a14 a15 a16
           a17 a18 a19 a20 a21 a22 a23 a24 a25 a26).

Definition set_target_temp (v : R) (s : State) : State :=
  ltac:(assign _target_temp v s).
Definition set_hvac_mode (v : HVACMode) (s : State) : State :=
  ltac:(assign _hvac_mode v s).
Definition set_current_temperature (v : option R) (s : State) : State :=
  ltac:(assign _current_temperature v s).
Definition set_valve_position (v : Z) (s : State) : State :=
  ltac:(assign _valve_position v s).
Definition set_desired_valve_position (v : option Z) (s : State) : State :=
  ltac:(assign _desired_valve_position v s).
Definition set_last_valve_send_monotonic (v : option R) (s : State) : State :=
  ltac:(assign _last_valve_send_monotonic v s).
Definition set_i_accum (v : R) (s : State) : State :=
  ltac:(assign _i_accum v s).
Definition set_last_update_monotonic (v : option R) (s : State) : State :=
  ltac:(assign _last_update_monotonic v s).
Definition set_last_u_total (v : option R) (s : State) : State :=
  ltac:(assign _last_u_total v s).
Definition set_boost_unsub (v : bool) (s : State) : State :=
  ltac:(assign _boost_unsub v s).
Definition set_boost_until (v : option R) (s : State) : State :=
  ltac:(assign _boost_until v s).
Definition set_actual_valve_position (v : option Z) (s : State) : State :=
  ltac:(assign _actual_valve_position v s).
Definition set_actual_valve_map (v : gmap string Z) (s : State) : State :=
  ltac:(assign _actual_valve_map v s).
Definition set_outdoor_temp (v : option R) (s : State) : State :=
  ltac:(assign _outdoor_temp v s).
Definition set_boiler_flow_temp (v : option R) (s : State) : State :=
  ltac:(assign _boiler_flow_temp v s).
Definition set_flow_filt (v : option R) (s : State) : State :=
  ltac:(assign _flow_filt v s).
Definition set_outdoor_filt (v : option R) (s : State) : State :=
  ltac:(assign _outdoor_filt v s).
Definition set_last_ff_update_monotonic (v : option R) (s : State) : State :=
  ltac:(assign _last_ff_update_monotonic v s).
Definition set_last_window_check (v : option (R * R)) (s : State) : State :=
  ltac:(assign _last_window_check v s).
Definition set_window_open_until (v : option R) (s : State) : State :=
  ltac:(assign _window_open_until v s).
Definition set_diag_error_c (v : option R) (s : State) : State :=
  ltac:(assign _diag_error_c v s).
Definition set_diag_error_norm (v : option R) (s : State) : State :=
  ltac:(assign _diag_error_norm v s).
Definition set_diag_u_pi (v : option R) (s : State) : State :=
  ltac:(assign _diag_u_pi v s).
Definition set_diag_u_i (v : option R) (s : State) : State :=
  ltac:(assign _diag_u_i v s).
Definition set_diag_u_ff (v : option R) (s : State) : State :=
  ltac:(assign _diag_u_ff v s).
Definition set_diag_u_total (v : option R) (s : State) : State :=
  ltac:(assign _diag_u_total v s).

(** ** Construction *)

Inductive Exception := ValueError.

Inductive Result (A : Type) :=
| Ok (a : A)
| Raise (e : Exception).
Arguments Ok {A} a.
Arguments Raise {A} e.

(** [__init__(hass, entry_id, config)]: the attributes it assigns, or the
    exception it raises on invalid IMC parameters. *)
Definition __init__ (config : Config) : Result (Params * State) :=
  let min_temp := default DEFAULT_MIN_TEMP (CONF_MIN_TEMP config) in
  let max_temp := default DEFAULT_MAX_TEMP (CONF_MAX_TEMP config) in
  let '(min_temp, max_temp) :=
    if max_temp <=? min_temp then (max_temp, min_temp) else (min_temp, max_temp) in
  let target_temp := default DEFAULT_TARGET_TEMP (CONF_TARGET_TEMP config) in
  let target_temp := Py.max min_temp (Py.min max_temp target_temp) in
  let window_threshold_per_min :=
    Py.abs (default DEFAULT_WINDOW_OPEN_THRESHOLD_PER_MIN
              (CONF_WINDOW_OPEN_THRESHOLD_PER_MIN config)) in
  let window_threshold_per_min :=
    if window_threshold_per_min =? 0 then DEFAULT_WINDOW_OPEN_THRESHOLD_PER_MIN
    else window_threshold_per_min in
  let kp_proc := default DEFAULT_IMC_PROCESS_GAIN (CONF_IMC_PROCESS_GAIN config) in
  let tau := default DEFAULT_IMC_TIME_CONSTANT (CONF_IMC_TIME_CONSTANT config) in
  let theta :=
    Py.or_float (Some (default DEFAULT_IMC_DEAD_TIME (CONF_IMC_DEAD_TIME config))) 0 in
  let lam_f :=
    match CONF_IMC_LAMBDA config with
    | Some lam_raw => lam_raw
    | None => DEFAULT_IMC_LAMBDA
    end in
  if (kp_proc <=? 0) || (tau <=? 0) || (lam_f <=? 0) || (lam_f + theta <=? 0)
  then Raise ValueError
  else
    let temp_range := Py.max MIN_TEMP_RANGE_C (max_temp - min_temp) in
    let kc := (tau * temp_range) / (kp_proc * (lam_f + theta)) in
    let ki := temp_range / (kp_proc * (lam_f + theta)) in
    Ok ({| _temperature_sensor := CONF_TEMPERATURE_SENSOR config;
           _trv_entities := default [] (CONF_TRV_ENTITIES config);
           _min_temp := min_temp;
           _max_temp := max_temp;
           _outdoor_sensor := CONF_OUTDOOR_TEMPERATURE_SENSOR config;
           _boiler_flow_sensor := CONF_BOILER_FLOW_TEMPERATURE_SENSOR config;
           _ff_k_flow := default DEFAULT_FF_K_FLOW (CONF_FF_K_FLOW config);
           _ff_k_outdoor := default DEFAULT_FF_K_OUTDOOR (CONF_FF_K_OUTDOOR config);
           _ff_tflow_ref := default DEFAULT_FF_TFLOW_REF (CONF_FF_TFLOW_REF config);
           _ff_tout_ref := default DEFAULT_FF_TOUT_REF (CONF_FF_TOUT_REF config);
           _ff_enable_smoothing :=
             default DEFAULT_FF_ENABLE_SMOOTHING (CONF_FF_ENABLE_SMOOTHING config);
           _ff_flow_tau_s :=
             default DEFAULT_FF_FLOW_FILTER_TAU_S (CONF_FF_FLOW_FILTER_TAU_S config);
           _ff_outdoor_tau_s :=
             default DEFAULT_FF_OUTDOOR_FILTER_TAU_S (CONF_FF_OUTDOOR_FILTER_TAU_S config);
           _ff_flow_deadband_k :=
             default DEFAULT_FF_FLOW_DEADBAND_K (CONF_FF_FLOW_DEADBAND_K config);
           _ff_outdoor_deadband_k :=
             default DEFAULT_FF_OUTDOOR_DEADBAND_K (CONF_FF_OUTDOOR_DEADBAND_K config);
           _proportional_gain := kc;
           _integral_gain := ki;
           _window_threshold_per_min := window_threshold_per_min;
           _window_duration :=
             default DEFAULT_WINDOW_OPEN_DURATION (CONF_WINDOW_OPEN_DURATION config);
           _steady_deadband_c := DEFAULT_STEADY_DEADBAND_C;
           _decay_tau_s := DEFAULT_DECAY_TAU_S |},
        {| _target_temp := target_temp;
           _hvac_mode := AUTO;
           _current_temperature := None;
           _valve_position := VALVE_CLOSED_POSITION;
           _desired_valve_position := Some VALVE_CLOSED_POSITION;
           _last_valve_send_monotonic := None;
           _i_accum := 0;
           _last_update_monotonic := None;
           _last_u_total := None;
           _boost_unsub := false;
           _boost_until := None;
           _actual_valve_position := None;
           _actual_valve_map := ∅;
           _outdoor_temp := None;
           _boiler_flow_temp := None;
           _flow_filt := None;
           _outdoor_filt := None;
           _last_ff_update_monotonic := None;
           _last_window_check := None;
           _window_open_until := None;
           _diag_error_c := None;
           _diag_error_norm := None;
           _diag_u_pi := None;
           _diag_u_i := None;
           _diag_u_ff := None;
           _diag_u_total := None |}).

(** ** The state-transformer monad of the methods *)

Record World := {
  entity : State;
  clock_reads : nat;
  service_calls : list ServiceCall
}.

Definition with_entity (s : State) (w : World) : World :=
  {| entity := s; clock_reads := clock_reads w; service_calls := service_calls w |}.

Definition M (A : Type) : Type := World -> A * World.

Definition ret {A} (a : A) : M A := fun w => (a, w).

Definition bind {A B} (m : M A) (k : A -> M B) : M B :=
  fun w => let '(a, w') := m w in k a w'.

Notation "'let*' x ':=' m 'in' k" := (bind m (fun x => k))
  (at level 10, x pattern, m at level 100, k at level 200).
Notation "m ';;' k" := (bind m (fun _ => k))
  (at level 100, k at level 200, right associativity).

(** Read an attribute, assign attributes, run a method that needs only the
    entity. *)
Definition self_get {A} (f : State -> A) : M A := fun w => (f (entity w), w).

Definition self_do {A} (f : State -> A * State) : M A :=
  fun w =>
    let '(a, s') := f (entity w) in
    (a, with_entity s' w).

Definition self_set (f : State -> State) : M unit :=
  self_do (fun s => (tt, f s)).

(** [for x in xs: body(x)]. *)
Fixpoint for_each {A} (xs : list A) (body : A -> M unit) : M unit :=
  match xs with
  | [] => ret tt
  | x :: xs' => body x ;; for_each xs' body
  end.

Definition when (b : bool) (m : M unit) : M unit := if b then m else ret tt.

(** ** The controller *)

Section Controller.

(** [VALVE_MIN_STEP] is imported from [const.py], which does not define it:
    the minimum actuator step is a parameter of the model. *)
Variable VALVE_MIN_STEP : Z.
Variable env : Env.
Variable params : Params.

(** [time.monotonic()]. *)
Definition time_monotonic : M R :=
  fun w =>
    (monotonic env (clock_reads w),
     {| entity := entity w; clock_reads := S (clock_reads w);
        service_calls := service_calls w |}).

(** [await self.hass.services.async_call(...)]: the call is recorded; the
    result tells whether it raised. *)
Definition async_call (c : ServiceCall) : M bool :=
  fun w =>
    (call_raises env c,
     {| entity := entity w; clock_reads := clock_reads w;
        service_calls := service_calls w ++ [c] |}).

(** [async_call_later(self.hass, delay, action)]: the result tells whether
    scheduling the timer raised. *)
Definition async_call_later : M bool :=
  fun w => (call_later_raises env (clock_reads w), w).

(** [_ewma(prev, val, tau, dt_s)]. *)
Definition _ewma (prev : option R) (val tau : R) (dt_s : option R) : R :=
  match dt_s with
  | None => val
  | Some dt =>
      if negb (_ff_enable_smoothing params) || (tau <=? 0) || (dt <=? 0) then val
      else
        let alpha := 1 - exp (- dt / Py.max (1 / 1000000) tau) in
        match prev with
        | None => val
        | Some prev => prev + alpha * (val - prev)
        end
  end.

(** [_compute_error_and_timing()], after [now = time.monotonic()]. *)
Definition compute_error_and_timing_at (now : R) (s : State)
  : (R * R * R * option R) * State :=
  let error := _target_temp s - Py.or_float (_current_temperature s) (_target_temp s) in
  let s := set_diag_error_c (Some error) s in
  let temp_range := Py.max MIN_TEMP_RANGE_C (_max_temp params - _min_temp params) in
  let dt :=
    match _last_update_monotonic s with
    | Some last => Some (Py.max (1 / 1000000) (now - last))
    | None => None
    end in
  let s := set_last_update_monotonic (Some now) s in
  let norm_error := Py.max 0 (Py.min error temp_range) / temp_range in
  let s := set_diag_error_norm (Some norm_error) s in
  ((error, temp_range, norm_error, dt), s).

Definition _compute_error_and_timing : M (R * R * R * option R) :=
  let* now := time_monotonic in
  self_do (compute_error_and_timing_at now).

(** [_update_feedforward()], after [ff_now = time.monotonic()]; returns
    [(u_ff_raw, u_ff)]. *)
Definition update_feedforward_at (ff_now : R) (s : State) : (R * R) * State :=
  let ff_dt :=
    match _last_ff_update_monotonic s with
    | Some last => Some (Py.max 0 (ff_now - last))
    | None => None
    end in
  let s := set_last_ff_update_monotonic (Some ff_now) s in
  let s :=
    match _boiler_flow_temp s with
    | Some t =>
        set_flow_filt (Some (_ewma (_flow_filt s) t (_ff_flow_tau_s params) ff_dt)) s
    | None => s
    end in
  let s :=
    match _outdoor_temp s with
    | Some t =>
        set_outdoor_filt
          (Some (_ewma (_outdoor_filt s) t (_ff_outdoor_tau_s params) ff_dt)) s
    | None => s
    end in
  let u_ff_raw := 0 in
  let u_ff_raw :=
    match _flow_filt s with
    | Some flow_filt =>
        if negb (_ff_k_flow params =? 0) then
          let d_flow := _ff_tflow_ref params - flow_filt in
          let d_flow := _apply_deadband d_flow (_ff_flow_deadband_k params) in
          u_ff_raw + _ff_k_flow params * d_flow
        else u_ff_raw
    | None => u_ff_raw
    end in
  let u_ff_raw :=
    match _outdoor_filt s with
    | Some outdoor_filt =>
        if negb (_ff_k_outdoor params =? 0) then
          let d_out := _ff_tout_ref params - outdoor_filt in
          let d_out := _apply_deadband d_out (_ff_outdoor_deadband_k params) in
          u_ff_raw + _ff_k_outdoor params * d_out
        else u_ff_raw
    | None => u_ff_raw
    end in
  let u_ff := u_ff_raw in
  let s := set_diag_u_ff (Some u_ff) s in
  ((u_ff_raw, u_ff), s).

Definition _update_feedforward : M (R * R) :=
  let* ff_now := time_monotonic in
  self_do (update_feedforward_at ff_now).

(** [_update_integral(norm_error, heat_side, cool_side, dt, u_ff)]. *)
Definition _update_integral (norm_error : R) (heat_side cool_side : bool)
    (dt : option R) (u_ff : R) (s : State) : State :=
  match dt with
  | None => s
  | Some dt_s =>
      if 0 <? dt_s then
        let u_p := _proportional_gain params * norm_error in
        let u_i := _integral_gain params * _i_accum s in
        let u_pi_est := u_p + u_i in
        let u_total_est := u_pi_est + u_ff in
        if heat_side then
          if (u_pi_est <? 1) && (u_total_est <? 1)
          then set_i_accum (_i_accum s + norm_error * dt_s) s
          else s
        else if 0 <? _decay_tau_s params then
          let alpha := _alpha dt (_decay_tau_s params) in
          let u_i_new := (1 - alpha) * u_i in
          if 0 <? _integral_gain params
          then set_i_accum (Py.max 0 (u_i_new / _integral_gain params)) s
          else set_i_accum 0 s
        else set_i_accum 0 s
      else s
  end.

(** [_compute_pi(norm_error)] returns [(u_pi, u_i)]. *)
Definition _compute_pi (norm_error : R) (s : State) : (R * R) * State :=
  let u_i := _integral_gain params * _i_accum s in
  let u_pi := _proportional_gain params * norm_error + u_i in
  let s := set_diag_u_pi (Some u_pi) s in
  let s := set_diag_u_i (Some u_i) s in
  ((u_pi, u_i), s).

(** The decay baseline [prev_u] of [_decide_u_total]. *)
Definition prev_u (s : State) : R :=
  match _last_u_total s with
  | Some u => u
  | None =>
      let position :=
        match _desired_valve_position s with
        | Some desired => desired
        | None => _valve_position s
        end in
      _clamp01 (IZR position / IZR VALVE_OPEN_POSITION)
  end.

(** [_decide_u_total(u_pi, u_ff, error, heat_side, dt)]. *)
Definition _decide_u_total (u_pi u_ff error : R) (heat_side : bool)
    (dt : option R) (s : State) : R :=
  let prev_u := prev_u s in
  let u_suggest := _clamp01 (u_pi + u_ff) in
  let has_timing :=
    match dt with
    | Some dt_s => (0 <? dt_s) && (0 <? _decay_tau_s params)
    | None => false
    end in
  let eps_blend := Py.max 0 (_steady_deadband_c params) in
  if (0 <? eps_blend) && (Py.abs error <=? eps_blend) then
    let x := (error + eps_blend) / (2 * eps_blend) in
    let x := _clamp x 0 1 in
    let w := x * x * (3 - 2 * x) in
    let u_heat := u_suggest in
    let u_decay :=
      if has_timing then
        let a := _alpha dt (_decay_tau_s params) in
        Py.max 0 (prev_u + a * (0 - prev_u))
      else 0 in
    let u_blend := w * u_heat + (1 - w) * u_decay in
    _clamp01 u_blend
  else if heat_side then u_suggest
  else if has_timing then
    let a := _alpha dt (_decay_tau_s params) in
    Py.max 0 (prev_u + a * (0 - prev_u))
  else 0.

(** [_check_window_open(current_temp, now)]. *)
Definition _check_window_open (current_temp now : R) (s : State) : bool * State :=
  let rapid_drop (s : State) : bool * State :=
    match _last_window_check s with
    | None => (false, set_last_window_check (Some (current_temp, now)) s)
    | Some (last_temp, last_time) =>
        let dt := now - last_time in
        if dt <? WINDOW_CHECK_MIN_INTERVAL_S then (false, s)
        else
          let delta_t := current_temp - last_temp in
          let rate_per_min := (delta_t / dt) * 60 in
          let s := set_last_window_check (Some (current_temp, now)) s in
          if rate_per_min <? - _window_threshold_per_min params
          then (true, set_window_open_until (Some (now + _window_duration params)) s)
          else (false, s)
    end in
  match _window_open_until s with
  | Some until =>
      if now <? until then (true, s)
      else rapid_drop (set_window_open_until None s)
  | None => rapid_drop s
  end.

(** *** Reading the actuators back *)

Definition valve_entity_id (trv_entity_id : string) : string :=
  (Py.replace "climate." "number." trv_entity_id ++ "_valve_position")%string.

(** [max(VALVE_CLOSED_POSITION, min(VALVE_OPEN_POSITION, int(round(v))))]. *)
Definition clamp_reading (v : R) : Z :=
  Z.max VALVE_CLOSED_POSITION (Z.min VALVE_OPEN_POSITION (Py.round v)).

(** [float(vp)] on an attribute value; [None] for [TypeError] or
    [ValueError]. *)
Definition float_of_attr (vp : AttrValue) : option R :=
  match vp with
  | AttrFloat x => Some x
  | AttrStr s => float_of_str env s
  | AttrOther => None
  end.

Definition is_unavailable (state : string) : bool :=
  String.eqb state STATE_UNAVAILABLE || String.eqb state STATE_UNKNOWN.

(** One iteration of the loop of [_async_update_actual_valve_position]: the
    [v_clamped] it records for the TRV, if it records one. *)
Definition read_actual (trv_entity_id : string) : option Z :=
  let from_number :=
    match states_get env (valve_entity_id trv_entity_id) with
    | Some valve_state =>
        if negb (is_unavailable (hs_state valve_state))
        then float_of_str env (hs_state valve_state)
        else None
    | None => None
    end in
  match from_number with
  | Some v => Some (clamp_reading v)
  | None =>
      match states_get env trv_entity_id with
      | Some trv_state =>
          match hs_valve_position trv_state with
          | Some vp =>
              match float_of_attr vp with
              | Some v => Some (clamp_reading v)
              | None => None
              end
          | None => None
          end
      | None => None
      end
  end.

Fixpoint read_actuals (trvs : list string) (max_pos : option Z)
    (local_map : gmap string Z) : option Z * gmap string Z :=
  match trvs with
  | [] => (max_pos, local_map)
  | trv_entity_id :: trvs' =>
      match read_actual trv_entity_id with
      | Some v_clamped =>
          let max_pos :=
            match max_pos with
            | None => v_clamped
            | Some m => Z.max m v_clamped
            end in
          read_actuals trvs' (Some max_pos) (<[trv_entity_id := v_clamped]> local_map)
      | None => read_actuals trvs' max_pos local_map
      end
  end.

(** [_async_update_actual_valve_position()]. *)
Definition _async_update_actual_valve_position : M unit :=
  let '(max_pos, local_map) := read_actuals (_trv_entities params) None ∅ in
  self_set (set_actual_valve_position max_pos) ;;
  self_set (set_actual_valve_map local_map).

(** *** Dispatch *)

(** [trv_actual is not None and trv_actual != position]. *)
Definition differs (trv_actual : option Z) (position : Z) : bool :=
  match trv_actual with
  | Some a => negb (a =? position)%Z
  | None => false
  end.

(** [trv_actual is not None and trv_actual == position]. *)
Definition at_target (trv_actual : option Z) (position : Z) : bool :=
  match trv_actual with
  | Some a => (a =? position)%Z
  | None => false
  end.

(** The body of the dispatch loop of [_async_set_valve_position] for one
    TRV; an exception raised by a service call ends the iteration. *)
Definition send_to_trv (position : Z) (resend_selectively : bool)
    (trv_entity_id : string) : M unit :=
  match states_get env trv_entity_id with
  | None => ret tt
  | Some trv_state =>
      let* trv_actual := self_get (fun s => _actual_valve_map s !! trv_entity_id) in
      if resend_selectively && at_target trv_actual position then ret tt
      else
        match states_get env (valve_entity_id trv_entity_id) with
        | Some _ =>
            async_call (number_set_value (valve_entity_id trv_entity_id) position) ;;
            ret tt
        | None =>
            if (position =? VALVE_CLOSED_POSITION)%Z then
              async_call (climate_set_hvac_mode trv_entity_id OFF) ;;
              ret tt
            else
              let* raised :=
                if String.eqb (hs_state trv_state) (HVACMode_value OFF)
                then async_call (climate_set_hvac_mode trv_entity_id HEAT)
                else ret false in
              if raised then ret tt
              else
                let temp_range := _max_temp params - _min_temp params in
                let virtual_setpoint :=
                  _min_temp params
                  + (IZR position / IZR VALVE_OPEN_POSITION) * temp_range in
                async_call (climate_set_temperature trv_entity_id virtual_setpoint) ;;
                ret tt
        end
  end.

(** [_async_set_valve_position(position)]. *)
Definition _async_set_valve_position (position : Z) : M unit :=
  let step := Z.max 1 VALVE_MIN_STEP in
  let position :=
    if (1 <? step)%Z
    then _snap_to_step position step VALVE_CLOSED_POSITION VALVE_OPEN_POSITION
    else _clampZ position VALVE_CLOSED_POSITION VALVE_OPEN_POSITION in
  let* s := self_get (fun s => s) in
  let unchanged := (position =? _valve_position s)%Z in
  let resend_selectively :=
    unchanged
    && (existsb (fun trv => differs (_actual_valve_map s !! trv) position)
          (_trv_entities params)
        || differs (_actual_valve_position s) position) in
  if unchanged && negb resend_selectively then ret tt
  else
    self_set (set_valve_position position) ;;
    for_each (_trv_entities params) (send_to_trv position resend_selectively) ;;
    _async_update_actual_valve_position.

(** [_async_request_valve_position(position, force)]. *)
Definition _async_request_valve_position (position : Z) (force : bool) : M unit :=
  let position := Z.max VALVE_CLOSED_POSITION (Z.min VALVE_OPEN_POSITION position) in
  self_set (set_desired_valve_position (Some position)) ;;
  let* now := time_monotonic in
  let* last := self_get _last_valve_send_monotonic in
  let send_now :=
    force
    || match last with
       | None => true
       | Some last => VALVE_UPDATE_MIN_INTERVAL_S <=? now - last
       end in
  if send_now then
    _async_set_valve_position position ;;
    let* sent := time_monotonic in
    self_set (set_last_valve_send_monotonic (Some sent))
  else ret tt.

(** *** Sensor updates *)

(** [float(state.state)] of a sensor that is present and available. *)
Definition read_sensor (entity_id : string) : option R :=
  match states_get env entity_id with
  | Some st =>
      if is_unavailable (hs_state st) then None else float_of_str env (hs_state st)
  | None => None
  end.

(** [_async_update_temperature()]: the reading is kept when there is none. *)
Definition _async_update_temperature : M unit :=
  match read_sensor (_temperature_sensor params) with
  | Some t => self_set (set_current_temperature (Some t))
  | None => ret tt
  end.

(** Python truthiness of [str | None]. *)
Definition configured (sensor : option string) : option string :=
  match sensor with
  | Some EmptyString => None
  | _ => sensor
  end.

(** [_async_update_ff_sensors()]. *)
Definition _async_update_ff_sensors : M unit :=
  match configured (_outdoor_sensor params) with
  | Some sensor => self_set (set_outdoor_temp (read_sensor sensor))
  | None => ret tt
  end ;;
  match configured (_boiler_flow_sensor params) with
  | Some sensor => self_set (set_boiler_flow_temp (read_sensor sensor))
  | None => ret tt
  end.

(** *** Modes and the control tick *)

Definition _attr_hvac_modes : list HVACMode := [OFF; AUTO; HEAT].

(** [_handle_off_mode()]. The source also resets [_prev_norm_error], an
    attribute that nothing reads. *)
Definition _handle_off_mode : M bool :=
  let* mode := self_get _hvac_mode in
  if negb (HVACMode_eqb mode OFF) then ret false
  else
    _async_request_valve_position VALVE_CLOSED_POSITION true ;;
    self_set (set_i_accum 0) ;;
    self_set (set_last_update_monotonic None) ;;
    self_set (set_diag_error_c None) ;;
    self_set (set_diag_error_norm None) ;;
    self_set (set_diag_u_pi None) ;;
    self_set (set_diag_u_i None) ;;
    self_set (set_diag_u_ff None) ;;
    self_set (set_diag_u_total None) ;;
    ret true.

(** [_cancel_boost()]. *)
Definition _cancel_boost : M unit :=
  self_set (set_boost_unsub false) ;;
  self_set (set_boost_until None).

(** The part of [_async_control_heating()] that follows the mode handlers:
    the AUTO core loop, with the window-open override. *)
Definition control_auto : M unit :=
  let* current := self_get _current_temperature in
  match current with
  | None => ret tt
  | Some current_temperature =>
      let* now := time_monotonic in
      let* window_open := self_do (_check_window_open current_temperature now) in
      if window_open then
        self_set (set_i_accum 0) ;;
        let* valve_position := self_get _valve_position in
        when (negb (valve_position =? VALVE_CLOSED_POSITION)%Z)
          (_async_request_valve_position VALVE_CLOSED_POSITION true)
      else
        let* (error, temp_range, norm_error, dt) := _compute_error_and_timing in
        let* (_u_ff_raw, u_ff) := _update_feedforward in
        let eps := _steady_deadband_c params in
        let '(in_band, heat_side, cool_side) := _classify_band error eps in
        self_set (_update_integral norm_error heat_side cool_side dt u_ff) ;;
        let* (u_pi, _u_i) := self_do (_compute_pi norm_error) in
        let* u_total := self_get (_decide_u_total u_pi u_ff error heat_side dt) in
        self_set (set_diag_u_total (Some u_total)) ;;
        self_set (set_last_u_total (Some u_total)) ;;
        let valve_position := Py.round (u_total * IZR VALVE_OPEN_POSITION) in
        _async_request_valve_position valve_position false
  end.

(** [async_set_hvac_mode(hvac_mode)], given what its call of
    [_async_control_heating()] does. When [async_call_later] raises, the
    handler leaves no timer handle. *)
Definition set_hvac_mode_with (control_heating : M (option unit))
    (hvac_mode : HVACMode) : M (option unit) :=
  if negb (existsb (HVACMode_eqb hvac_mode) _attr_hvac_modes) then ret (Some tt)
  else
    _cancel_boost ;;
    if HVACMode_eqb hvac_mode HEAT then
      self_set (set_hvac_mode HEAT) ;;
      _async_request_valve_position VALVE_OPEN_POSITION true ;;
      let* now := time_monotonic in
      self_set (set_boost_until (Some (now + DEFAULT_BOOST_DURATION_S))) ;;
      let* raised := async_call_later in
      self_set (set_boost_unsub (negb raised)) ;;
      ret (Some tt)
    else
      self_set (set_hvac_mode hvac_mode) ;;
      control_heating.

(** [_handle_boost_mode()], given what its call of
    [async_set_hvac_mode(HVACMode.AUTO)] does. *)
Definition handle_boost_mode_with (set_auto : M (option unit)) : M (option bool) :=
  let* mode := self_get _hvac_mode in
  if negb (HVACMode_eqb mode HEAT) then ret (Some false)
  else
    _async_request_valve_position VALVE_OPEN_POSITION true ;;
    let* boost_until := self_get _boost_until in
    match boost_until with
    | None => ret (Some true)
    | Some boost_until =>
        let* now := time_monotonic in
        if boost_until <=? now then
          let* done := set_auto in
          ret (option_map (fun _ => true) done)
        else ret (Some true)
    end.

(** [_async_control_heating()]. The method and [async_set_hvac_mode] call
    each other; [fuel] bounds the nesting and [None] means it ran out. *)
Fixpoint _async_control_heating (fuel : nat) : M (option unit) :=
  match fuel with
  | O => ret None
  | S fuel' =>
      let* off := _handle_off_mode in
      if off then ret (Some tt)
      else
        let* boost :=
          handle_boost_mode_with
            (set_hvac_mode_with (_async_control_heating fuel') AUTO) in
        match boost with
        | None => ret None
        | Some true => ret (Some tt)
        | Some false => control_auto ;; ret (Some tt)
        end
  end.

Definition async_set_hvac_mode (fuel : nat) (hvac_mode : HVACMode)
  : M (option unit) :=
  set_hvac_mode_with (_async_control_heating fuel) hvac_mode.

Definition _handle_boost_mode (fuel : nat) : M (option bool) :=
  handle_boost_mode_with (async_set_hvac_mode fuel AUTO).

(** [_handle_boost_timeout(_now)]. *)
Definition _handle_boost_timeout (fuel : nat) : M (option unit) :=
  _cancel_boost ;;
  async_set_hvac_mode fuel AUTO.

(** [async_set_temperature], with [temperature] the value of
    [kwargs.get(ATTR_TEMPERATURE)]. *)
Definition async_set_temperature (fuel : nat) (temperature : option R)
  : M (option unit) :=
  match temperature with
  | None => ret (Some tt)
  | Some temperature =>
      self_set (set_target_temp temperature) ;;
      _async_control_heating fuel
  end.

Definition async_turn_off (fuel : nat) : M (option unit) :=
  async_set_hvac_mode fuel OFF.

Definition async_turn_on (fuel : nat) : M (option unit) :=
  async_set_hvac_mode fuel AUTO.

End Controller.

(** ** Vocabulary of the statements *)

(** The IMC process parameters [__init__] reads from a configuration. *)
Definition imc_kp_proc (config : Config) : R :=
  default DEFAULT_IMC_PROCESS_GAIN (CONF_IMC_PROCESS_GAIN config).
Definition imc_tau (config : Config) : R :=
  default DEFAULT_IMC_TIME_CONSTANT (CONF_IMC_TIME_CONSTANT config).
Definition imc_theta (config : Config) : R :=
  default DEFAULT_IMC_DEAD_TIME (CONF_IMC_DEAD_TIME config).
Definition imc_lambda (config : Config) : R :=
  default DEFAULT_IMC_LAMBDA (CONF_IMC_LAMBDA config).

(** The tuning [__init__] rejects. *)
Definition invalid_tuning (config : Config) : Prop :=
  imc_kp_proc config <= 0 \/ imc_tau config <= 0 \/ imc_lambda config <= 0
  \/ imc_lambda config + imc_theta config <= 0.

(** A configuration that sets the temperature range, the target and the
    process parameters and leaves every other key out. *)
Definition tuning_config (min_temp max_temp target_temp : option R)
    (kp_proc tau theta lam : option R) : Config :=
  {| CONF_TEMPERATURE_SENSOR := "sensor.room";
     CONF_TRV_ENTITIES := Some ["climate.trv"%string];
     CONF_MIN_TEMP := min_temp;
     CONF_MAX_TEMP := max_temp;
     CONF_TARGET_TEMP := target_temp;
     CONF_OUTDOOR_TEMPERATURE_SENSOR := None;
     CONF_BOILER_FLOW_TEMPERATURE_SENSOR := None;
     CONF_FF_K_FLOW := None;
     CONF_FF_K_OUTDOOR := None;
     CONF_FF_TFLOW_REF := None;
     CONF_FF_TOUT_REF := None;
     CONF_FF_ENABLE_SMOOTHING := None;
     CONF_FF_FLOW_FILTER_TAU_S := None;
     CONF_FF_OUTDOOR_FILTER_TAU_S := None;
     CONF_FF_FLOW_DEADBAND_K := None;
     CONF_FF_OUTDOOR_DEADBAND_K := None;
     CONF_WINDOW_OPEN_THRESHOLD_PER_MIN := None;
     CONF_WINDOW_OPEN_DURATION := None;
     CONF_IMC_PROCESS_GAIN := kp_proc;
     CONF_IMC_TIME_CONSTANT := tau;
     CONF_IMC_DEAD_TIME := theta;
     CONF_IMC_LAMBDA := lam |}.

(** The tuning a reading of the process parameters as "all four must be
    positive" would reject. *)
Definition all_four_positive_violated (config : Config) : Prop :=
  imc_kp_proc config <= 0 \/ imc_tau config <= 0 \/ imc_theta config <= 0
  \/ imc_lambda config <= 0 \/ imc_lambda config + imc_theta config <= 0.

(** The default tuning with the dead time set to zero. *)
Definition zero_dead_time_config : Config :=
  tuning_config None None None None None (Some 0) None.

(** *** Dispatch *)

(** The world after the service calls [cs] were issued. *)
Definition add_calls (cs : list ServiceCall) (w : World) : World :=
  {| entity := entity w; clock_reads := clock_reads w;
     service_calls := service_calls w ++ cs |}.

(** The service calls the dispatch loop issues for one TRV, given the
    observed-position cache. *)
Definition trv_calls (env : Env) (params : Params) (position : Z)
    (resend_selectively : bool) (actual_map : gmap string Z)
    (trv_entity_id : string) : list ServiceCall :=
  match states_get env trv_entity_id with
  | None => []
  | Some trv_state =>
      if resend_selectively && at_target (actual_map !! trv_entity_id) position
      then []
      else
        match states_get env (valve_entity_id trv_entity_id) with
        | Some _ => [number_set_value (valve_entity_id trv_entity_id) position]
        | None =>
            if (position =? VALVE_CLOSED_POSITION)%Z
            then [climate_set_hvac_mode trv_entity_id OFF]
            else
              let set_temperature :=
                climate_set_temperature trv_entity_id
                  (_min_temp params
                   + (IZR position / IZR VALVE_OPEN_POSITION)
                     * (_max_temp params - _min_temp params)) in
              if String.eqb (hs_state trv_state) (HVACMode_value OFF) then
                climate_set_hvac_mode trv_entity_id HEAT
                :: (if call_raises env (climate_set_hvac_mode trv_entity_id HEAT)
                    then [] else [set_temperature])
              else [set_temperature]
        end
  end.

(** The position [_async_set_valve_position] works with: the request after
    the minimum-step quantizer. *)
Definition quantize (VALVE_MIN_STEP : Z) (position : Z) : Z :=
  if (1 <? Z.max 1 VALVE_MIN_STEP)%Z
  then _snap_to_step position (Z.max 1 VALVE_MIN_STEP)
         VALVE_CLOSED_POSITION VALVE_OPEN_POSITION
  else _clampZ position VALVE_CLOSED_POSITION VALVE_OPEN_POSITION.

(** Whether an observed position, of some TRV or the aggregated one, is
    known and differs from [position]. *)
Definition observed_mismatch (params : Params) (s : State) (position : Z) : bool :=
  existsb (fun trv => differs (_actual_valve_map s !! trv) position)
    (_trv_entities params)
  || differs (_actual_valve_position s) position.

(** The world after the observed-position cache was refreshed. *)
Definition refresh_actual (env : Env) (params : Params) (w : World) : World :=
  let '(max_pos, local_map) := read_actuals env (_trv_entities params) None ∅ in
  with_entity
    (set_actual_valve_map local_map (set_actual_valve_position max_pos (entity w))) w.

(** The entity a service call addresses. *)
Definition call_entity (c : ServiceCall) : string :=
  match c with
  | number_set_value entity_id _ => entity_id
  | climate_set_hvac_mode entity_id _ => entity_id
  | climate_set_temperature entity_id _ => entity_id
  end.

(** *** Throttling *)

(** Whether a request that is not forced, issued in [w], sends: the value of
    [send_now]. *)
Definition due (env : Env) (w : World) : bool :=
  match _last_valve_send_monotonic (entity w) with
  | None => true
  | Some last => VALVE_UPDATE_MIN_INTERVAL_S <=? monotonic env (clock_reads w) - last
  end.

Definition clamp_position (position : Z) : Z :=
  Z.max VALVE_CLOSED_POSITION (Z.min VALVE_OPEN_POSITION position).

(** A request that only records the desired position and reads the clock. *)
Definition record_only (position : Z) (w : World) : World :=
  {| entity := set_desired_valve_position (Some (clamp_position position)) (entity w);
     clock_reads := S (clock_reads w);
     service_calls := service_calls w |}.

(** A request that performs the actual send and stamps its time. *)
Definition send_and_stamp (VALVE_MIN_STEP : Z) (env : Env) (params : Params)
    (position : Z) (w : World) : World :=
  let w1 :=
    snd (_async_set_valve_position VALVE_MIN_STEP env params
           (clamp_position position) (record_only position w)) in
  {| entity :=
       set_last_valve_send_monotonic (Some (monotonic env (clock_reads w1))) (entity w1);
     clock_reads := S (clock_reads w1);
     service_calls := service_calls w1 |}.


(** *** The control tick *)

(** The computations of one AUTO tick between the window check and the
    dispatch request, given the two clock readings they take: the requested
    valve position and the entity after them. *)
Definition auto_pipeline (params : Params) (now ff_now : R) (s : State) : Z * State :=
  let '((error, _, norm_error, dt), s) := compute_error_and_timing_at params now s in
  let '((_, u_ff), s) := update_feedforward_at params ff_now s in
  let '(_, heat_side, cool_side) := _classify_band error (_steady_deadband_c params) in
  let s := _update_integral params norm_error heat_side cool_side dt u_ff s in
  let '((u_pi, _), s) := _compute_pi params norm_error s in
  let u_total := _decide_u_total params u_pi u_ff error heat_side dt s in
  let s := set_last_u_total (Some u_total) (set_diag_u_total (Some u_total) s) in
  (Py.round (u_total * IZR VALVE_OPEN_POSITION), s).

(** A service call that closes an actuator. *)
Definition closes (c : ServiceCall) : Prop :=
  match c with
  | number_set_value _ value => value = VALVE_CLOSED_POSITION
  | climate_set_hvac_mode _ hvac_mode => hvac_mode = OFF
  | climate_set_temperature _ _ => False
  end.

(** *** Scenarios *)

Definition example_config : Config :=
  tuning_config (Some 5) (Some 28) (Some 22)
    (Some 4) (Some 5400) (Some 900) (Some 5400).

Definition example_params : Params :=
  {| _temperature_sensor := "sensor.room";
     _trv_entities := ["climate.trv"%string];
     _min_temp := 5;
     _max_temp := 28;
     _outdoor_sensor := None;
     _boiler_flow_sensor := None;
     _ff_k_flow := DEFAULT_FF_K_FLOW;
     _ff_k_outdoor := DEFAULT_FF_K_OUTDOOR;
     _ff_tflow_ref := DEFAULT_FF_TFLOW_REF;
     _ff_tout_ref := DEFAULT_FF_TOUT_REF;
     _ff_enable_smoothing := true;
     _ff_flow_tau_s := DEFAULT_FF_FLOW_FILTER_TAU_S;
     _ff_outdoor_tau_s := DEFAULT_FF_OUTDOOR_FILTER_TAU_S;
     _ff_flow_deadband_k := DEFAULT_FF_FLOW_DEADBAND_K;
     _ff_outdoor_deadband_k := DEFAULT_FF_OUTDOOR_DEADBAND_K;
     _proportional_gain := 69 / 14;
     _integral_gain := 23 / 25200;
     _window_threshold_per_min := 1;
     _window_duration := 900;
     _steady_deadband_c := 1 / 2;
     _decay_tau_s := 900 |}.

Definition example_state : State :=
  {| _target_temp := 22;
     _hvac_mode := AUTO;
     _current_temperature := None;
     _valve_position := 0;
     _desired_valve_position := Some 0%Z;
     _last_valve_send_monotonic := None;
     _i_accum := 0;
     _last_update_monotonic := None;
     _last_u_total := None;
     _boost_unsub := false;
     _boost_until := None;
     _actual_valve_position := None;
     _actual_valve_map := ∅;
     _outdoor_temp := None;
     _boiler_flow_temp := None;
     _flow_filt := None;
     _outdoor_filt := None;
     _last_ff_update_monotonic := None;
     _last_window_check := None;
     _window_open_until := None;
     _diag_error_c := None;
     _diag_error_norm := None;
     _diag_u_pi := None;
     _diag_u_i := None;
     _diag_u_ff := None;
     _diag_u_total := None |}.

(** [example_params] with another list of TRVs. *)
Definition with_trv_entities (trvs : list string) (p : Params) : Params :=
  {| _temperature_sensor := _temperature_sensor p;
     _trv_entities := trvs;
     _min_temp := _min_temp p;
     _max_temp := _max_temp p;
     _outdoor_sensor := _outdoor_sensor p;
     _boiler_flow_sensor := _boiler_flow_sensor p;
     _ff_k_flow := _ff_k_flow p;
     _ff_k_outdoor := _ff_k_outdoor p;
     _ff_tflow_ref := _ff_tflow_ref p;
     _ff_tout_ref := _ff_tout_ref p;
     _ff_enable_smoothing := _ff_enable_smoothing p;
     _ff_flow_tau_s := _ff_flow_tau_s p;
     _ff_outdoor_tau_s := _ff_outdoor_tau_s p;
     _ff_flow_deadband_k := _ff_flow_deadband_k p;
     _ff_outdoor_deadband_k := _ff_outdoor_deadband_k p;
     _proportional_gain := _proportional_gain p;
     _integral_gain := _integral_gain p;
     _window_threshold_per_min := _window_threshold_per_min p;
     _window_duration := _window_duration p;
     _steady_deadband_c := _steady_deadband_c p;
     _decay_tau_s := _decay_tau_s p |}.

(** A host in which every entity id resolves to a state ["heat"], no call
    raises, and the clock advances by ten seconds per reading from [t0]. *)
Definition present_env (t0 : R) : Env :=
  {| monotonic := fun n => t0 + 10 * INR n;
     states_get := fun _ => Some {| hs_state := "heat"; hs_valve_position := None |};
     call_raises := fun _ => false;
     call_later_raises := fun _ => false;
     float_of_str := fun _ => None |}.

(** A host that knows only ["climate.trv_a"], switched off and without a
    number entity; every service call raises when [raises] holds. *)
Definition off_trv_env (raises : bool) : Env :=
  {| monotonic := fun _ => 0;
     states_get := fun entity_id =>
       if String.eqb entity_id "climate.trv_a"
       then Some {| hs_state := "off"; hs_valve_position := None |}
       else None;
     call_raises := fun _ => raises;
     call_later_raises := fun _ => false;
     float_of_str := fun _ => None |}.

Definition world_of (s : State) : World :=
  {| entity := s; clock_reads := 0; service_calls := [] |}.

(** Two TRVs, the last committed position 150, the first TRV observed at 100
    and the second one not reporting. *)
Definition two_trv_params : Params :=
  with_trv_entities ["climate.trv_a"; "climate.trv_b"]%string example_params.

Definition two_trv_state : State :=
  set_actual_valve_map (<["climate.trv_a"%string := 100%Z]> ∅)
    (set_actual_valve_position (Some 100%Z)
       (set_valve_position 150 example_state)).

(** A state whose last actual send was stamped at time 100. *)
Definition recently_sent_state : State :=
  set_last_valve_send_monotonic (Some 100) example_state.


(** [p] with another suppression duration. *)
Definition with_window_duration (window_duration : R) (p : Params) : Params :=
  {| _temperature_sensor := _temperature_sensor p;
     _trv_entities := _trv_entities p;
     _min_temp := _min_temp p;
     _max_temp := _max_temp p;
     _outdoor_sensor := _outdoor_sensor p;
     _boiler_flow_sensor := _boiler_flow_sensor p;
     _ff_k_flow := _ff_k_flow p;
     _ff_k_outdoor := _ff_k_outdoor p;
     _ff_tflow_ref := _ff_tflow_ref p;
     _ff_tout_ref := _ff_tout_ref p;
     _ff_enable_smoothing := _ff_enable_smoothing p;
     _ff_flow_tau_s := _ff_flow_tau_s p;
     _ff_outdoor_tau_s := _ff_outdoor_tau_s p;
     _ff_flow_deadband_k := _ff_flow_deadband_k p;
     _ff_outdoor_deadband_k := _ff_outdoor_deadband_k p;
     _proportional_gain := _proportional_gain p;
     _integral_gain := _integral_gain p;
     _window_threshold_per_min := _window_threshold_per_min p;
     _window_duration := window_duration;
     _steady_deadband_c := _steady_deadband_c p;
     _decay_tau_s := _decay_tau_s p |}.

(** The room at 17 degrees two minutes after a reference check at 20 degrees
    taken at time 1000, with the valve last committed at 64. *)
Definition rapid_drop_state : State :=
  set_valve_position 64
    (set_last_window_check (Some (20, 1000))
       (set_current_temperature (Some 17) example_state)).

(** The method [m] leaves the observation [f] of the entity unchanged. *)
Definition keeps {A B} (f : State -> B) (m : M A) : Prop :=
  forall w, f (entity (snd (m w))) = f (entity w).

(** In band at the warm edge: target 21, current 20.5, the previous command
    at 0.05, an empty accumulator and the previous tick at time 0. *)
Definition in_band_state : State :=
  set_last_update_monotonic (Some 0)
    (set_last_u_total (Some (1 / 20))
       (set_target_temp 21
          (set_current_temperature (Some (41 / 2)) example_state))).

(** [n] consecutive decisions of [_decide_u_total], each committed to
    [_last_u_total] as the control tick does, with the same inputs. *)
Fixpoint decide_repeatedly (params : Params) (u_pi u_ff error : R)
    (heat_side : bool) (dt : option R) (n : nat) (s : State) : State :=
  match n with
  | O => s
  | S n' =>
      let u_total := _decide_u_total params u_pi u_ff error heat_side dt s in
      decide_repeatedly params u_pi u_ff error heat_side dt n'
        (set_last_u_total (Some u_total) s)
  end.

(** What [read_actuals] keeps true of its two accumulators. *)
Definition cache_consistent (env : Env) (max_pos : option Z)
    (local_map : gmap string Z) : Prop :=
  (forall trv v, local_map !! trv = Some v ->
     read_actual env trv = Some v /\ exists m, max_pos = Some m /\ (v <= m)%Z)
  /\ (forall m, max_pos = Some m -> exists trv, local_map !! trv = Some m).

(** What the user and the sensors set: the attributes the AUTO core loop and
    the dispatch only read. *)
Definition control_view (s : State)
  : R * HVACMode * option R * bool * option R * option R * option R :=
  (_target_temp s, _hvac_mode s, _current_temperature s, _boost_unsub s,
   _boost_until s, _outdoor_temp s, _boiler_flow_temp s).

(** ** Comparisons and Python numerics *)

Lemma Rltb_iff x y : (x <? y) = true <-> x < y.
Proof. unfold Py.Rltb. destruct (Rlt_dec x y); split; intros; try done; try lra. Qed.

Lemma Rleb_iff x y : (x <=? y) = true <-> x <= y.
Proof. unfold Py.Rleb. destruct (Rle_dec x y); split; intros; try done; try lra. Qed.

Lemma Reqb_iff x y : (x =? y) = true <-> x = y.
Proof. unfold Py.Reqb. destruct (Req_dec_T x y); split; intros; try done; try lra. Qed.

Lemma Rltb_true x y : x < y -> (x <? y) = true.
Proof. apply Rltb_iff. Qed.

Lemma Rltb_false x y : y <= x -> (x <? y) = false.
Proof.
  intros H. destruct (x <? y) eqn:E; [|done]. apply Rltb_iff in E. lra.
Qed.

Lemma Rleb_true x y : x <= y -> (x <=? y) = true.
Proof. apply Rleb_iff. Qed.

Lemma Rleb_false x y : y < x -> (x <=? y) = false.
Proof.
  intros H. destruct (x <=? y) eqn:E; [|done]. apply Rleb_iff in E. lra.
Qed.

Lemma Reqb_true x y : x = y -> (x =? y) = true.
Proof. apply Reqb_iff. Qed.

Lemma Reqb_false x y : x <> y -> (x =? y) = false.
Proof.
  intros H. destruct (x =? y) eqn:E; [|done]. apply Reqb_iff in E. done.
Qed.

Lemma Rltb_cases x y : (x < y /\ (x <? y) = true) \/ (y <= x /\ (x <? y) = false).
Proof.
  destruct (Rlt_dec x y); [left | right]; (split; [lra |]);
    [apply Rltb_true | apply Rltb_false]; lra.
Qed.

Lemma Rleb_cases x y : (x <= y /\ (x <=? y) = true) \/ (y < x /\ (x <=? y) = false).
Proof.
  destruct (Rle_dec x y); [left | right]; (split; [lra |]);
    [apply Rleb_true | apply Rleb_false]; lra.
Qed.

Lemma Reqb_cases x y : (x = y /\ (x =? y) = true) \/ (x <> y /\ (x =? y) = false).
Proof.
  destruct (Req_dec_T x y); [left | right]; (split; [done |]);
    [apply Reqb_true | apply Reqb_false]; done.
Qed.

(** [R_decide] settles every comparison of the goal that linear arithmetic
    decides; [R_cases] splits on the first one that is left. *)
Ltac R_decide :=
  repeat match goal with
    | |- context [?x <? ?y] =>
        first [rewrite (Rltb_true x y) by lra | rewrite (Rltb_false x y) by lra]
    | |- context [?x <=? ?y] =>
        first [rewrite (Rleb_true x y) by lra | rewrite (Rleb_false x y) by lra]
    | |- context [?x =? ?y] =>
        first [rewrite (Reqb_true x y) by lra | rewrite (Reqb_false x y) by lra]
    end.

Ltac R_cases :=
  match goal with
  | |- context [?x <? ?y] =>
      let H := fresh "H" in let E := fresh "E" in
      destruct (Rltb_cases x y) as [[H E] | [H E]]; rewrite E
  | |- context [?x <=? ?y] =>
      let H := fresh "H" in let E := fresh "E" in
      destruct (Rleb_cases x y) as [[H E] | [H E]]; rewrite E
  | |- context [?x =? ?y] =>
      let H := fresh "H" in let E := fresh "E" in
      destruct (Reqb_cases x y) as [[H E] | [H E]]; rewrite E
  end.

Ltac unfold_constants :=
  unfold DEFAULT_MIN_TEMP, DEFAULT_MAX_TEMP, DEFAULT_TARGET_TEMP,
    DEFAULT_FF_K_FLOW, DEFAULT_FF_K_OUTDOOR, DEFAULT_FF_TFLOW_REF,
    DEFAULT_FF_TOUT_REF, DEFAULT_FF_FLOW_FILTER_TAU_S,
    DEFAULT_FF_OUTDOOR_FILTER_TAU_S, DEFAULT_FF_FLOW_DEADBAND_K,
    DEFAULT_FF_OUTDOOR_DEADBAND_K, VALVE_UPDATE_MIN_INTERVAL_S,
    DEFAULT_IMC_PROCESS_GAIN, DEFAULT_IMC_DEAD_TIME, DEFAULT_IMC_TIME_CONSTANT,
    DEFAULT_IMC_LAMBDA, DEFAULT_STEADY_DEADBAND_C, DEFAULT_DECAY_TAU_S,
    DEFAULT_WINDOW_OPEN_THRESHOLD_PER_MIN, DEFAULT_WINDOW_OPEN_DURATION,
    MIN_TEMP_RANGE_C, WINDOW_CHECK_MIN_INTERVAL_S, DEFAULT_BOOST_DURATION_S in *.

Lemma max_spec a b : (a < b /\ Py.max a b = b) \/ (b <= a /\ Py.max a b = a).
Proof. unfold Py.max. R_cases; auto. Qed.

Lemma min_spec a b : (b < a /\ Py.min a b = b) \/ (a <= b /\ Py.min a b = a).
Proof. unfold Py.min. R_cases; auto. Qed.

Lemma abs_spec x : (x < 0 /\ Py.abs x = - x) \/ (0 <= x /\ Py.abs x = x).
Proof. unfold Py.abs. R_cases; auto. Qed.

Lemma max_lower a b : a <= Py.max a b /\ b <= Py.max a b.
Proof. destruct (max_spec a b) as [[? ->] | [? ->]]; lra. Qed.

Lemma or_float_number x y : Py.or_float (Some x) y = x \/ (x = 0 /\ Py.or_float (Some x) y = y).
Proof. unfold Py.or_float. R_cases; auto. Qed.

Lemma or_float_default_zero x : Py.or_float (Some x) 0 = x.
Proof. unfold Py.or_float. R_cases; [symmetry |]; done. Qed.

Lemma clamp_spec x lo hi :
  (x < lo /\ _clamp x lo hi = lo)
  \/ (lo <= x /\ hi < x /\ _clamp x lo hi = hi)
  \/ (lo <= x <= hi /\ _clamp x lo hi = x).
Proof. unfold _clamp. repeat R_cases; auto 6. Qed.

Lemma clamp01_range x : 0 <= _clamp01 x <= 1.
Proof.
  unfold _clamp01.
  destruct (clamp_spec x 0 1) as [[? ->] | [(? & ? & ->) | [? ->]]]; lra.
Qed.

Lemma round_below (z : Z) (x : R) : IZR z <= x < IZR z + 1 / 2 -> Py.round x = z.
Proof.
  intros H. unfold Py.round.
  rewrite (Zfloor_eq z x) by lra. R_decide. reflexivity.
Qed.

Lemma round_above (z : Z) (x : R) :
  IZR z + 1 / 2 < x < IZR z + 1 -> Py.round x = (z + 1)%Z.
Proof.
  intros H. unfold Py.round.
  rewrite (Zfloor_eq z x) by lra. R_decide. reflexivity.
Qed.

Lemma round_integer (z : Z) : Py.round (IZR z) = z.
Proof. apply round_below. lra. Qed.

(** ** Construction and gain derivation *)

Lemma range_floor_pos a b : 0 < Py.max MIN_TEMP_RANGE_C (b - a).
Proof.
  pose proof (max_lower MIN_TEMP_RANGE_C (b - a)) as [H _].
  unfold MIN_TEMP_RANGE_C in *. lra.
Qed.

Lemma init_guard (config : Config) :
  (imc_kp_proc config <=? 0) || (imc_tau config <=? 0) || (imc_lambda config <=? 0)
  || (imc_lambda config + Py.or_float (Some (imc_theta config)) 0 <=? 0) = true
  <-> invalid_tuning config.
Proof.
  rewrite or_float_default_zero. unfold invalid_tuning.
  rewrite !orb_true_iff, !Rleb_iff. tauto.
Qed.


(** C3, as amended: construction raises exactly when [Kp_proc], [tau] or
    [lambda] is not positive or [lambda + theta] is not positive (the dead
    time [theta] alone may be zero or negative); whenever construction
    succeeds both derived gains [Kc] and [Ki] are strictly positive. *)
Theorem init_fails_exactly_on_invalid_tuning (config : Config) :
  match __init__ config with
  | Raise _ => invalid_tuning config
  | Ok (p, _) =>
      ~ invalid_tuning config
      /\ 0 < _proportional_gain p /\ 0 < _integral_gain p
  end.
Proof.
  pose proof (init_guard config) as G.
  unfold __init__.
  fold (imc_kp_proc config) (imc_tau config) (imc_theta config).
  replace (match CONF_IMC_LAMBDA config with Some l => l | None => DEFAULT_IMC_LAMBDA end)
    with (imc_lambda config) by (unfold imc_lambda; destruct (CONF_IMC_LAMBDA config); done).
  destruct (_ || _) eqn:E in G |- *.
  - destruct (default DEFAULT_MAX_TEMP _ <=? _); apply G; reflexivity.
  - assert (V : ~ invalid_tuning config) by (rewrite <- G; discriminate).
    rewrite or_float_default_zero.
    assert (0 < imc_kp_proc config * (imc_lambda config + imc_theta config)).
    { unfold invalid_tuning in V. apply Rmult_lt_0_compat; lra. }
    assert (0 < imc_tau config) by (unfold invalid_tuning in V; lra).
    destruct (default DEFAULT_MAX_TEMP _ <=? _); cbv beta iota zeta;
      cbn [_proportional_gain _integral_gain]; (split; [exact V |]); split.
    all: try (apply Rdiv_lt_0_compat; [| assumption]).
    all: try apply Rmult_lt_0_compat; auto using range_floor_pos.
Qed.

(** C3, as stated, fails: a dead time of zero is a parameter that is not
    positive, and construction does not raise. *)
Lemma zero_dead_time_counterexample :
  all_four_positive_violated zero_dead_time_config
  /\ __init__ zero_dead_time_config <> Raise ValueError.
Proof.
  split.
  - unfold all_four_positive_violated. right; right; left. cbn. lra.
  - unfold __init__, zero_dead_time_config, tuning_config.
    cbn [CONF_MIN_TEMP CONF_MAX_TEMP CONF_IMC_PROCESS_GAIN CONF_IMC_TIME_CONSTANT
         CONF_IMC_DEAD_TIME CONF_IMC_LAMBDA default from_option Datatypes.id].
    rewrite or_float_default_zero. unfold_constants. R_decide. discriminate.
Qed.

(** ** The control law *)

Lemma norm_error_zero temp_range :
  0 < temp_range -> Py.max 0 (Py.min 0 temp_range) / temp_range = 0.
Proof.
  intros H. unfold Py.max, Py.min. R_decide. unfold Rdiv. ring.
Qed.

(** C10: a current temperature of exactly 0.0 is falsy in
    [current or target], so the error and the normalized error computed by
    [_compute_error_and_timing] are both 0, exactly as when the reading is
    absent ([None]). *)
Theorem zero_reading_is_treated_as_absent env params w :
  _current_temperature (entity w) = Some 0 ->
  (exists temp_range dt,
      fst (_compute_error_and_timing env params w) = (0, temp_range, 0, dt))
  /\ fst (_compute_error_and_timing env params w)
     = fst (_compute_error_and_timing env params
              (with_entity (set_current_temperature None (entity w)) w)).
Proof.
  intros H.
  unfold _compute_error_and_timing, bind, time_monotonic, self_do,
    compute_error_and_timing_at, with_entity.
  cbn [entity clock_reads fst snd set_current_temperature set_diag_error_c
       _target_temp _current_temperature _last_update_monotonic].
  rewrite H. unfold Py.or_float. R_decide.
  replace (_target_temp (entity w) - _target_temp (entity w)) with 0 by ring.
  rewrite norm_error_zero by apply range_floor_pos.
  split; [eauto | reflexivity].
Qed.

(** C5: on a heat-side update with a valid [dt], when the PI estimate or
    the total estimate (with feed-forward) is at least 1.0 the accumulator
    does not grow; the accumulator changes only when both estimates are
    strictly below 1.0, and then by [norm_error * dt]. *)
Theorem anti_windup params norm_error cool_side dt u_ff s :
  0 < dt ->
  let u_pi_est :=
    _proportional_gain params * norm_error + _integral_gain params * _i_accum s in
  let u_total_est := u_pi_est + u_ff in
  let s' := _update_integral params norm_error true cool_side (Some dt) u_ff s in
  (1 <= u_pi_est \/ 1 <= u_total_est -> _i_accum s' <= _i_accum s)
  /\ (_i_accum s' <> _i_accum s ->
      u_pi_est < 1 /\ u_total_est < 1
      /\ _i_accum s' = _i_accum s + norm_error * dt).
Proof.
  intros Hdt u_pi_est u_total_est s'. subst s'. unfold _update_integral.
  rewrite (Rltb_true 0 dt) by assumption.
  fold u_pi_est. fold u_total_est.
  destruct (Rltb_cases u_pi_est 1) as [[H1 ->] | [H1 ->]];
    destruct (Rltb_cases u_total_est 1) as [[H2 ->] | [H2 ->]]; cbn [andb set_i_accum _i_accum].
  all: split; intros; try lra; try done.
Qed.

(** C6: when the error is strictly above the steady-state deadband, with
    [heat_side] as [_classify_band] computes it, the decided command is
    [clamp(u_pi + u_ff, 0, 1)] whatever the entity state, hence whatever
    the previous command. *)
Theorem heat_side_tracks_suggestion params u_pi u_ff error dt s :
  _steady_deadband_c params < error ->
  _decide_u_total params u_pi u_ff error
    (_classify_band error (_steady_deadband_c params)).1.2 dt s
  = _clamp01 (u_pi + u_ff).
Proof.
  intros H. unfold _decide_u_total, _classify_band. cbn [fst snd].
  rewrite (Rltb_true _ _ H).
  destruct (max_spec 0 (_steady_deadband_c params)) as [[H0 ->] | [H0 ->]].
  - destruct (abs_spec error) as [[? ->] | [? ->]]; [exfalso; lra |].
    R_decide. reflexivity.
  - R_decide. reflexivity.
Qed.

Lemma alpha_valid dt tau :
  0 < dt -> 0 < tau ->
  _alpha (Some dt) tau = 1 - exp (- dt / tau) /\ 0 < _alpha (Some dt) tau < 1.
Proof.
  intros Hdt Htau. unfold _alpha. R_decide. cbn [orb]. split; [reflexivity |].
  assert (- dt / tau < 0).
  { unfold Rdiv. rewrite <- Ropp_mult_distr_l. apply Ropp_lt_gt_0_contravar.
    apply Rmult_lt_0_compat; [assumption | apply Rinv_0_lt_compat; assumption]. }
  pose proof (exp_pos (- dt / tau)).
  pose proof (exp_increasing _ _ H) as Hlt. rewrite exp_0 in Hlt. lra.
Qed.

Lemma decay_step prev dt tau :
  0 < dt -> 0 < tau -> 0 < prev ->
  0 < Py.max 0 (prev + _alpha (Some dt) tau * (0 - prev)) < prev.
Proof.
  intros Hdt Htau Hprev.
  destruct (alpha_valid dt tau Hdt Htau) as [_ [Ha0 Ha1]].
  set (a := _alpha (Some dt) tau) in *.
  assert (0 < prev + a * (0 - prev) < prev) by nra.
  destruct (max_spec 0 (prev + a * (0 - prev))) as [[? ->] | [? ->]]; lra.
Qed.

Lemma smoothstep_range x : 0 <= x <= 1 -> 0 <= x * x * (3 - 2 * x) <= 1.
Proof.
  intros H. split.
  - apply Rmult_le_pos; [apply Rmult_le_pos |]; lra.
  - assert (0 <= (1 - x) * (1 - x) * (1 + 2 * x))
      by (apply Rmult_le_pos; [apply Rmult_le_pos |]; lra).
    replace (x * x * (3 - 2 * x)) with (1 - (1 - x) * (1 - x) * (1 + 2 * x)) by ring.
    lra.
Qed.

Lemma clamp_range x lo hi : lo <= hi -> lo <= _clamp x lo hi <= hi.
Proof.
  intros H.
  destruct (clamp_spec x lo hi) as [[? ->] | [(? & ? & ->) | [? ->]]]; lra.
Qed.

Lemma clamp01_below x bound : x < bound -> 0 < bound -> _clamp01 x < bound.
Proof.
  intros H Hb. unfold _clamp01.
  destruct (clamp_spec x 0 1) as [[? ->] | [(? & ? & ->) | [? ->]]]; lra.
Qed.

(** C4, as amended: in band, with zero feed-forward, valid timing and a
    strictly positive previous command, the decided command is at least 0 on
    every such tick, and it is strictly below the previous command whenever
    the heating suggestion [clamp(u_pi, 0, 1)] is strictly below the previous
    command. *)
Theorem in_band_decay params u_pi error heat_side dt s :
  Py.abs error <= _steady_deadband_c params ->
  0 < dt -> 0 < _decay_tau_s params ->
  0 < prev_u s ->
  0 <= _decide_u_total params u_pi 0 error heat_side (Some dt) s
  /\ (_clamp01 (u_pi + 0) < prev_u s ->
      _decide_u_total params u_pi 0 error heat_side (Some dt) s < prev_u s).
Proof.
  intros Hband Hdt Htau Hprev. unfold _decide_u_total.
  pose proof (decay_step (prev_u s) dt (_decay_tau_s params) Hdt Htau Hprev) as Hdecay.
  pose proof (clamp01_range (u_pi + 0)) as Hs.
  set (u_decay := Py.max 0 _) in *. set (u_suggest := _clamp01 (u_pi + 0)) in *.
  rewrite (Rltb_true 0 dt), (Rltb_true 0 (_decay_tau_s params)) by assumption.
  cbn [andb].
  destruct (_ && _).
  - set (x := _clamp _ 0 1).
    assert (Hw : 0 <= x * x * (3 - 2 * x) <= 1).
    { apply smoothstep_range. apply clamp_range. lra. }
    set (w := x * x * (3 - 2 * x)) in *.
    split; [apply clamp01_range |]. intros Hsug.
    apply clamp01_below; [| assumption].
    assert (0 < w * (prev_u s - u_suggest) + (1 - w) * (prev_u s - u_decay)).
    { destruct (Rlt_dec w 1).
      - assert (0 <= w * (prev_u s - u_suggest)) by (apply Rmult_le_pos; lra).
        assert (0 < (1 - w) * (prev_u s - u_decay)) by (apply Rmult_lt_0_compat; lra).
        lra.
      - replace w with 1 by lra. lra. }
    lra.
  - destruct heat_side; (split; [| intros Hsug]; lra).
Qed.

(** ** Dispatch to the actuators *)

Lemma add_calls_nil w : add_calls [] w = w.
Proof. destruct w. unfold add_calls. cbn. rewrite app_nil_r. reflexivity. Qed.

Lemma add_calls_app cs1 cs2 w : add_calls cs2 (add_calls cs1 w) = add_calls (cs1 ++ cs2) w.
Proof. unfold add_calls. cbn. rewrite app_assoc. reflexivity. Qed.

Lemma async_call_spec env c w : async_call env c w = (call_raises env c, add_calls [c] w).
Proof. reflexivity. Qed.

Lemma send_to_trv_spec env params position rs trv w :
  send_to_trv env params position rs trv w
  = (tt, add_calls (trv_calls env params position rs (_actual_valve_map (entity w)) trv) w).
Proof.
  unfold send_to_trv, trv_calls.
  destruct (states_get env trv) as [trv_state |]; [| by rewrite add_calls_nil].
  unfold bind, self_get, ret.
  destruct (rs && _); [by rewrite add_calls_nil |].
  destruct (states_get env (valve_entity_id trv)); [reflexivity |].
  destruct (position =? _)%Z; [reflexivity |].
  destruct (String.eqb _ _); [| reflexivity].
  rewrite async_call_spec.
  destruct (call_raises env _); [reflexivity |].
  rewrite async_call_spec, add_calls_app. reflexivity.
Qed.

Lemma for_each_send env params position rs trvs w :
  for_each trvs (send_to_trv env params position rs) w
  = (tt, add_calls
           (flat_map (trv_calls env params position rs (_actual_valve_map (entity w))) trvs) w).
Proof.
  revert w. induction trvs as [| trv trvs IH]; intros w.
  - cbn. by rewrite add_calls_nil.
  - cbn [for_each flat_map]. unfold bind at 1. rewrite send_to_trv_spec.
    rewrite IH. cbn [entity add_calls]. rewrite add_calls_app. reflexivity.
Qed.

Lemma update_actual_spec env params w :
  _async_update_actual_valve_position env params w = (tt, refresh_actual env params w).
Proof.
  unfold _async_update_actual_valve_position, refresh_actual.
  destruct (read_actuals _ _ _ _) as [max_pos local_map]. reflexivity.
Qed.

Lemma set_valve_position_spec VMS env params position w :
  let pos := quantize VMS position in
  let s := entity w in
  let unchanged := (pos =? _valve_position s)%Z in
  let resend := unchanged && observed_mismatch params s pos in
  _async_set_valve_position VMS env params position w
  = (tt,
     if unchanged && negb resend then w
     else
       refresh_actual env params
         (add_calls
            (flat_map (trv_calls env params pos resend (_actual_valve_map s))
               (_trv_entities params))
            (with_entity (set_valve_position pos s) w))).
Proof.
  intros pos s unchanged resend.
  unfold _async_set_valve_position. fold (quantize VMS position). fold pos.
  unfold bind at 1. unfold self_get at 1. fold s.
  fold (observed_mismatch params s pos). fold unchanged. fold resend.
  destruct (unchanged && negb resend); [reflexivity |].
  unfold bind, self_set, self_do. cbn [entity].
  rewrite for_each_send, update_actual_spec. reflexivity.
Qed.

Lemma at_target_true (trv_actual : option Z) (position : Z) :
  at_target trv_actual position = true <-> trv_actual = Some position.
Proof.
  unfold at_target. destruct trv_actual as [a |]; [| split; discriminate].
  rewrite Z.eqb_eq. split; congruence.
Qed.

Lemma differs_true (trv_actual : option Z) (position : Z) :
  differs trv_actual position = true
  <-> exists a, trv_actual = Some a /\ a <> position.
Proof.
  unfold differs. destruct trv_actual as [a |].
  - rewrite negb_true_iff, Z.eqb_neq. split; [eauto | intros (? & [= <-] & ?); done].
  - split; [discriminate | intros (? & ? & ?); discriminate].
Qed.

Lemma trv_calls_nonempty env params position (actual_map : gmap string Z) trv :
  trv_calls env params position true actual_map trv <> []
  <-> is_Some (states_get env trv) /\ actual_map !! trv <> Some position.
Proof.
  unfold trv_calls. rewrite <- at_target_true.
  destruct (states_get env trv) as [trv_state |].
  2: { split; [done | intros [[? ?] _]; discriminate]. }
  cbn [andb]. destruct (at_target _ _).
  { split; [done | intros [_ ?]; done]. }
  assert (is_Some (Some trv_state)) by eauto.
  destruct (states_get env (valve_entity_id trv)); [split; [auto | discriminate] |].
  destruct (position =? _)%Z; [split; [auto | discriminate] |].
  destruct (String.eqb _ _); split; auto; discriminate.
Qed.

Lemma trv_calls_target env params position rs (actual_map : gmap string Z) trv c :
  In c (trv_calls env params position rs actual_map trv) ->
  call_entity c = trv \/ call_entity c = valve_entity_id trv.
Proof.
  unfold trv_calls.
  destruct (states_get env trv); [| done].
  destruct (rs && _); [done |].
  destruct (states_get env (valve_entity_id trv)).
  { intros [<- | []]. right. reflexivity. }
  destruct (position =? _)%Z.
  { intros [<- | []]. left. reflexivity. }
  destruct (String.eqb _ _); [destruct (call_raises env _) |]; cbn [In];
    intros H; left; intuition (subst; reflexivity).
Qed.

(** C7, as amended: when the quantized request equals the last committed
    position, (a) if some TRV has a known observed position that differs,
    the calls issued are those of the TRVs that the host knows and that are
    not observed at the target (observed elsewhere, or not observed at all),
    each call addressing the TRV or its number entity; (b) if every TRV and
    the aggregate are observed at the target, nothing is sent and nothing
    changes. *)
Theorem selective_resend VMS env params position w :
  let pos := quantize VMS position in
  let s := entity w in
  let w' := snd (_async_set_valve_position VMS env params position w) in
  pos = _valve_position s ->
  (existsb (fun trv => differs (_actual_valve_map s !! trv) pos)
     (_trv_entities params) = true ->
   service_calls w'
   = service_calls w
     ++ flat_map (trv_calls env params pos true (_actual_valve_map s))
          (_trv_entities params)
   /\ (forall trv,
         trv_calls env params pos true (_actual_valve_map s) trv <> []
         <-> is_Some (states_get env trv) /\ _actual_valve_map s !! trv <> Some pos)
   /\ (forall trv c,
         In c (trv_calls env params pos true (_actual_valve_map s) trv) ->
         call_entity c = trv \/ call_entity c = valve_entity_id trv))
  /\ ((forall trv, In trv (_trv_entities params) ->
                   _actual_valve_map s !! trv = Some pos) ->
      _actual_valve_position s = Some pos ->
      w' = w).
Proof.
  intros pos s w' Hpos. subst w'. rewrite set_valve_position_spec.
  fold pos. fold s. rewrite <- Hpos, Z.eqb_refl. cbn [andb snd].
  split.
  - intros Hex. unfold observed_mismatch. rewrite Hex. cbn [orb negb].
    split; [| split].
    + unfold refresh_actual. destruct (read_actuals _ _ _ _). reflexivity.
    + intros trv. apply trv_calls_nonempty.
    + intros trv c. apply trv_calls_target.
  - intros Hall Hagg.
    assert (observed_mismatch params s pos = false) as ->; [| reflexivity].
    unfold observed_mismatch. rewrite Hagg. unfold differs at 2.
    rewrite Z.eqb_refl. cbn [negb]. rewrite orb_false_r.
    apply not_true_is_false. rewrite existsb_exists.
    intros (trv & Hin & Hd). rewrite (Hall trv Hin) in Hd.
    unfold differs in Hd. rewrite Z.eqb_refl in Hd. discriminate.
Qed.

Lemma init_example : __init__ example_config = Ok (example_params, example_state).
Proof.
  unfold __init__, example_config, tuning_config.
  cbn [CONF_MIN_TEMP CONF_MAX_TEMP CONF_IMC_PROCESS_GAIN CONF_IMC_TIME_CONSTANT
       CONF_IMC_DEAD_TIME CONF_IMC_LAMBDA CONF_TARGET_TEMP
       CONF_WINDOW_OPEN_THRESHOLD_PER_MIN CONF_WINDOW_OPEN_DURATION
       CONF_TEMPERATURE_SENSOR CONF_TRV_ENTITIES CONF_OUTDOOR_TEMPERATURE_SENSOR
       CONF_BOILER_FLOW_TEMPERATURE_SENSOR CONF_FF_K_FLOW CONF_FF_K_OUTDOOR
       CONF_FF_TFLOW_REF CONF_FF_TOUT_REF CONF_FF_ENABLE_SMOOTHING
       CONF_FF_FLOW_FILTER_TAU_S CONF_FF_OUTDOOR_FILTER_TAU_S
       CONF_FF_FLOW_DEADBAND_K CONF_FF_OUTDOOR_DEADBAND_K
       default from_option Datatypes.id].
  rewrite or_float_default_zero.
  unfold Py.abs, Py.max, Py.min. unfold_constants. R_decide.
  cbn [orb]. unfold example_params, example_state. unfold_constants.
  unfold VALVE_CLOSED_POSITION.
  do 2 f_equal. f_equal; lra.
Qed.

(** C7, as stated, fails: with the first TRV observed at 100 and the second
    one not reporting, a repeated request of 150 also commands the second
    TRV, whose known observed position does not differ from the target. *)
Lemma unknown_position_counterexample :
  let s := two_trv_state in
  let pos := quantize 1 150 in
  pos = _valve_position s
  /\ existsb (fun trv => differs (_actual_valve_map s !! trv) pos)
       (_trv_entities two_trv_params) = true
  /\ differs (_actual_valve_map s !! "climate.trv_b"%string) pos = false
  /\ service_calls
       (snd (_async_set_valve_position 1 (present_env 0) two_trv_params 150 (world_of s)))
     = [number_set_value "number.trv_a_valve_position" 150;
        number_set_value "number.trv_b_valve_position" 150].
Proof.
  cbv zeta. rewrite set_valve_position_spec.
  split; [reflexivity |]. split; [reflexivity |]. split; [reflexivity |].
  cbn [snd]. unfold refresh_actual. destruct (read_actuals _ _ _ _).
  reflexivity.
Qed.

(** ** Throttling *)

Lemma request_spec VMS env params position force w :
  snd (_async_request_valve_position VMS env params position force w)
  = if force || due env w
    then send_and_stamp VMS env params position w
    else record_only position w.
Proof.
  unfold _async_request_valve_position, send_and_stamp, due.
  fold (clamp_position position).
  unfold bind, self_set, self_do, self_get, time_monotonic, with_entity, ret.
  cbn [entity clock_reads service_calls fst snd
       set_desired_valve_position _last_valve_send_monotonic].
  destruct (force || _); [| reflexivity].
  unfold record_only.
  destruct (_async_set_valve_position _ _ _ _ _) as [[] w1]. reflexivity.
Qed.

Lemma set_valve_frame VMS env params position w :
  let w' := snd (_async_set_valve_position VMS env params position w) in
  clock_reads w' = clock_reads w
  /\ exists v a m,
       entity w'
       = set_actual_valve_map m
           (set_actual_valve_position a (set_valve_position v (entity w))).
Proof.
  cbv zeta. rewrite set_valve_position_spec. cbn [snd].
  destruct (_ && negb _).
  - split; [reflexivity |].
    exists (_valve_position (entity w)), (_actual_valve_position (entity w)),
      (_actual_valve_map (entity w)).
    destruct (entity w). reflexivity.
  - unfold refresh_actual. destruct (read_actuals _ _ _ _) as [a m].
    split; [reflexivity |]. eauto.
Qed.

Lemma send_and_stamp_stamp VMS env params position w :
  let w' := send_and_stamp VMS env params position w in
  clock_reads w' = S (S (clock_reads w))
  /\ _last_valve_send_monotonic (entity w') = Some (monotonic env (S (clock_reads w))).
Proof.
  cbv zeta. unfold send_and_stamp.
  destruct (set_valve_frame VMS env params (clamp_position position)
              (record_only position w)) as [Hc _].
  cbn [clock_reads entity _last_valve_send_monotonic set_last_valve_send_monotonic].
  rewrite Hc. split; reflexivity.
Qed.

(** C8, as amended: with a clock that does not go backwards, when the first
    of two requests that are not forced is due (nothing was sent before, or
    the minimum interval has elapsed) and the second is issued within the
    minimum interval of the first, the first performs the actual send and
    the second only records the desired position; and any request that is
    not forced and arrives at least the minimum interval after the last
    actual send performs a send. *)
Theorem throttling VMS env params p1 p2 w :
  (forall n, monotonic env n <= monotonic env (S n)) ->
  let w1 := snd (_async_request_valve_position VMS env params p1 false w) in
  let w2 := snd (_async_request_valve_position VMS env params p2 false w1) in
  let now1 := monotonic env (clock_reads w) in
  let now2 := monotonic env (clock_reads w1) in
  due env w = true ->
  now2 - now1 < VALVE_UPDATE_MIN_INTERVAL_S ->
  w1 = send_and_stamp VMS env params p1 w
  /\ due env w1 = false
  /\ w2 = record_only p2 w1
  /\ service_calls w2 = service_calls w1
  /\ _valve_position (entity w2) = _valve_position (entity w1)
  /\ forall p w3 last,
       _last_valve_send_monotonic (entity w3) = Some last ->
       VALVE_UPDATE_MIN_INTERVAL_S <= monotonic env (clock_reads w3) - last ->
       snd (_async_request_valve_position VMS env params p false w3)
       = send_and_stamp VMS env params p w3.
Proof.
  intros Hmono w1 w2 now1 now2 Hdue Hnear.
  assert (E1 : w1 = send_and_stamp VMS env params p1 w).
  { subst w1. rewrite request_spec, Hdue. reflexivity. }
  destruct (send_and_stamp_stamp VMS env params p1 w) as [Hc Hs].
  rewrite <- E1 in Hc, Hs.
  assert (E2 : due env w1 = false).
  { unfold due. rewrite Hs. apply Rleb_false.
    subst now1 now2. rewrite Hc in *.
    pose proof (Hmono (clock_reads w)). pose proof (Hmono (S (clock_reads w))).
    lra. }
  assert (E3 : w2 = record_only p2 w1).
  { subst w2. rewrite request_spec, E2. reflexivity. }
  repeat split; try assumption.
  - rewrite E3. reflexivity.
  - rewrite E3. reflexivity.
  - intros p w3 last Hlast Hel. rewrite request_spec.
    unfold due. rewrite Hlast, (Rleb_true _ _ Hel). reflexivity.
Qed.

(** C8, as stated, fails: two requests ten seconds apart, the first one ten
    seconds after an actual send, perform no send at all. *)
Lemma zero_sends_counterexample :
  let env := present_env 110 in
  let w := world_of recently_sent_state in
  let w1 := snd (_async_request_valve_position 1 env example_params 100 false w) in
  let w2 := snd (_async_request_valve_position 1 env example_params 120 false w1) in
  monotonic env (clock_reads w1) - monotonic env (clock_reads w)
    < VALVE_UPDATE_MIN_INTERVAL_S
  /\ w1 = record_only 100 w
  /\ w2 = record_only 120 w1
  /\ service_calls w2 = [].
Proof.
  cbv zeta.
  assert (E1 : snd (_async_request_valve_position 1 (present_env 110) example_params
                      100 false (world_of recently_sent_state))
               = record_only 100 (world_of recently_sent_state)).
  { rewrite request_spec. unfold due. cbn. unfold_constants. R_decide. reflexivity. }
  rewrite E1.
  assert (E2 : snd (_async_request_valve_position 1 (present_env 110) example_params
                      120 false (record_only 100 (world_of recently_sent_state)))
               = record_only 120 (record_only 100 (world_of recently_sent_state))).
  { rewrite request_spec. unfold due. cbn. unfold_constants. R_decide. reflexivity. }
  rewrite E2.
  split; [| split; [reflexivity | split; reflexivity]].
  cbn. unfold_constants. lra.
Qed.

(** ** The control tick *)

Lemma control_heating_auto VMS env params fuel w :
  _hvac_mode (entity w) = AUTO ->
  _async_control_heating VMS env params (S fuel) w
  = (Some tt, snd (control_auto VMS env params w)).
Proof.
  intros Hmode. cbn [_async_control_heating].
  unfold bind at 1. unfold _handle_off_mode.
  unfold bind at 1. unfold self_get at 1. rewrite Hmode. cbn [HVACMode_eqb negb].
  unfold ret at 1. unfold bind at 1. unfold handle_boost_mode_with.
  unfold bind at 1. unfold self_get at 1. rewrite Hmode. cbn [HVACMode_eqb negb].
  unfold ret at 1. unfold bind, ret.
  destruct (control_auto VMS env params w) as [[] w']. reflexivity.
Qed.

Lemma control_auto_window VMS env params w c s1 :
  _current_temperature (entity w) = Some c ->
  _check_window_open params c (monotonic env (clock_reads w)) (entity w) = (true, s1) ->
  let w1 :=
    {| entity := set_i_accum 0 s1; clock_reads := S (clock_reads w);
       service_calls := service_calls w |} in
  snd (control_auto VMS env params w)
  = if (_valve_position s1 =? VALVE_CLOSED_POSITION)%Z then w1
    else snd (_async_request_valve_position VMS env params VALVE_CLOSED_POSITION true w1).
Proof.
  intros Hc Hw. unfold control_auto.
  unfold bind at 1. unfold self_get at 1. rewrite Hc.
  unfold bind at 1. unfold time_monotonic at 1.
  unfold bind at 1. unfold self_do at 1. cbn [entity]. rewrite Hw.
  unfold bind, self_set, self_do, self_get, with_entity, when.
  cbn [entity clock_reads service_calls set_i_accum _valve_position].
  destruct (_valve_position s1 =? _)%Z; reflexivity.
Qed.

Lemma control_auto_normal VMS env params w c s1 :
  _current_temperature (entity w) = Some c ->
  _check_window_open params c (monotonic env (clock_reads w)) (entity w) = (false, s1) ->
  snd (control_auto VMS env params w)
  = let '(position, s2) :=
      auto_pipeline params (monotonic env (S (clock_reads w)))
        (monotonic env (S (S (clock_reads w)))) s1 in
    snd (_async_request_valve_position VMS env params position false
           {| entity := s2; clock_reads := S (S (S (clock_reads w)));
              service_calls := service_calls w |}).
Proof.
  intros Hc Hw. unfold control_auto.
  unfold bind at 1. unfold self_get at 1. rewrite Hc.
  unfold bind at 1. unfold time_monotonic at 1.
  unfold bind at 1. unfold self_do at 1. cbn [entity]. rewrite Hw.
  unfold auto_pipeline, _compute_error_and_timing, _update_feedforward.
  unfold bind, time_monotonic, self_set, self_do, self_get, with_entity.
  cbn [entity clock_reads service_calls].
  destruct (compute_error_and_timing_at _ _ _) as [[[[error temp_range] norm_error] dt] s2].
  cbn [entity clock_reads service_calls].
  destruct (update_feedforward_at _ _ _) as [[u_ff_raw u_ff] s3].
  destruct (_classify_band _ _) as [[in_band heat_side] cool_side].
  cbn [entity clock_reads service_calls].
  destruct (_compute_pi _ _ _) as [[u_pi u_i] s4].
  cbn [entity clock_reads service_calls]. reflexivity.
Qed.

Lemma request_frame VMS env params position force w :
  exists v a m l,
    entity (snd (_async_request_valve_position VMS env params position force w))
    = set_last_valve_send_monotonic l
        (set_actual_valve_map m
           (set_actual_valve_position a
              (set_valve_position v
                 (set_desired_valve_position (Some (clamp_position position))
                    (entity w))))).
Proof.
  rewrite request_spec. destruct (force || _).
  - unfold send_and_stamp.
    destruct (set_valve_frame VMS env params (clamp_position position)
                (record_only position w)) as [_ (v & a & m & E)].
    cbn [entity]. rewrite E. cbn [record_only entity]. eauto.
  - exists (_valve_position (entity w)), (_actual_valve_position (entity w)),
      (_actual_valve_map (entity w)), (_last_valve_send_monotonic (entity w)).
    cbn [record_only entity]. destruct (entity w). reflexivity.
Qed.

(** Evaluation of the control law on concrete states, one building block
    at a time: unfold it, reduce the assignments and settle the comparisons
    before the next block is unfolded. *)
Ltac reduce_state :=
  cbv [_ewma _apply_deadband _alpha _clamp01 _clamp
       Py.or_float Py.max Py.min Py.abs
       set_target_temp set_hvac_mode set_current_temperature set_valve_position
       set_desired_valve_position set_last_valve_send_monotonic set_i_accum
       set_last_update_monotonic set_last_u_total set_boost_unsub
       set_boost_until set_actual_valve_position set_actual_valve_map
       set_outdoor_temp set_boiler_flow_temp set_flow_filt set_outdoor_filt
       set_last_ff_update_monotonic set_last_window_check set_window_open_until
       set_diag_error_c set_diag_error_norm set_diag_u_pi set_diag_u_i
       set_diag_u_ff set_diag_u_total
       _target_temp _hvac_mode _current_temperature _valve_position
       _desired_valve_position _last_valve_send_monotonic _i_accum
       _last_update_monotonic _last_u_total _boost_unsub _boost_until
       _actual_valve_position _actual_valve_map _outdoor_temp _boiler_flow_temp
       _flow_filt _outdoor_filt _last_ff_update_monotonic _last_window_check
       _window_open_until _diag_error_c _diag_error_norm _diag_u_pi _diag_u_i
       _diag_u_ff _diag_u_total
       _temperature_sensor _trv_entities _min_temp _max_temp _outdoor_sensor
       _boiler_flow_sensor _ff_k_flow _ff_k_outdoor _ff_tflow_ref _ff_tout_ref
       _ff_enable_smoothing _ff_flow_tau_s _ff_outdoor_tau_s
       _ff_flow_deadband_k _ff_outdoor_deadband_k _proportional_gain
       _integral_gain _window_threshold_per_min _window_duration
       _steady_deadband_c _decay_tau_s
       example_params example_state with_trv_entities with_window_duration
       rapid_drop_state recently_sent_state two_trv_params two_trv_state
       in_band_state
       fst snd andb orb negb].

Ltac note_exp :=
  repeat match goal with
    | |- context [exp ?x] =>
        lazymatch goal with
        | _ : 0 < exp x |- _ => fail
        | _ => pose proof (exp_pos x)
        end
    end.

Ltac settle :=
  repeat (progress (reduce_state; unfold_constants; note_exp; R_decide)).

Ltac evaluate :=
  settle;
  try (unfold _check_window_open; settle);
  try unfold auto_pipeline;
  try (unfold compute_error_and_timing_at; settle);
  try (unfold update_feedforward_at; settle);
  try (unfold _classify_band; settle);
  try (unfold _update_integral; settle);
  try (unfold _compute_pi; settle);
  try (unfold _decide_u_total, prev_u; settle).

Lemma example_window_check now :
  _check_window_open example_params 20 now
    (set_current_temperature (Some 20) example_state)
  = (false,
     set_last_window_check (Some (20, now))
       (set_current_temperature (Some 20) example_state)).
Proof. reflexivity. Qed.

Lemma example_pipeline now t1 t2 :
  let '(position, s) :=
    auto_pipeline example_params t1 t2
      (set_last_window_check (Some (20, now))
         (set_current_temperature (Some 20) example_state)) in
  position = 109%Z
  /\ _diag_error_c s = Some 2
  /\ _diag_error_norm s = Some (2 / 23)
  /\ _diag_u_pi s = Some (3 / 7)
  /\ _diag_u_ff s = Some 0
  /\ _diag_u_total s = Some (3 / 7)
  /\ _last_u_total s = Some (3 / 7)
  /\ _i_accum s = 0.
Proof.
  evaluate.
  split; [apply round_below; unfold VALVE_OPEN_POSITION; lra |].
  repeat split; try (f_equal; lra).
Qed.

Lemma control_heating_auto_snd VMS env params fuel w :
  _hvac_mode (entity w) = AUTO ->
  snd (_async_control_heating VMS env params (S fuel) w)
  = snd (control_auto VMS env params w).
Proof. intros H. rewrite control_heating_auto by assumption. reflexivity. Qed.

Lemma example_tick VMS env fuel w :
  entity w = set_current_temperature (Some 20) example_state ->
  let w' := snd (_async_control_heating VMS env example_params (S fuel) w) in
  _diag_error_norm (entity w') = Some (2 / 23)
  /\ _diag_u_pi (entity w') = Some (3 / 7)
  /\ _diag_u_total (entity w') = Some (3 / 7)
  /\ _last_u_total (entity w') = Some (3 / 7)
  /\ _desired_valve_position (entity w') = Some 109%Z.
Proof.
  intros Hw w'. subst w'.
  rewrite control_heating_auto_snd by (rewrite Hw; reflexivity).
  rewrite (control_auto_normal VMS env example_params w 20
             (set_last_window_check (Some (20, monotonic env (clock_reads w)))
                (set_current_temperature (Some 20) example_state))).
  2: rewrite Hw; reflexivity.
  2: rewrite Hw; apply example_window_check.
  pose proof (example_pipeline (monotonic env (clock_reads w))
                (monotonic env (S (clock_reads w)))
                (monotonic env (S (S (clock_reads w))))) as P.
  destruct (auto_pipeline _ _ _ _) as [position s].
  destruct P as (-> & _ & Hn & Hpi & _ & Ht & Hl & _).
  destruct (request_frame VMS env example_params 109 false
              {| entity := s; clock_reads := S (S (S (clock_reads w)));
                 service_calls := service_calls w |}) as (v & a & m & l & E).
  rewrite E. cbn [entity]. 
  repeat split; assumption || reflexivity.
Qed.

(** C1, as amended: with [min_temp = 5], [max_temp = 28] (range 23) and
    [Kp_proc = 4], [tau = 5400], [theta = 900], [lambda = 5400] the derived
    gains are [Kc = 69/14] (about 4.93) and [Ki = 23/25200] (about 0.000913
    per second); on a first tick with target 22 and current 20 the
    normalized error is [2/23], [u_pi] and the command are [3/7] (about
    0.429), and the position requested before step quantization is
    [round(3/7 * 255) = 109]. *)
Theorem worked_example VMS env fuel n calls :
  let w :=
    {| entity := set_current_temperature (Some 20) example_state;
       clock_reads := n; service_calls := calls |} in
  let w' := snd (_async_control_heating VMS env example_params (S fuel) w) in
  __init__ example_config = Ok (example_params, example_state)
  /\ _proportional_gain example_params = 69 / 14
  /\ _integral_gain example_params = 23 / 25200
  /\ _diag_error_norm (entity w') = Some (2 / 23)
  /\ _diag_u_pi (entity w') = Some (3 / 7)
  /\ _diag_u_total (entity w') = Some (3 / 7)
  /\ _last_u_total (entity w') = Some (3 / 7)
  /\ _desired_valve_position (entity w') = Some 109%Z.
Proof.
  intros w w'. split; [apply init_example |].
  split; [reflexivity |]. split; [reflexivity |].
  exact (example_tick VMS env fuel w eq_refl).
Qed.

(** C1, as stated, fails: the gains derived from the example are not within
    rounding of 8.05 and 0.00149, [u_pi] is not within rounding of 0.700,
    and the position requested on the first tick is not 179. *)
Lemma stated_example_counterexample :
  exists p s,
    __init__ example_config = Ok (p, s)
    /\ ~ Rabs (_proportional_gain p - 805 / 100) <= 5 / 1000
    /\ ~ Rabs (_integral_gain p - 149 / 100000) <= 5 / 1000000
    /\ (forall u,
          _diag_u_pi
            (entity
               (snd (_async_control_heating 1 (present_env 0) p 1
                       (world_of (set_current_temperature (Some 20) s)))))
          = Some u -> ~ Rabs (u - 700 / 1000) <= 5 / 10000)
    /\ _desired_valve_position
         (entity
            (snd (_async_control_heating 1 (present_env 0) p 1
                    (world_of (set_current_temperature (Some 20) s)))))
       <> Some 179%Z.
Proof.
  exists example_params, example_state.
  destruct (example_tick 1 (present_env 0) 0
              (world_of (set_current_temperature (Some 20) example_state)) eq_refl)
    as (_ & Hpi & _ & _ & Hd).
  split; [apply init_example |].
  split; [| split; [| split]].
  - change (_proportional_gain example_params) with (69 / 14). unfold Rabs.
    destruct (Rcase_abs _); lra.
  - change (_integral_gain example_params) with (23 / 25200). unfold Rabs.
    destruct (Rcase_abs _); lra.
  - intros u Hu. rewrite Hpi in Hu. injection Hu as <-. unfold Rabs.
    destruct (Rcase_abs _); lra.
  - rewrite Hd. discriminate.
Qed.

(** ** Window-open override *)

Lemma quantize_closed VMS : quantize VMS VALVE_CLOSED_POSITION = VALVE_CLOSED_POSITION.
Proof.
  unfold quantize, _snap_to_step, VALVE_CLOSED_POSITION, VALVE_OPEN_POSITION.
  destruct (1 <? _)%Z eqn:E; [| reflexivity].
  apply Z.ltb_lt in E.
  destruct (Z.max 1 VMS <=? 1)%Z; [reflexivity |].
  cbn [_clampZ Z.ltb Z.compare].
  replace (IZR 0 / IZR (Z.max 1 VMS)) with (IZR 0) by (unfold Rdiv; ring).
  rewrite round_integer. reflexivity.
Qed.

Lemma trv_calls_closed env params rs (actual_map : gmap string Z) trv c :
  In c (trv_calls env params VALVE_CLOSED_POSITION rs actual_map trv) -> closes c.
Proof.
  unfold trv_calls.
  destruct (states_get env trv); [| done].
  destruct (rs && _); [done |].
  destruct (states_get env (valve_entity_id trv)).
  { intros [<- | []]. reflexivity. }
  rewrite Z.eqb_refl. intros [<- | []]. reflexivity.
Qed.

Lemma forced_close VMS env params w :
  _valve_position (entity w) <> VALVE_CLOSED_POSITION ->
  let w' :=
    snd (_async_request_valve_position VMS env params VALVE_CLOSED_POSITION true w) in
  _valve_position (entity w') = VALVE_CLOSED_POSITION
  /\ _i_accum (entity w') = _i_accum (entity w)
  /\ _window_open_until (entity w') = _window_open_until (entity w)
  /\ exists cs, service_calls w' = service_calls w ++ cs /\ Forall closes cs.
Proof.
  intros Hopen. cbv zeta. rewrite request_spec. cbn [orb].
  unfold send_and_stamp. rewrite set_valve_position_spec.
  change (clamp_position VALVE_CLOSED_POSITION) with VALVE_CLOSED_POSITION.
  rewrite quantize_closed. cbn [record_only entity set_desired_valve_position
    _valve_position _actual_valve_map].
  assert ((VALVE_CLOSED_POSITION =? _valve_position (entity w))%Z = false) as ->
    by (apply Z.eqb_neq; congruence).
  cbn [andb snd]. unfold refresh_actual.
  destruct (read_actuals _ _ _ _) as [a m]. cbn.
  repeat split; try reflexivity.
  eexists. split; [reflexivity |].
  apply Forall_forall. intros c Hc. apply list_elem_of_In in Hc.
  apply in_flat_map in Hc as (trv & _ & Hc).
  eapply trv_calls_closed, Hc.
Qed.

Lemma window_check_expired params c now s until :
  _window_open_until s = Some until -> until <= now ->
  _check_window_open params c now s
  = _check_window_open params c now (set_window_open_until None s).
Proof.
  intros Hu Hle. unfold _check_window_open. rewrite Hu.
  rewrite (Rltb_false now until) by assumption. reflexivity.
Qed.

Lemma window_check_drop params c now s last_temp last_time :
  _last_window_check s = Some (last_temp, last_time) ->
  WINDOW_CHECK_MIN_INTERVAL_S <= now - last_time ->
  (c - last_temp) / (now - last_time) * 60 < - _window_threshold_per_min params ->
  0 < _window_duration params ->
  exists s1 until,
    _check_window_open params c now s = (true, s1)
    /\ _window_open_until s1 = Some until /\ now < until
    /\ _valve_position s1 = _valve_position s.
Proof.
  intros Hl Hold Hrate Hdur. unfold _check_window_open.
  assert (D : forall s0, _last_window_check s0 = Some (last_temp, last_time) ->
     exists s1 until,
       match _last_window_check s0 with
       | Some (last_temp, last_time) =>
           if now - last_time <? WINDOW_CHECK_MIN_INTERVAL_S then (false, s0)
           else if (c - last_temp) / (now - last_time) * 60 <? - _window_threshold_per_min params
           then (true, set_window_open_until (Some (now + _window_duration params))
                         (set_last_window_check (Some (c, now)) s0))
           else (false, set_last_window_check (Some (c, now)) s0)
       | None => (false, set_last_window_check (Some (c, now)) s0)
       end = (true, s1)
       /\ _window_open_until s1 = Some until /\ now < until
       /\ _valve_position s1 = _valve_position s0).
  { intros s0 H0. rewrite H0.
    rewrite (Rltb_false _ _ Hold), (Rltb_true _ _ Hrate).
    eexists _, _. split; [reflexivity |]. cbn. split; [reflexivity |]. split; [lra | reflexivity]. }
  destruct (_window_open_until s) as [until |] eqn:Hu.
  - destruct (Rltb_cases now until) as [[H ->] | [H ->]].
    + exists s, until. auto.
    + apply (D (set_window_open_until None s)). exact Hl.
  - apply D. exact Hl.
Qed.

(** C9, as amended: on an AUTO tick with a current temperature, (a) when
    the reference check is at least the minimum check interval old, the
    drop rate since it is more negative than the threshold and the
    configured suppression duration is positive, the tick ends with the
    committed position fully closed, the accumulator at zero and a
    suppression timestamp strictly after the tick's clock reading, and
    every call it issues closes an actuator; (b) once the suppression
    timestamp has passed, the tick is the tick of an entity with no
    suppression set. *)
Theorem window_open_override VMS env params fuel w c :
  _hvac_mode (entity w) = AUTO ->
  _current_temperature (entity w) = Some c ->
  let now := monotonic env (clock_reads w) in
  let w' := snd (_async_control_heating VMS env params (S fuel) w) in
  (forall last_temp last_time,
     _last_window_check (entity w) = Some (last_temp, last_time) ->
     WINDOW_CHECK_MIN_INTERVAL_S <= now - last_time ->
     (c - last_temp) / (now - last_time) * 60 < - _window_threshold_per_min params ->
     0 < _window_duration params ->
     fst (_async_control_heating VMS env params (S fuel) w) = Some tt
     /\ _valve_position (entity w') = VALVE_CLOSED_POSITION
     /\ _i_accum (entity w') = 0
     /\ (exists until, _window_open_until (entity w') = Some until /\ now < until)
     /\ exists cs, service_calls w' = service_calls w ++ cs /\ Forall closes cs)
  /\ (forall until,
        _window_open_until (entity w) = Some until -> until <= now ->
        _async_control_heating VMS env params (S fuel) w
        = _async_control_heating VMS env params (S fuel)
            (with_entity (set_window_open_until None (entity w)) w)).
Proof.
  intros Hmode Hc now w'. split.
  - intros last_temp last_time Hl Hold Hrate Hdur.
    subst w'. rewrite control_heating_auto by assumption. cbn [fst snd].
    split; [reflexivity |].
    destruct (window_check_drop params c now (entity w) _ _ Hl Hold Hrate Hdur)
      as (s1 & until & Hw & Hu & Hlt & Hv).
    rewrite (control_auto_window VMS env params w c s1 Hc Hw).
    destruct (_valve_position s1 =? VALVE_CLOSED_POSITION)%Z eqn:E.
    + apply Z.eqb_eq in E. cbn. repeat split; try assumption.
      * eauto.
      * exists []. rewrite app_nil_r. auto.
    + apply Z.eqb_neq in E.
      lazymatch goal with
      | |- context [_async_request_valve_position _ _ _ _ _ ?w1] =>
          pose proof (forced_close VMS env params w1 E) as F
      end.
      destruct F as (F1 & F2 & F3 & F4).
      cbn [entity service_calls] in F2, F3, F4.
      split; [exact F1 |]. split; [rewrite F2; reflexivity |].
      split; [rewrite F3; cbn; eauto | exact F4].
  - intros expiry Hu Hle. subst now.
    rewrite !control_heating_auto by assumption. f_equal.
    unfold control_auto, bind, self_get, time_monotonic, self_do, with_entity.
    cbn [entity clock_reads service_calls set_window_open_until _current_temperature].
    rewrite Hc.
    rewrite (window_check_expired params c _ _ expiry Hu Hle). reflexivity.
Qed.

Lemma rapid_drop_check duration :
  _check_window_open (with_window_duration duration example_params) 17 1120
    rapid_drop_state
  = (true,
     set_window_open_until (Some (1120 + duration))
       (set_last_window_check (Some (17, 1120)) rapid_drop_state)).
Proof.
  evaluate. reflexivity.
Qed.

Lemma present_env_now t0 : monotonic (present_env t0) 0 = t0.
Proof. cbn. lra. Qed.

Lemma rapid_drop_tick VMS env fuel duration w :
  entity w = rapid_drop_state ->
  monotonic env (clock_reads w) = 1120 ->
  _window_open_until
    (entity
       (snd (_async_control_heating VMS env
               (with_window_duration duration example_params) (S fuel) w)))
  = Some (1120 + duration).
Proof.
  intros Hw Hnow.
  rewrite control_heating_auto_snd by (rewrite Hw; reflexivity).
  rewrite (control_auto_window VMS env _ w 17
             (set_window_open_until (Some (1120 + duration))
                (set_last_window_check (Some (17, 1120)) rapid_drop_state))).
  2: rewrite Hw; reflexivity.
  2: rewrite Hw, Hnow; apply rapid_drop_check.
  change (_valve_position _ =? VALVE_CLOSED_POSITION)%Z with false.
  cbv iota.
  lazymatch goal with
  | |- context [_async_request_valve_position _ _ ?p ?pos ?f ?w1] =>
      destruct (request_frame VMS env p pos f w1) as (v & a & m & l & E)
  end.
  rewrite E. reflexivity.
Qed.

(** C9, as stated, fails: with a suppression duration of zero a detected
    drop sets the suppression timestamp to the tick's own clock reading,
    which is not strictly in the future. *)
Lemma zero_duration_counterexample :
  let params := with_window_duration 0 example_params in
  let env := present_env 1120 in
  let w := world_of rapid_drop_state in
  let now := monotonic env (clock_reads w) in
  let w' := snd (_async_control_heating 1 env params 1 w) in
  WINDOW_CHECK_MIN_INTERVAL_S <= now - 1000
  /\ (17 - 20) / (now - 1000) * 60 < - _window_threshold_per_min params
  /\ _window_open_until (entity w') = Some now.
Proof.
  cbv zeta.
  change (clock_reads (world_of rapid_drop_state)) with 0%nat.
  rewrite (rapid_drop_tick 1 (present_env 1120) 0 0 (world_of rapid_drop_state)
             eq_refl (present_env_now 1120)).
  rewrite present_env_now.
  change (_window_threshold_per_min (with_window_duration 0 example_params)) with 1.
  unfold_constants.
  split; [lra |]. split; [lra |]. f_equal. lra.
Qed.

(** ** Setting the target temperature *)

Section Keeps.
Context {B : Type} (f : State -> B).

Lemma keeps_ret {A} (a : A) : keeps f (ret a).
Proof. intros w. reflexivity. Qed.

Lemma keeps_bind {A C} (m : M A) (k : A -> M C) :
  keeps f m -> (forall a, keeps f (k a)) -> keeps f (bind m k).
Proof.
  intros Hm Hk w. unfold bind. specialize (Hm w).
  destruct (m w) as [a w1]. rewrite (Hk a w1). exact Hm.
Qed.

Lemma keeps_self_get {A} (g : State -> A) : keeps f (self_get g).
Proof. intros w. reflexivity. Qed.

Lemma keeps_self_do {A} (g : State -> A * State) :
  (forall s, f (snd (g s)) = f s) -> keeps f (self_do g).
Proof.
  intros Hg w. unfold self_do. specialize (Hg (entity w)).
  destruct (g (entity w)). exact Hg.
Qed.

Lemma keeps_self_set (g : State -> State) :
  (forall s, f (g s) = f s) -> keeps f (self_set g).
Proof. intros Hg. apply keeps_self_do. exact Hg. Qed.

Lemma keeps_time env : keeps f (time_monotonic env).
Proof. intros w. reflexivity. Qed.

Lemma keeps_call_later env : keeps f (async_call_later env).
Proof. intros w. reflexivity. Qed.

Lemma keeps_when (b : bool) (m : M unit) : keeps f m -> keeps f (when b m).
Proof. intros Hm. destruct b; [exact Hm | apply keeps_ret]. Qed.

End Keeps.

Ltac split_ifs :=
  repeat match goal with
    | |- context [if ?b then _ else _] => destruct b
    | |- context [match ?x with Some _ => _ | None => _ end] => destruct x
    | |- context [let '(_, _) := ?p in _] => destruct p
    end.

Lemma check_window_open_target params c now s :
  _target_temp (snd (_check_window_open params c now s)) = _target_temp s.
Proof. unfold _check_window_open. split_ifs; reflexivity. Qed.

Lemma compute_error_target params now s :
  _target_temp (snd (compute_error_and_timing_at params now s)) = _target_temp s.
Proof. reflexivity. Qed.

Lemma update_feedforward_target params now s :
  _target_temp (snd (update_feedforward_at params now s)) = _target_temp s.
Proof.
  unfold update_feedforward_at. cbn [snd set_diag_u_ff _target_temp].
  destruct (_boiler_flow_temp _); destruct (_outdoor_temp _); reflexivity.
Qed.

Lemma update_integral_target params ne h c dt u_ff s :
  _target_temp (_update_integral params ne h c dt u_ff s) = _target_temp s.
Proof. unfold _update_integral. split_ifs; reflexivity. Qed.

Lemma request_keeps_target VMS env params position force :
  keeps _target_temp (_async_request_valve_position VMS env params position force).
Proof.
  intros w.
  destruct (request_frame VMS env params position force w) as (v & a & m & l & E).
  rewrite E. reflexivity.
Qed.

Ltac keeps_step :=
  lazymatch goal with
  | |- keeps _ (ret _) => apply keeps_ret
  | |- keeps _ (bind _ _) => apply keeps_bind; [| intros ]
  | |- keeps _ (self_get _) => apply keeps_self_get
  | |- keeps _ (time_monotonic _) => apply keeps_time
  | |- keeps _ (async_call_later _) => apply keeps_call_later
  | |- keeps _ (_async_request_valve_position _ _ _ _ _) =>
      apply request_keeps_target
  | |- keeps _ (when _ _) => apply keeps_when
  | |- keeps _ (self_set _) => apply keeps_self_set; intros; reflexivity
  end.

Lemma handle_off_mode_keeps_target VMS env params :
  keeps _target_temp (_handle_off_mode VMS env params).
Proof.
  unfold _handle_off_mode. apply keeps_bind; [apply keeps_self_get | intros mode].
  destruct (negb _); repeat keeps_step.
Qed.

Lemma control_auto_keeps_target VMS env params :
  keeps _target_temp (control_auto VMS env params).
Proof.
  unfold control_auto. apply keeps_bind; [apply keeps_self_get | intros [c |]].
  2: apply keeps_ret.
  apply keeps_bind; [apply keeps_time | intros now].
  apply keeps_bind.
  { apply keeps_self_do. intros s. apply check_window_open_target. }
  intros [|]; [repeat keeps_step |].
  unfold _compute_error_and_timing, _update_feedforward.
  apply keeps_bind.
  { apply keeps_bind; [apply keeps_time | intros t].
    apply keeps_self_do. intros s. apply compute_error_target. }
  intros [[[error temp_range] norm_error] dt].
  apply keeps_bind.
  { apply keeps_bind; [apply keeps_time | intros t].
    apply keeps_self_do. intros s. apply update_feedforward_target. }
  intros [u_ff_raw u_ff].
  destruct (_classify_band _ _) as [[in_band heat_side] cool_side].
  apply keeps_bind.
  { apply keeps_self_set. intros s. apply update_integral_target. }
  intros _. apply keeps_bind.
  { apply keeps_self_do. intros s. reflexivity. }
  intros [u_pi u_i]. repeat keeps_step.
Qed.

Lemma set_hvac_mode_keeps_target VMS env params control mode :
  keeps _target_temp control ->
  keeps _target_temp (set_hvac_mode_with VMS env params control mode).
Proof.
  intros Hc. unfold set_hvac_mode_with, _cancel_boost.
  destruct (negb _); [apply keeps_ret |].
  destruct (HVACMode_eqb mode HEAT); repeat keeps_step; exact Hc.
Qed.

Lemma control_heating_keeps_target VMS env params fuel :
  keeps _target_temp (_async_control_heating VMS env params fuel).
Proof.
  induction fuel as [| fuel IH]; [apply keeps_ret |].
  cbn [_async_control_heating].
  apply keeps_bind; [apply handle_off_mode_keeps_target | intros off].
  destruct off; [apply keeps_ret |].
  apply keeps_bind.
  - unfold handle_boost_mode_with.
    apply keeps_bind; [apply keeps_self_get | intros mode].
    destruct (negb _); [apply keeps_ret |].
    apply keeps_bind; [apply request_keeps_target | intros _].
    apply keeps_bind; [apply keeps_self_get | intros [boost_until |]].
    2: apply keeps_ret.
    apply keeps_bind; [apply keeps_time | intros now].
    destruct (_ <=? _); [| apply keeps_ret].
    apply keeps_bind; [| intros; apply keeps_ret].
    apply set_hvac_mode_keeps_target, IH.
  - intros [[|] |]; try apply keeps_ret.
    apply keeps_bind; [apply control_auto_keeps_target | intros; apply keeps_ret].
Qed.

Lemma set_temperature_stores_request VMS env params fuel temperature w :
  async_set_temperature VMS env params fuel (Some temperature) w
  = _async_control_heating VMS env params fuel
      (with_entity (set_target_temp temperature (entity w)) w)
  /\ _target_temp
       (entity (snd (async_set_temperature VMS env params fuel (Some temperature) w)))
     = temperature.
Proof.
  assert (E : async_set_temperature VMS env params fuel (Some temperature) w
              = _async_control_heating VMS env params fuel
                  (with_entity (set_target_temp temperature (entity w)) w))
    by reflexivity.
  split; [exact E |]. rewrite E, control_heating_keeps_target. reflexivity.
Qed.

(** C2: the code at the failing input. With the range [5, 28], setting the
    target temperature to 100 runs a control tick and leaves 100, outside
    the configured range, as the stored target temperature. *)
Theorem set_temperature_does_not_clamp :
  let w := world_of example_state in
  let w' :=
    snd (async_set_temperature 1 (present_env 0) example_params 2 (Some 100) w) in
  _target_temp (entity w') = 100
  /\ ~ (_min_temp example_params <= _target_temp (entity w')
        <= _max_temp example_params).
Proof.
  cbv zeta.
  destruct (set_temperature_stores_request 1 (present_env 0) example_params 2 100
              (world_of example_state)) as [_ ->].
  split; [reflexivity |]. cbn. lra.
Qed.

(** ** In-band blending on a tick *)

Lemma in_band_pipeline now t2 :
  let s :=
    snd (auto_pipeline example_params 60 t2
           (set_last_window_check (Some (41 / 2, now)) in_band_state)) in
  _last_u_total s = Some (69 / 644) /\ _diag_u_ff s = Some 0.
Proof.
  evaluate. split; [f_equal; field | reflexivity].
Qed.

Lemma in_band_window_check now :
  _check_window_open example_params (41 / 2) now in_band_state
  = (false, set_last_window_check (Some (41 / 2, now)) in_band_state).
Proof. reflexivity. Qed.

Lemma in_band_tick VMS env fuel w :
  entity w = in_band_state ->
  monotonic env (S (clock_reads w)) = 60 ->
  let w' := snd (_async_control_heating VMS env example_params (S fuel) w) in
  _last_u_total (entity w') = Some (69 / 644) /\ _diag_u_ff (entity w') = Some 0.
Proof.
  cbv zeta.
  intros Hw Hnow.
  rewrite control_heating_auto_snd by (rewrite Hw; reflexivity).
  rewrite (control_auto_normal VMS env example_params w (41 / 2)
             (set_last_window_check (Some (41 / 2, monotonic env (clock_reads w)))
                in_band_state)).
  2: rewrite Hw; reflexivity.
  2: rewrite Hw; apply in_band_window_check.
  rewrite Hnow.
  pose proof (in_band_pipeline (monotonic env (clock_reads w))
                (monotonic env (S (S (clock_reads w))))) as P.
  destruct (auto_pipeline _ _ _ _) as [position s].
  lazymatch goal with
  | |- context [_async_request_valve_position _ _ ?p ?pos ?f ?w1] =>
      destruct (request_frame VMS env p pos f w1) as (v & a & m & l & E)
  end.
  rewrite E. exact P.
Qed.

(** C4, as stated, fails: at the warm edge of the band (error equal to the
    deadband) the blend weight is 1, so with zero feed-forward, valid timing
    and a previous command of 0.05 the tick decides the heating suggestion
    69/644 (about 0.107), which is not below the previous command. *)
Lemma warm_edge_counterexample :
  let env := present_env 50 in
  let w := world_of in_band_state in
  let w' := snd (_async_control_heating 1 env example_params 1 w) in
  Py.abs (_target_temp in_band_state - 41 / 2) <= _steady_deadband_c example_params
  /\ _last_u_total in_band_state = Some (1 / 20)
  /\ _last_update_monotonic in_band_state = Some 0
  /\ 0 < monotonic env 1 - 0
  /\ 0 < _decay_tau_s example_params
  /\ _diag_u_ff (entity w') = Some 0
  /\ _last_u_total (entity w') = Some (69 / 644)
  /\ ~ 69 / 644 < 1 / 20.
Proof.
  cbv zeta.
  assert (Hnow : monotonic (present_env 50) (S (clock_reads (world_of in_band_state)))
                 = 60) by (cbn; lra).
  destruct (in_band_tick 1 (present_env 50) 0 (world_of in_band_state) eq_refl Hnow)
    as [Hu Hff].
  split.
  { change (_target_temp in_band_state) with 21.
    change (_steady_deadband_c example_params) with (1 / 2).
    unfold Py.abs. R_decide. lra. }
  split; [reflexivity |]. split; [reflexivity |].
  split; [cbn; lra |]. split; [cbn; lra |].
  split; [exact Hff |]. split; [exact Hu | lra].
Qed.

(** ** Instances of the theorems on the scenarios *)

Lemma zero_reading_witness :
  let w := world_of (set_current_temperature (Some 0) example_state) in
  _current_temperature (entity w) = Some 0
  /\ exists temp_range dt,
       fst (_compute_error_and_timing (present_env 0) example_params w)
       = (0, temp_range, 0, dt).
Proof.
  cbv zeta. split; [reflexivity |].
  apply (zero_reading_is_treated_as_absent (present_env 0) example_params
           (world_of (set_current_temperature (Some 0) example_state))).
  reflexivity.
Defined.

Lemma anti_windup_witness :
  0 < 60
  /\ _i_accum
       (_update_integral example_params 1 true false (Some 60) 0 example_state)
     <= _i_accum example_state.
Proof.
  split; [lra |].
  apply (anti_windup example_params 1 false 60 0 example_state); [lra |].
  left. reduce_state. lra.
Defined.

Lemma heat_side_witness :
  _steady_deadband_c example_params < 2
  /\ _decide_u_total example_params (3 / 7) 0 2
       (_classify_band 2 (_steady_deadband_c example_params)).1.2 None example_state
     = _clamp01 (3 / 7 + 0).
Proof.
  assert (H : _steady_deadband_c example_params < 2)
    by (change (_steady_deadband_c example_params) with (1 / 2); lra).
  split; [exact H |].
  apply (heat_side_tracks_suggestion example_params (3 / 7) 0 2 None example_state H).
Defined.

Lemma in_band_decay_witness :
  let s := set_last_u_total (Some (1 / 5)) example_state in
  Py.abs 0 <= _steady_deadband_c example_params
  /\ 0 < 60
  /\ 0 < _decay_tau_s example_params
  /\ 0 < prev_u s
  /\ _clamp01 (0 + 0) < prev_u s
  /\ 0 <= _decide_u_total example_params 0 0 0 false (Some 60) s < prev_u s.
Proof.
  cbv zeta.
  assert (H1 : Py.abs 0 <= _steady_deadband_c example_params).
  { change (_steady_deadband_c example_params) with (1 / 2).
    unfold Py.abs. R_decide. lra. }
  assert (H2 : 0 < 60) by lra.
  assert (H3 : 0 < _decay_tau_s example_params)
    by (change (_decay_tau_s example_params) with 900; lra).
  assert (H4 : 0 < prev_u (set_last_u_total (Some (1 / 5)) example_state))
    by (change (prev_u (set_last_u_total (Some (1 / 5)) example_state)) with (1 / 5); lra).
  assert (H5 : _clamp01 (0 + 0) < prev_u (set_last_u_total (Some (1 / 5)) example_state)).
  { change (prev_u (set_last_u_total (Some (1 / 5)) example_state)) with (1 / 5).
    unfold _clamp01, _clamp. R_decide. lra. }
  repeat (split; [assumption |]).
  destruct (in_band_decay example_params 0 0 false 60
              (set_last_u_total (Some (1 / 5)) example_state) H1 H2 H3 H4)
    as [Hlo Hlt].
  exact (conj Hlo (Hlt H5)).
Defined.

Lemma selective_resend_witness :
  let w := world_of two_trv_state in
  quantize 1 150 = _valve_position (entity w)
  /\ service_calls
       (snd (_async_set_valve_position 1 (present_env 0) two_trv_params 150 w))
     = service_calls w
       ++ flat_map
            (trv_calls (present_env 0) two_trv_params (quantize 1 150) true
               (_actual_valve_map (entity w)))
            (_trv_entities two_trv_params).
Proof.
  cbv zeta.
  assert (H : quantize 1 150 = _valve_position (entity (world_of two_trv_state)))
    by reflexivity.
  split; [exact H |].
  apply (selective_resend 1 (present_env 0) two_trv_params 150
           (world_of two_trv_state) H).
  reflexivity.
Defined.

Lemma present_env_monotone t0 n :
  monotonic (present_env t0) n <= monotonic (present_env t0) (S n).
Proof. cbn [monotonic present_env]. rewrite S_INR. lra. Qed.

Lemma throttling_witness :
  let env := present_env 0 in
  let w := world_of example_state in
  let w1 := snd (_async_request_valve_position 1 env example_params 100 false w) in
  let w2 := snd (_async_request_valve_position 1 env example_params 120 false w1) in
  (forall n, monotonic env n <= monotonic env (S n))
  /\ due env w = true
  /\ monotonic env (clock_reads w1) - monotonic env (clock_reads w)
     < VALVE_UPDATE_MIN_INTERVAL_S
  /\ w2 = record_only 120 w1.
Proof.
  cbv zeta.
  assert (H1 : forall n, monotonic (present_env 0) n <= monotonic (present_env 0) (S n))
    by apply present_env_monotone.
  assert (H2 : due (present_env 0) (world_of example_state) = true) by reflexivity.
  assert (H3 : monotonic (present_env 0)
                 (clock_reads
                    (snd (_async_request_valve_position 1 (present_env 0)
                            example_params 100 false (world_of example_state))))
               - monotonic (present_env 0) (clock_reads (world_of example_state))
               < VALVE_UPDATE_MIN_INTERVAL_S).
  { rewrite request_spec, H2. cbn [orb].
    destruct (send_and_stamp_stamp 1 (present_env 0) example_params 100
                (world_of example_state)) as [-> _].
    cbn. unfold_constants. lra. }
  split; [exact H1 |]. split; [exact H2 |]. split; [exact H3 |].
  apply (throttling 1 (present_env 0) example_params 100 120
           (world_of example_state) H1 H2 H3).
Defined.

Lemma window_open_witness :
  let env := present_env 1120 in
  let w := world_of rapid_drop_state in
  _hvac_mode (entity w) = AUTO
  /\ _current_temperature (entity w) = Some 17
  /\ _valve_position
       (entity (snd (_async_control_heating 1 env example_params 1 w)))
     = VALVE_CLOSED_POSITION.
Proof.
  cbv zeta.
  assert (H1 : _hvac_mode (entity (world_of rapid_drop_state)) = AUTO) by reflexivity.
  assert (H2 : _current_temperature (entity (world_of rapid_drop_state)) = Some 17)
    by reflexivity.
  split; [exact H1 |]. split; [exact H2 |].
  apply (window_open_override 1 (present_env 1120) example_params 0
           (world_of rapid_drop_state) 17 H1 H2) with (last_temp := 20) (last_time := 1000).
  - reflexivity.
  - change (clock_reads (world_of rapid_drop_state)) with 0%nat.
    rewrite present_env_now. unfold_constants. lra.
  - change (clock_reads (world_of rapid_drop_state)) with 0%nat.
    rewrite present_env_now.
    change (_window_threshold_per_min example_params) with 1. lra.
  - change (_window_duration example_params) with 900. lra.
Defined.

(** ** Further properties of the controller *)

Lemma clamp_target_range lo hi t :
  lo <= hi -> lo <= Py.max lo (Py.min hi t) <= hi.
Proof.
  intros H.
  destruct (min_spec hi t) as [[? ->] | [? ->]];
    destruct (max_spec lo t) as [[? E] | [? E]];
    destruct (max_spec lo hi) as [[? E'] | [? E']];
    try rewrite E; try rewrite E'; lra.
Qed.

Lemma init_threshold_pos x :
  0 < (if Py.abs x =? 0 then DEFAULT_WINDOW_OPEN_THRESHOLD_PER_MIN else Py.abs x).
Proof.
  destruct (Reqb_cases (Py.abs x) 0) as [[? ->] | [Hn ->]]; [unfold_constants; lra |].
  destruct (abs_spec x) as [[? E] | [? E]]; rewrite E in *; lra.
Qed.

(** X1: whenever construction succeeds the temperature range is ordered
    (after the swap), the stored target lies within it, the window threshold
    is strictly positive, and the gains satisfy [Kc = tau * Ki]. *)
Theorem init_range_and_target config p s :
  __init__ config = Ok (p, s) ->
  _min_temp p <= _max_temp p
  /\ _min_temp p <= _target_temp s <= _max_temp p
  /\ 0 < _window_threshold_per_min p
  /\ _proportional_gain p = imc_tau config * _integral_gain p.
Proof.
  unfold __init__.
  fold (imc_tau config).
  pose proof (init_threshold_pos
                (default DEFAULT_WINDOW_OPEN_THRESHOLD_PER_MIN
                   (CONF_WINDOW_OPEN_THRESHOLD_PER_MIN config))) as Ht.
  destruct (Rleb_cases (default DEFAULT_MAX_TEMP (CONF_MAX_TEMP config))
              (default DEFAULT_MIN_TEMP (CONF_MIN_TEMP config))) as [[H ->] | [H ->]];
    (destruct (_ || _); [discriminate |]);
    intros [= <- <-]; cbn [_min_temp _max_temp _target_temp _window_threshold_per_min
                           _proportional_gain _integral_gain].
  all: split; [lra |]; split; [apply clamp_target_range; lra |];
    split; [exact Ht |]; unfold Rdiv; ring.
Qed.

(** X2: the temperature range used for normalization is at least
    [MIN_TEMP_RANGE_C], the normalized error lies in [0, 1] (0 for an error
    that is not positive, 1 for an error of at least the range), [dt] is
    absent exactly on the first tick and otherwise at least one microsecond,
    and the tick time is recorded. *)
Theorem error_and_timing_ranges params now s :
  let '((error, temp_range, norm_error, dt), s') :=
    compute_error_and_timing_at params now s in
  MIN_TEMP_RANGE_C <= temp_range
  /\ 0 <= norm_error <= 1
  /\ (error <= 0 -> norm_error = 0)
  /\ (temp_range <= error -> norm_error = 1)
  /\ (dt = None <-> _last_update_monotonic s = None)
  /\ (forall d, dt = Some d -> 1 / 1000000 <= d)
  /\ _last_update_monotonic s' = Some now.
Proof.
  unfold compute_error_and_timing_at.
  set (error := _target_temp s - _).
  set (temp_range := Py.max MIN_TEMP_RANGE_C _).
  assert (Hr : MIN_TEMP_RANGE_C <= temp_range) by apply max_lower.
  assert (Hp : 0 < temp_range) by (unfold MIN_TEMP_RANGE_C in Hr; lra).
  cbn [set_diag_error_c set_last_update_monotonic set_diag_error_norm
       _last_update_monotonic].
  split; [exact Hr |].
  assert (Hn : (error <= 0 /\ Py.max 0 (Py.min error temp_range) = 0)
               \/ (0 <= error <= temp_range
                   /\ Py.max 0 (Py.min error temp_range) = error)
               \/ (temp_range <= error
                   /\ Py.max 0 (Py.min error temp_range) = temp_range)).
  { destruct (min_spec error temp_range) as [[? ->] | [? ->]].
    - right; right. split; [lra |].
      destruct (max_spec 0 temp_range) as [[? ->] | [? ->]]; lra.
    - destruct (max_spec 0 error) as [[? ->] | [? ->]].
      + right; left. split; [lra | reflexivity].
      + left. split; [lra | reflexivity]. }
  assert (Hone : temp_range / temp_range = 1) by (field; lra).
  assert (Hzero : 0 / temp_range = 0) by (unfold Rdiv; ring).
  split.
  { destruct Hn as [[? ->] | [[? ->] | [? ->]]]; rewrite ?Hone, ?Hzero; try lra.
    split.
    - apply Rmult_le_pos; [lra |]. left. apply Rinv_0_lt_compat. lra.
    - apply (Rmult_le_reg_r temp_range); [lra |].
      unfold Rdiv. rewrite Rmult_assoc, Rinv_l by lra. lra. }
  split.
  { intros He. destruct Hn as [[? ->] | [[? ->] | [? ->]]]; rewrite ?Hzero; try lra.
    replace error with 0 by lra. exact Hzero. }
  split.
  { intros He. destruct Hn as [[? ->] | [[? ->] | [? ->]]]; rewrite ?Hone; try lra.
    replace error with temp_range by lra. exact Hone. }
  split.
  { destruct (_last_update_monotonic s); split; intros; congruence. }
  split; [| reflexivity].
  intros d. destruct (_last_update_monotonic s); [| discriminate].
  intros [= <-]. apply max_lower.
Qed.

(** X3: with a normalized error that is not negative, [_update_integral]
    keeps a non-negative accumulator non-negative, on every branch. *)
Theorem accumulator_stays_nonnegative params norm_error heat_side cool_side dt u_ff s :
  0 <= norm_error -> 0 <= _i_accum s ->
  0 <= _i_accum (_update_integral params norm_error heat_side cool_side dt u_ff s).
Proof.
  intros Hn Ha. unfold _update_integral.
  destruct dt as [dt |]; [| exact Ha].
  destruct (Rltb_cases 0 dt) as [[Hdt ->] | [Hdt ->]]; [| exact Ha].
  destruct heat_side.
  - destruct (_ && _); [| exact Ha]. cbn [set_i_accum _i_accum]. nra.
  - destruct (0 <? _decay_tau_s params); [| cbn; lra].
    destruct (0 <? _integral_gain params); [| cbn; lra].
    cbn [set_i_accum _i_accum]. apply max_lower.
Qed.

(** X4: off the heat side, with valid timing and a positive [Ki], the
    accumulator is multiplied by [exp(-dt / decay_tau)]: it stays
    non-negative and strictly decreases when it is positive. *)
Theorem integral_bleed params norm_error cool_side dt u_ff s :
  0 < dt -> 0 < _decay_tau_s params -> 0 < _integral_gain params ->
  0 <= _i_accum s ->
  let s' := _update_integral params norm_error false cool_side (Some dt) u_ff s in
  _i_accum s' = _i_accum s * exp (- dt / _decay_tau_s params)
  /\ (0 < _i_accum s -> _i_accum s' < _i_accum s).
Proof.
  intros Hdt Htau Hki Ha. cbv zeta. unfold _update_integral.
  rewrite (Rltb_true 0 dt), (Rltb_true 0 (_decay_tau_s params)),
    (Rltb_true 0 (_integral_gain params)) by assumption.
  cbn [set_i_accum _i_accum].
  destruct (alpha_valid dt (_decay_tau_s params) Hdt Htau) as [-> [H0 H1]].
  set (e := exp (- dt / _decay_tau_s params)) in *.
  replace ((1 - (1 - e)) * (_integral_gain params * _i_accum s) / _integral_gain params)
    with (_i_accum s * e) by (field; lra).
  assert (0 <= _i_accum s * e) by (apply Rmult_le_pos; lra).
  destruct (max_spec 0 (_i_accum s * e)) as [[? ->] | [? ->]].
  - split; [reflexivity | intros; nra].
  - split; [lra | intros; nra].
Qed.

Lemma prev_u_range s :
  (forall u, _last_u_total s = Some u -> 0 <= u <= 1) -> 0 <= prev_u s <= 1.
Proof.
  intros H. unfold prev_u. destruct (_last_u_total s) as [u |].
  - apply H. reflexivity.
  - apply clamp01_range.
Qed.

Lemma decay_value prev dt tau :
  0 < dt -> 0 < tau -> 0 <= prev ->
  Py.max 0 (prev + _alpha (Some dt) tau * (0 - prev)) = prev * exp (- dt / tau).
Proof.
  intros Hdt Htau Hprev.
  destruct (alpha_valid dt tau Hdt Htau) as [-> [H0 H1]].
  set (e := exp (- dt / tau)) in *.
  replace (prev + (1 - e) * (0 - prev)) with (prev * e) by ring.
  assert (0 <= prev * e) by (apply Rmult_le_pos; lra).
  destruct (max_spec 0 (prev * e)) as [[? ->] | [? ->]]; lra.
Qed.

Lemma decide_u_total_range params u_pi u_ff error heat_side dt s :
  (forall u, _last_u_total s = Some u -> 0 <= u <= 1) ->
  0 <= _decide_u_total params u_pi u_ff error heat_side dt s <= 1.
Proof.
  intros H. pose proof (prev_u_range s H) as Hp.
  unfold _decide_u_total.
  destruct (_ && _); [apply clamp01_range |].
  destruct heat_side; [apply clamp01_range |].
  destruct dt as [dt |]; [| lra].
  destruct (Rltb_cases 0 dt) as [[Hdt ->] | [Hdt ->]]; [| cbn [andb]; lra].
  destruct (Rltb_cases 0 (_decay_tau_s params)) as [[Htau ->] | [Htau ->]];
    [| cbn [andb]; lra].
  cbn [andb]. rewrite decay_value by lra.
  destruct (alpha_valid dt (_decay_tau_s params) Hdt Htau) as [E [H0 H1]].
  rewrite E in H0, H1. split; [apply Rmult_le_pos; lra | nra].
Qed.

(** X5: the decided command lies in [0, 1] for all inputs, provided the
    committed previous command, when there is one, lies in [0, 1]. *)
Theorem command_stays_in_unit_interval params u_pi u_ff error heat_side dt s :
  (forall u, _last_u_total s = Some u -> 0 <= u <= 1) ->
  0 <= _decide_u_total params u_pi u_ff error heat_side dt s <= 1.
Proof. exact (decide_u_total_range params u_pi u_ff error heat_side dt s). Qed.

Lemma decide_u_total_cool_side params u_pi u_ff error dt s :
  error < - _steady_deadband_c params ->
  0 <= _steady_deadband_c params ->
  0 < dt -> 0 < _decay_tau_s params -> 0 <= prev_u s ->
  _decide_u_total params u_pi u_ff error
    (_classify_band error (_steady_deadband_c params)).1.2 (Some dt) s
  = prev_u s * exp (- dt / _decay_tau_s params).
Proof.
  intros He Hd Hdt Htau Hp. unfold _decide_u_total, _classify_band. cbn [fst snd].
  rewrite (Rltb_false (_steady_deadband_c params) error) by lra.
  rewrite (Rltb_true 0 dt), (Rltb_true 0 (_decay_tau_s params)) by assumption.
  cbn [andb].
  assert (Hb : (0 <? Py.max 0 (_steady_deadband_c params))
               && (Py.abs error <=? Py.max 0 (_steady_deadband_c params)) = false).
  { destruct (max_spec 0 (_steady_deadband_c params)) as [[? ->] | [? ->]].
    - destruct (abs_spec error) as [[? ->] | [? ->]]; [| exfalso; lra].
      rewrite (Rleb_false (- error)) by lra. apply andb_false_r.
    - rewrite (Rltb_false 0 0) by lra. reflexivity. }
  rewrite Hb. apply decay_value; assumption.
Qed.

(** X6: clearly on the cool side (error below minus the deadband) with valid
    timing, the decided command is the previous command times
    [exp(-dt / decay_tau)], whatever the PI and feed-forward terms. *)
Theorem cool_side_decays_exponentially params u_pi u_ff error dt s :
  error < - _steady_deadband_c params ->
  0 <= _steady_deadband_c params ->
  0 < dt -> 0 < _decay_tau_s params -> 0 <= prev_u s ->
  _decide_u_total params u_pi u_ff error
    (_classify_band error (_steady_deadband_c params)).1.2 (Some dt) s
  = prev_u s * exp (- dt / _decay_tau_s params).
Proof. exact (decide_u_total_cool_side params u_pi u_ff error dt s). Qed.

Lemma decide_repeatedly_cool params u_pi u_ff error dt n : forall s,
  error < - _steady_deadband_c params ->
  0 <= _steady_deadband_c params ->
  0 < dt -> 0 < _decay_tau_s params -> 0 <= prev_u s ->
  prev_u (decide_repeatedly params u_pi u_ff error
            (_classify_band error (_steady_deadband_c params)).1.2 (Some dt) n s)
  = prev_u s * exp (- dt / _decay_tau_s params) ^ n.
Proof.
  induction n as [| n IH]; intros s He Hd Hdt Htau Hp.
  - cbn. lra.
  - cbn [decide_repeatedly]. rewrite IH; try assumption.
    + unfold prev_u at 1. cbn [set_last_u_total _last_u_total].
      rewrite decide_u_total_cool_side by assumption.
      cbn [pow]. ring.
    + unfold prev_u at 1. cbn [set_last_u_total _last_u_total].
      rewrite decide_u_total_cool_side by assumption.
      apply Rmult_le_pos; [assumption |]. left. apply exp_pos.
Qed.

(** X7: [n] consecutive cool-side decisions with the same [dt] leave the
    committed command at the initial one times [exp(-n * dt / decay_tau)]. *)
Theorem cool_side_decay_after_n_ticks params u_pi u_ff error dt n s :
  error < - _steady_deadband_c params ->
  0 <= _steady_deadband_c params ->
  0 < dt -> 0 < _decay_tau_s params -> 0 <= prev_u s ->
  prev_u (decide_repeatedly params u_pi u_ff error
            (_classify_band error (_steady_deadband_c params)).1.2 (Some dt) n s)
  = prev_u s * exp (- (INR n * dt) / _decay_tau_s params).
Proof.
  intros He Hd Hdt Htau Hp.
  rewrite decide_repeatedly_cool by assumption. f_equal.
  induction n as [| n IH].
  - cbn [pow INR]. replace (- (0 * dt) / _decay_tau_s params) with 0
      by (unfold Rdiv; ring).
    symmetry. apply exp_0.
  - cbn [pow]. rewrite IH, <- exp_plus. f_equal. rewrite S_INR. field. lra.
Qed.

(** X8: for a positive deadband, [_apply_deadband] maps [x] to a value of
    magnitude [max(0, |x| - db)], is odd, and on non-negative inputs stays
    between 0 and the input. *)
Theorem deadband_shrinks_towards_zero x db :
  0 < db ->
  Py.abs (_apply_deadband x db) = Py.max 0 (Py.abs x - db)
  /\ _apply_deadband (- x) db = - _apply_deadband x db
  /\ (0 <= x -> 0 <= _apply_deadband x db <= x).
Proof.
  intros Hdb. unfold _apply_deadband, Py.abs, Py.max.
  destruct (Rtotal_order x 0) as [Hx | [Hx | Hx]].
  - destruct (Rle_dec (- x) db); R_decide;
      (split; [| split]); intros; try lra; try ring; R_decide; lra.
  - subst x. replace (- 0) with 0 by ring. R_decide.
    (split; [| split]); intros; try lra; R_decide; lra.
  - destruct (Rle_dec x db); R_decide;
      (split; [| split]); intros; try lra; try ring; R_decide; lra.
Qed.

(** X9: with a previous filtered value, the output of [_ewma] lies between
    the previous value and the new sample, in every configuration. *)
Theorem ewma_stays_between params prev val tau dt :
  let y := _ewma params (Some prev) val tau dt in
  (prev <= val -> prev <= y <= val) /\ (val <= prev -> val <= y <= prev).
Proof.
  cbv zeta. unfold _ewma.
  destruct dt as [dt |]; [| lra].
  destruct (negb _); [cbn [orb]; lra |].
  destruct (Rleb_cases tau 0) as [[Ht ->] | [Ht ->]]; [cbn [orb]; lra |].
  destruct (Rleb_cases dt 0) as [[Hd ->] | [Hd ->]]; cbn [orb]; [lra |].
  assert (Hm : 0 < Py.max (1 / 1000000) tau).
  { pose proof (max_lower (1 / 1000000) tau). lra. }
  assert (Hneg : - dt / Py.max (1 / 1000000) tau < 0).
  { unfold Rdiv. rewrite <- Ropp_mult_distr_l. apply Ropp_lt_gt_0_contravar.
    apply Rmult_lt_0_compat; [lra | apply Rinv_0_lt_compat; lra]. }
  pose proof (exp_pos (- dt / Py.max (1 / 1000000) tau)) as He0.
  pose proof (exp_increasing _ _ Hneg) as He1. rewrite exp_0 in He1.
  set (e := exp _) in *.
  split; intros; split; nra.
Qed.

Lemma round_cases x :
  let f := Zfloor x in
  (Py.round x = f /\ x - IZR f <= 1 / 2)
  \/ (Py.round x = (f + 1)%Z /\ 1 / 2 <= x - IZR f).
Proof.
  cbv zeta. unfold Py.round.
  destruct (Rltb_cases (x - IZR (Zfloor x)) (1 / 2)) as [[H ->] | [H ->]].
  { left. split; [reflexivity | lra]. }
  destruct (Rltb_cases (1 / 2) (x - IZR (Zfloor x))) as [[H' ->] | [H' ->]].
  { right. split; [reflexivity | lra]. }
  destruct (Z.even _); [left | right]; split; (reflexivity || lra).
Qed.

Lemma round_nearest x : IZR (Py.round x) - 1 / 2 <= x <= IZR (Py.round x) + 1 / 2.
Proof.
  pose proof (Zfloor_bound x) as B.
  destruct (round_cases x) as [[-> H] | [-> H]]; [lra |].
  rewrite plus_IZR. lra.
Qed.

Lemma round_monotone x y : x <= y -> (Py.round x <= Py.round y)%Z.
Proof.
  intros Hxy.
  pose proof (Zfloor_le x y Hxy) as Hf.
  pose proof (Zfloor_bound x) as Bx. pose proof (Zfloor_bound y) as By.
  destruct (Z.eq_dec (Zfloor x) (Zfloor y)) as [E | N].
  - unfold Py.round. rewrite <- E.
    destruct (Rltb_cases (x - IZR (Zfloor x)) (1 / 2)) as [[H1 ->] | [H1 ->]];
      destruct (Rltb_cases (y - IZR (Zfloor x)) (1 / 2)) as [[H2 ->] | [H2 ->]];
      try lia; try (exfalso; lra).
    + destruct (_ <? _); [lia |]. destruct (Z.even _); lia.
    + destruct (Rltb_cases (1 / 2) (x - IZR (Zfloor x))) as [[H3 ->] | [H3 ->]];
        destruct (Rltb_cases (1 / 2) (y - IZR (Zfloor x))) as [[H4 ->] | [H4 ->]];
        try lia; try (exfalso; lra).
      destruct (Z.even _); lia.
  - assert (Zfloor x + 1 <= Zfloor y)%Z by lia.
    destruct (round_cases x) as [[-> _] | [-> _]];
      destruct (round_cases y) as [[-> _] | [-> _]]; lia.
Qed.

Lemma clampZ_range x lo hi : (lo <= hi)%Z -> (lo <= _clampZ x lo hi <= hi)%Z.
Proof.
  intros H. unfold _clampZ.
  destruct (Z.ltb_spec x lo); [lia |]. destruct (Z.ltb_spec hi x); lia.
Qed.

Lemma clampZ_id x lo hi : (lo <= x <= hi)%Z -> _clampZ x lo hi = x.
Proof.
  intros H. unfold _clampZ.
  destruct (Z.ltb_spec x lo); [lia |]. destruct (Z.ltb_spec hi x); lia.
Qed.

Lemma round_multiple (k step : Z) :
  (0 < step)%Z -> Py.round (IZR (k * step) / IZR step) = k.
Proof.
  intros H. rewrite mult_IZR.
  replace (IZR k * IZR step / IZR step) with (IZR k).
  - apply round_integer.
  - field. apply not_0_IZR. lia.
Qed.

Lemma round_nonneg x : 0 <= x -> (0 <= Py.round x)%Z.
Proof.
  intros H. rewrite <- (round_integer 0). apply round_monotone. exact H.
Qed.

Lemma snap_to_step_spec value step hi :
  (1 < step)%Z -> (0 <= hi)%Z ->
  let v := _clampZ value 0 hi in
  let q := _snap_to_step value step 0 hi in
  (0 <= q <= hi)%Z
  /\ ((exists k, q = (k * step)%Z) \/ q = hi)
  /\ 2 * Rabs (IZR q - IZR v) <= IZR step
  /\ _snap_to_step q step 0 hi = q.
Proof.
  intros Hstep Hhi v q.
  assert (Hv : (0 <= v <= hi)%Z) by (apply clampZ_range; lia).
  assert (Hs : 0 < IZR step) by (apply IZR_lt; lia).
  unfold _snap_to_step in q.
  destruct (Z.leb_spec step 1) as [? | _]; [lia |]. fold v in q.
  set (k := Py.round (IZR v / IZR step)) in *.
  assert (Hk0 : (0 <= k)%Z).
  { apply round_nonneg. apply Rmult_le_pos; [apply IZR_le; lia |].
    left. apply Rinv_0_lt_compat. exact Hs. }
  pose proof (round_nearest (IZR v / IZR step)) as Hn. fold k in Hn.
  assert (Hnear : - IZR step <= 2 * (IZR (k * step) - IZR v) <= IZR step).
  { rewrite mult_IZR.
    assert (E : IZR v = IZR v / IZR step * IZR step) by (field; lra).
    rewrite E at 1 2. split; nra. }
  assert (Hq : (0 <= q <= hi)%Z) by (apply clampZ_range; lia).
  split; [exact Hq |].
  destruct (Z.le_gt_cases (k * step) hi) as [Hle | Hgt].
  - assert (Eq : q = (k * step)%Z) by (apply clampZ_id; nia).
    split; [left; eauto |]. split.
    + rewrite Eq. unfold Rabs. destruct (Rcase_abs _); lra.
    + unfold _snap_to_step. destruct (Z.leb_spec step 1); [lia |].
      rewrite (clampZ_id q) by lia. rewrite Eq at 1.
      rewrite round_multiple by lia. rewrite <- Eq. apply clampZ_id. lia.
  - assert (Eq : q = hi).
    { unfold q, _clampZ. destruct (Z.ltb_spec (k * step) 0); [nia |].
      destruct (Z.ltb_spec hi (k * step)); lia. }
    split; [right; exact Eq |]. split.
    + rewrite Eq. assert (IZR v <= IZR hi) by (apply IZR_le; lia).
      assert (IZR hi < IZR (k * step)) by (apply IZR_lt; lia).
      unfold Rabs. destruct (Rcase_abs _); lra.
    + rewrite Eq. unfold _snap_to_step. destruct (Z.leb_spec step 1); [lia |].
      rewrite (clampZ_id hi) by lia.
      assert (k <= Py.round (IZR hi / IZR step))%Z.
      { apply round_monotone. apply Rmult_le_compat_r.
        - left. apply Rinv_0_lt_compat. exact Hs.
        - apply IZR_le. lia. }
      unfold _clampZ.
      destruct (Z.ltb_spec (Py.round (IZR hi / IZR step) * step) 0); [nia |].
      destruct (Z.ltb_spec hi (Py.round (IZR hi / IZR step) * step)); nia.
Qed.

(** X10: for a step above 1 and a range [0, hi], [_snap_to_step] returns a
    position within the range that is a multiple of the step or the upper
    bound, at most half a step from the clamped request, and snapping the
    result again returns it unchanged. *)
Theorem snap_to_step_nearest_multiple value step hi :
  (1 < step)%Z -> (0 <= hi)%Z ->
  let v := _clampZ value 0 hi in
  let q := _snap_to_step value step 0 hi in
  (0 <= q <= hi)%Z
  /\ ((exists k, q = (k * step)%Z) \/ q = hi)
  /\ 2 * Rabs (IZR q - IZR v) <= IZR step
  /\ _snap_to_step q step 0 hi = q.
Proof. exact (snap_to_step_spec value step hi). Qed.

(** X11: with a positive threshold and no active suppression, a temperature
    that has not fallen below the reference never reports an open window
    and leaves no suppression set. *)
Theorem window_check_ignores_rise params c now s :
  0 < _window_threshold_per_min params ->
  (forall expiry, _window_open_until s = Some expiry -> expiry <= now) ->
  (forall last_temp last_time,
     _last_window_check s = Some (last_temp, last_time) -> last_temp <= c) ->
  fst (_check_window_open params c now s) = false
  /\ _window_open_until (snd (_check_window_open params c now s)) = None.
Proof.
  intros Hthr Hexp Hrise. unfold _check_window_open.
  assert (D : forall s0,
     _last_window_check s0 = _last_window_check s ->
     _window_open_until s0 = None ->
     fst (match _last_window_check s0 with
          | Some (last_temp, last_time) =>
              if now - last_time <? WINDOW_CHECK_MIN_INTERVAL_S then (false, s0)
              else if (c - last_temp) / (now - last_time) * 60
                      <? - _window_threshold_per_min params
              then (true, set_window_open_until (Some (now + _window_duration params))
                            (set_last_window_check (Some (c, now)) s0))
              else (false, set_last_window_check (Some (c, now)) s0)
          | None => (false, set_last_window_check (Some (c, now)) s0)
          end) = false
     /\ _window_open_until
          (snd (match _last_window_check s0 with
                | Some (last_temp, last_time) =>
                    if now - last_time <? WINDOW_CHECK_MIN_INTERVAL_S then (false, s0)
                    else if (c - last_temp) / (now - last_time) * 60
                            <? - _window_threshold_per_min params
                    then (true, set_window_open_until (Some (now + _window_duration params))
                                  (set_last_window_check (Some (c, now)) s0))
                    else (false, set_last_window_check (Some (c, now)) s0)
                | None => (false, set_last_window_check (Some (c, now)) s0)
                end)) = None).
  { intros s0 E0 U0. rewrite E0.
    destruct (_last_window_check s) as [[last_temp last_time] |] eqn:El.
    2: { split; [reflexivity | exact U0]. }
    pose proof (Hrise _ _ eq_refl) as Hr.
    destruct (Rltb_cases (now - last_time) WINDOW_CHECK_MIN_INTERVAL_S)
      as [[Hd ->] | [Hd ->]].
    { split; [reflexivity | exact U0]. }
    assert (0 < now - last_time) by (unfold WINDOW_CHECK_MIN_INTERVAL_S in Hd; lra).
    assert (0 <= (c - last_temp) / (now - last_time) * 60).
    { apply Rmult_le_pos; [| lra]. apply Rmult_le_pos; [lra |].
      left. apply Rinv_0_lt_compat. assumption. }
    rewrite Rltb_false by lra. split; [reflexivity | exact U0]. }
  destruct (_window_open_until s) as [expiry |] eqn:Eu.
  - rewrite (Rltb_false now expiry) by (apply Hexp; reflexivity).
    apply D; reflexivity.
  - apply D; [reflexivity | exact Eu].
Qed.

(** X12: with no active suppression and a reference at least the minimum
    check interval old, an open window is reported exactly when the
    temperature fell by more than [threshold * elapsed / 60]; either way the
    reference becomes the current reading. *)
Theorem window_detects_exactly_fast_drops params c now s last_temp last_time :
  (forall expiry, _window_open_until s = Some expiry -> expiry <= now) ->
  _last_window_check s = Some (last_temp, last_time) ->
  WINDOW_CHECK_MIN_INTERVAL_S <= now - last_time ->
  let r := _check_window_open params c now s in
  (fst r = true
   <-> _window_threshold_per_min params * (now - last_time) / 60 < last_temp - c)
  /\ _last_window_check (snd r) = Some (c, now).
Proof.
  intros Hexp Hl Hd. cbv zeta.
  assert (Hpos : 0 < now - last_time) by (unfold WINDOW_CHECK_MIN_INTERVAL_S in Hd; lra).
  assert (Hrate : (c - last_temp) / (now - last_time) * 60
                  < - _window_threshold_per_min params
                  <-> _window_threshold_per_min params * (now - last_time) / 60
                      < last_temp - c).
  { assert (E : c - last_temp
                = (c - last_temp) / (now - last_time) * (now - last_time))
      by (field; lra).
    set (q := (c - last_temp) / (now - last_time)) in *.
    split; intros; nra. }
  unfold _check_window_open.
  assert (D : forall s0, _last_window_check s0 = Some (last_temp, last_time) ->
     let r :=
       match _last_window_check s0 with
       | Some (last_temp, last_time) =>
           if now - last_time <? WINDOW_CHECK_MIN_INTERVAL_S then (false, s0)
           else if (c - last_temp) / (now - last_time) * 60
                   <? - _window_threshold_per_min params
           then (true, set_window_open_until (Some (now + _window_duration params))
                         (set_last_window_check (Some (c, now)) s0))
           else (false, set_last_window_check (Some (c, now)) s0)
       | None => (false, set_last_window_check (Some (c, now)) s0)
       end in
     (fst r = true
      <-> _window_threshold_per_min params * (now - last_time) / 60 < last_temp - c)
     /\ _last_window_check (snd r) = Some (c, now)).
  { intros s0 E0. cbv zeta. rewrite E0, (Rltb_false _ _ Hd).
    destruct (Rltb_cases ((c - last_temp) / (now - last_time) * 60)
                (- _window_threshold_per_min params)) as [[H ->] | [H ->]].
    - split; [| reflexivity]. split; [intros _; apply Hrate; exact H | reflexivity].
    - split; [| reflexivity]. split; [discriminate |].
      intros H'. apply Hrate in H'. lra. }
  destruct (_window_open_until s) as [expiry |] eqn:Eu.
  - rewrite (Rltb_false now expiry) by (apply Hexp; reflexivity).
    apply D. exact Hl.
  - apply D. exact Hl.
Qed.

Lemma clamp_reading_range v :
  (VALVE_CLOSED_POSITION <= clamp_reading v <= VALVE_OPEN_POSITION)%Z.
Proof. unfold clamp_reading, VALVE_CLOSED_POSITION, VALVE_OPEN_POSITION. lia. Qed.

Lemma read_actual_range env trv v :
  read_actual env trv = Some v ->
  (VALVE_CLOSED_POSITION <= v <= VALVE_OPEN_POSITION)%Z.
Proof.
  unfold read_actual.
  destruct (match states_get env (valve_entity_id trv) with Some _ => _ | None => _ end).
  { intros [= <-]. apply clamp_reading_range. }
  destruct (states_get env trv) as [st |]; [| discriminate].
  destruct (hs_valve_position st) as [vp |]; [| discriminate].
  destruct (float_of_attr env vp); [| discriminate].
  intros [= <-]. apply clamp_reading_range.
Qed.

Lemma read_actuals_invariant env trvs : forall max_pos local_map,
  cache_consistent env max_pos local_map ->
  cache_consistent env (fst (read_actuals env trvs max_pos local_map))
    (snd (read_actuals env trvs max_pos local_map)).
Proof.
  induction trvs as [| trv trvs IH]; intros max_pos local_map [I1 I2].
  - split; assumption.
  - cbn [read_actuals].
    destruct (read_actual env trv) as [v |] eqn:Er; [| apply IH; split; assumption].
    apply IH. split.
    + intros t x Hx. destruct (decide (t = trv)) as [-> | Hne].
      * rewrite lookup_insert_eq in Hx. injection Hx as <-.
        split; [exact Er |]. eexists. split; [reflexivity |].
        destruct max_pos; lia.
      * rewrite lookup_insert_ne in Hx by congruence.
        destruct (I1 t x Hx) as (Hr & m & -> & Hle).
        split; [exact Hr |]. eexists. split; [reflexivity | lia].
    + intros m [= <-]. destruct max_pos as [m0 |].
      * destruct (Z.max_spec m0 v) as [[_ ->] | [Hlt ->]].
        -- exists trv. apply lookup_insert_eq.
        -- destruct (I2 m0 eq_refl) as [t Ht].
           destruct (decide (t = trv)) as [-> | Hne].
           ++ destruct (I1 trv m0 Ht) as (Hr & _).
              rewrite Er in Hr. injection Hr as ->.
              exists trv. apply lookup_insert_eq.
           ++ exists t. rewrite lookup_insert_ne by congruence. exact Ht.
      * exists trv. apply lookup_insert_eq.
Qed.

Lemma read_actuals_lookup env trvs : forall max_pos (local_map : gmap string Z) trv,
  snd (read_actuals env trvs max_pos local_map) !! trv
  = match (if in_dec string_dec trv trvs then read_actual env trv else None) with
    | Some v => Some v
    | None => local_map !! trv
    end.
Proof.
  induction trvs as [| a trvs IH]; intros max_pos local_map trv.
  - reflexivity.
  - cbn [read_actuals].
    destruct (read_actual env a) as [v |] eqn:Er; rewrite IH.
    + destruct (in_dec string_dec trv trvs) as [Hin | Hnin];
        destruct (in_dec string_dec trv (a :: trvs)) as [Hin' | Hnin'].
      * destruct (read_actual env trv) eqn:Et; [reflexivity |].
        apply lookup_insert_ne. intros ->. congruence.
      * exfalso. apply Hnin'. right. exact Hin.
      * destruct Hin' as [-> | Hin']; [| contradiction].
        rewrite Er. apply lookup_insert_eq.
      * apply lookup_insert_ne. intros ->. apply Hnin'. left. reflexivity.
    + destruct (in_dec string_dec trv trvs) as [Hin | Hnin];
        destruct (in_dec string_dec trv (a :: trvs)) as [Hin' | Hnin'].
      * reflexivity.
      * exfalso. apply Hnin'. right. exact Hin.
      * destruct Hin' as [-> | Hin']; [| contradiction].
        rewrite Er. reflexivity.
      * reflexivity.
Qed.

(** X13: after [_async_update_actual_valve_position] the cache holds, for
    each configured TRV that reports, its clamped reading and nothing else;
    every cached reading lies in 0..255 and is at most the aggregate; the
    aggregate is one of the cached readings, and it is absent exactly when
    the cache is empty. *)
Theorem observed_cache_after_refresh env params w :
  let s' := entity (snd (_async_update_actual_valve_position env params w)) in
  (forall trv,
     _actual_valve_map s' !! trv
     = if in_dec string_dec trv (_trv_entities params)
       then read_actual env trv else None)
  /\ (forall trv v, _actual_valve_map s' !! trv = Some v ->
        (VALVE_CLOSED_POSITION <= v <= VALVE_OPEN_POSITION)%Z
        /\ exists m, _actual_valve_position s' = Some m /\ (v <= m)%Z)
  /\ (forall m, _actual_valve_position s' = Some m ->
        exists trv, _actual_valve_map s' !! trv = Some m)
  /\ (_actual_valve_position s' = None <-> _actual_valve_map s' = ∅).
Proof.
  cbv zeta. rewrite update_actual_spec. cbn [snd]. unfold refresh_actual.
  pose proof (read_actuals_invariant env (_trv_entities params) None ∅) as [I1 I2].
  { split; [intros trv v H; rewrite lookup_empty in H; discriminate | discriminate]. }
  pose proof (read_actuals_lookup env (_trv_entities params) None ∅) as L.
  destruct (read_actuals env (_trv_entities params) None ∅) as [max_pos local_map].
  cbn [fst snd] in *.
  cbn [with_entity entity set_actual_valve_map set_actual_valve_position
       _actual_valve_map _actual_valve_position].
  split.
  { intros trv. rewrite L, lookup_empty.
    destruct (in_dec string_dec trv (_trv_entities params)); [| reflexivity].
    destruct (read_actual env trv); reflexivity. }
  split.
  { intros trv v H. destruct (I1 trv v H) as [Hr Hm].
    split; [eapply read_actual_range; exact Hr | exact Hm]. }
  split; [exact I2 |].
  split.
  - intros ->. apply map_eq. intros trv. rewrite lookup_empty.
    destruct (local_map !! trv) as [v |] eqn:E; [| reflexivity].
    destruct (I1 trv v E) as (_ & m & Hm & _). discriminate.
  - intros ->. destruct max_pos as [m |]; [| reflexivity].
    destruct (I2 m eq_refl) as [trv H]. rewrite lookup_empty in H. discriminate.
Qed.

Lemma quantize_range VMS position :
  (VALVE_CLOSED_POSITION <= quantize VMS position <= VALVE_OPEN_POSITION)%Z.
Proof.
  unfold quantize, VALVE_CLOSED_POSITION, VALVE_OPEN_POSITION.
  destruct (Z.ltb_spec 1 (Z.max 1 VMS)) as [H | H].
  - apply (snap_to_step_spec position (Z.max 1 VMS) 255); lia.
  - apply clampZ_range. lia.
Qed.

Lemma set_valve_position_commits VMS env params position w :
  let w' := snd (_async_set_valve_position VMS env params position w) in
  _valve_position (entity w') = quantize VMS position
  /\ (VALVE_CLOSED_POSITION <= _valve_position (entity w') <= VALVE_OPEN_POSITION)%Z
  /\ clock_reads w' = clock_reads w.
Proof.
  cbv zeta.
  assert (E : _valve_position
                (entity (snd (_async_set_valve_position VMS env params position w)))
              = quantize VMS position).
  { rewrite set_valve_position_spec. cbn [snd].
    destruct (Z.eqb_spec (quantize VMS position) (_valve_position (entity w)))
      as [Heq | Hne]; cbn [andb].
    - destruct (negb _); [symmetry; exact Heq |].
      unfold refresh_actual. destruct (read_actuals _ _ _ _). reflexivity.
    - unfold refresh_actual. destruct (read_actuals _ _ _ _). reflexivity. }
  split; [exact E |]. split; [rewrite E; apply quantize_range |].
  apply set_valve_frame.
Qed.

(** X14: after [_async_set_valve_position], whether it sent or skipped, the
    committed position is the quantized request, it lies in 0..255, and the
    clock was not read. *)
Theorem committed_position_after_send VMS env params position w :
  let w' := snd (_async_set_valve_position VMS env params position w) in
  _valve_position (entity w') = quantize VMS position
  /\ (VALVE_CLOSED_POSITION <= _valve_position (entity w') <= VALVE_OPEN_POSITION)%Z
  /\ clock_reads w' = clock_reads w.
Proof. exact (set_valve_position_commits VMS env params position w). Qed.

Lemma trv_calls_sent env params position (actual_map : gmap string Z) trv :
  trv_calls env params position false actual_map trv <> []
  <-> is_Some (states_get env trv).
Proof.
  unfold trv_calls.
  destruct (states_get env trv) as [trv_state |].
  2: { split; [done | intros [? ?]; discriminate]. }
  cbn [andb]. assert (is_Some (Some trv_state)) by eauto.
  destruct (states_get env (valve_entity_id trv)); [split; [auto | discriminate] |].
  destruct (position =? _)%Z; [split; [auto | discriminate] |].
  destruct (String.eqb _ _); split; auto; discriminate.
Qed.

(** X15: when the quantized request differs from the committed position, the
    calls issued are those of every TRV the host knows, whatever the
    observed positions. *)
Theorem position_change_reaches_every_known_trv VMS env params position w :
  quantize VMS position <> _valve_position (entity w) ->
  let pos := quantize VMS position in
  let w' := snd (_async_set_valve_position VMS env params position w) in
  service_calls w'
  = service_calls w
    ++ flat_map (trv_calls env params pos false (_actual_valve_map (entity w)))
         (_trv_entities params)
  /\ (forall trv,
        trv_calls env params pos false (_actual_valve_map (entity w)) trv <> []
        <-> is_Some (states_get env trv)).
Proof.
  intros Hne. cbv zeta. rewrite set_valve_position_spec.
  assert ((quantize VMS position =? _valve_position (entity w))%Z = false) as ->
    by (apply Z.eqb_neq; exact Hne).
  cbn [andb snd]. split.
  - unfold refresh_actual. destruct (read_actuals _ _ _ _). reflexivity.
  - intros trv. apply trv_calls_sent.
Qed.

Lemma trv_calls_empty_iff env env' params position rs (actual_map : gmap string Z) trv :
  (forall entity_id, states_get env entity_id = states_get env' entity_id) ->
  trv_calls env params position rs actual_map trv = []
  <-> trv_calls env' params position rs actual_map trv = [].
Proof.
  intros Hs. unfold trv_calls. rewrite <- !Hs.
  destruct (states_get env trv); [| tauto].
  destruct (rs && _); [tauto |].
  destruct (states_get env (valve_entity_id trv)); [tauto |].
  destruct (position =? _)%Z; [tauto |].
  destruct (String.eqb _ _); split; discriminate.
Qed.






Lemma request_keeps_view VMS env params position force :
  keeps control_view (_async_request_valve_position VMS env params position force).
Proof.
  intros w.
  destruct (request_frame VMS env params position force w) as (v & a & m & l & E).
  rewrite E. reflexivity.
Qed.

Lemma check_window_open_view params c now s :
  control_view (snd (_check_window_open params c now s)) = control_view s.
Proof. unfold _check_window_open. split_ifs; reflexivity. Qed.

Lemma update_feedforward_view params now s :
  control_view (snd (update_feedforward_at params now s)) = control_view s.
Proof.
  unfold update_feedforward_at. cbn [snd].
  destruct (_boiler_flow_temp _); destruct (_outdoor_temp _); reflexivity.
Qed.

Lemma update_integral_view params ne h c dt u_ff s :
  control_view (_update_integral params ne h c dt u_ff s) = control_view s.
Proof. unfold _update_integral. split_ifs; reflexivity. Qed.

Ltac view_step :=
  lazymatch goal with
  | |- keeps _ (ret _) => apply keeps_ret
  | |- keeps _ (bind _ _) => apply keeps_bind; [| intros ]
  | |- keeps _ (self_get _) => apply keeps_self_get
  | |- keeps _ (time_monotonic _) => apply keeps_time
  | |- keeps _ (async_call_later _) => apply keeps_call_later
  | |- keeps _ (_async_request_valve_position _ _ _ _ _) =>
      apply request_keeps_view
  | |- keeps _ (when _ _) => apply keeps_when
  | |- keeps _ (self_set _) => apply keeps_self_set; intros; reflexivity
  end.

Lemma control_auto_keeps_view VMS env params w :
  control_view (entity (snd (control_auto VMS env params w)))
  = control_view (entity w).
Proof.
  revert w. change (keeps control_view (control_auto VMS env params)).
  unfold control_auto. apply keeps_bind; [apply keeps_self_get | intros [c |]].
  2: apply keeps_ret.
  apply keeps_bind; [apply keeps_time | intros now].
  apply keeps_bind.
  { apply keeps_self_do. intros s. apply check_window_open_view. }
  intros [|]; [repeat view_step |].
  unfold _compute_error_and_timing, _update_feedforward.
  apply keeps_bind.
  { apply keeps_bind; [apply keeps_time | intros t].
    apply keeps_self_do. intros s. reflexivity. }
  intros [[[error temp_range] norm_error] dt].
  apply keeps_bind.
  { apply keeps_bind; [apply keeps_time | intros t].
    apply keeps_self_do. intros s. apply update_feedforward_view. }
  intros [u_ff_raw u_ff].
  destruct (_classify_band _ _) as [[in_band heat_side] cool_side].
  apply keeps_bind.
  { apply keeps_self_set. intros s. apply update_integral_view. }
  intros _. apply keeps_bind.
  { apply keeps_self_do. intros s. reflexivity. }
  intros [u_pi u_i]. repeat view_step.
Qed.

(** X17: the AUTO core loop, including its dispatch and the window-open
    override, never changes the target temperature, the mode, the current
    temperature, the boost state or the raw secondary readings. *)
Theorem auto_loop_keeps_user_settings VMS env params w :
  control_view (entity (snd (control_auto VMS env params w)))
  = control_view (entity w).
Proof. exact (control_auto_keeps_view VMS env params w). Qed.

Lemma closing_request VMS env params w :
  let w' :=
    snd (_async_request_valve_position VMS env params VALVE_CLOSED_POSITION true w) in
  _valve_position (entity w') = VALVE_CLOSED_POSITION
  /\ _desired_valve_position (entity w') = Some VALVE_CLOSED_POSITION
  /\ exists cs, service_calls w' = service_calls w ++ cs /\ Forall closes cs.
Proof.
  cbv zeta. rewrite request_spec. cbn [orb]. unfold send_and_stamp.
  change (clamp_position VALVE_CLOSED_POSITION) with VALVE_CLOSED_POSITION.
  pose proof (set_valve_position_commits VMS env params VALVE_CLOSED_POSITION
                (record_only VALVE_CLOSED_POSITION w)) as [Hv _].
  rewrite quantize_closed in Hv.
  destruct (set_valve_frame VMS env params VALVE_CLOSED_POSITION
              (record_only VALVE_CLOSED_POSITION w)) as [_ (v & a & m & E)].
  cbn [entity service_calls set_last_valve_send_monotonic _valve_position
       _desired_valve_position].
  split; [exact Hv |]. split.
  { rewrite E. reflexivity. }
  rewrite set_valve_position_spec. rewrite quantize_closed. cbn [snd].
  destruct (_ && negb _).
  - exists []. split; [cbn; rewrite app_nil_r; reflexivity | constructor].
  - unfold refresh_actual. destruct (read_actuals _ _ _ _). cbn.
    eexists. split; [reflexivity |].
    apply Forall_forall. intros c Hc. apply list_elem_of_In in Hc.
    apply in_flat_map in Hc as (trv & _ & Hc). eapply trv_calls_closed, Hc.
Qed.

Lemma off_tick_spec VMS env params fuel w :
  _hvac_mode (entity w) = OFF ->
  let r := _async_control_heating VMS env params (S fuel) w in
  fst r = Some tt
  /\ _valve_position (entity (snd r)) = VALVE_CLOSED_POSITION
  /\ _desired_valve_position (entity (snd r)) = Some VALVE_CLOSED_POSITION
  /\ _i_accum (entity (snd r)) = 0
  /\ _last_update_monotonic (entity (snd r)) = None
  /\ _diag_error_c (entity (snd r)) = None
  /\ _diag_error_norm (entity (snd r)) = None
  /\ _diag_u_pi (entity (snd r)) = None
  /\ _diag_u_i (entity (snd r)) = None
  /\ _diag_u_ff (entity (snd r)) = None
  /\ _diag_u_total (entity (snd r)) = None
  /\ exists cs, service_calls (snd r) = service_calls w ++ cs /\ Forall closes cs.
Proof.
  intros Hmode. cbv zeta.
  pose proof (closing_request VMS env params w) as (Hv & Hd & Hcs).
  cbn [_async_control_heating]. unfold _handle_off_mode.
  set (req := _async_request_valve_position VMS env params VALVE_CLOSED_POSITION true)
    in *.
  unfold bind, self_get, self_set, self_do, ret, with_entity.
  rewrite Hmode. cbn [HVACMode_eqb negb].
  destruct (req w) as [[] w1]. cbn [snd] in Hv, Hd, Hcs.
  cbn [fst snd entity service_calls set_i_accum set_last_update_monotonic
       set_diag_error_c set_diag_error_norm set_diag_u_pi set_diag_u_i
       set_diag_u_ff set_diag_u_total _valve_position _desired_valve_position
       _i_accum _last_update_monotonic _diag_error_c _diag_error_norm
       _diag_u_pi _diag_u_i _diag_u_ff _diag_u_total].
  repeat split; try assumption; try reflexivity.
Qed.

(** X18: a tick in OFF mode completes with the committed and the desired
    position fully closed, the accumulator at zero, the tick time and all
    six diagnostics cleared, and every call it issues closes an actuator. *)
Theorem off_tick_closes_and_resets VMS env params fuel w :
  _hvac_mode (entity w) = OFF ->
  let r := _async_control_heating VMS env params (S fuel) w in
  fst r = Some tt
  /\ _valve_position (entity (snd r)) = VALVE_CLOSED_POSITION
  /\ _desired_valve_position (entity (snd r)) = Some VALVE_CLOSED_POSITION
  /\ _i_accum (entity (snd r)) = 0
  /\ _last_update_monotonic (entity (snd r)) = None
  /\ _diag_error_c (entity (snd r)) = None
  /\ _diag_error_norm (entity (snd r)) = None
  /\ _diag_u_pi (entity (snd r)) = None
  /\ _diag_u_i (entity (snd r)) = None
  /\ _diag_u_ff (entity (snd r)) = None
  /\ _diag_u_total (entity (snd r)) = None
  /\ exists cs, service_calls (snd r) = service_calls w ++ cs /\ Forall closes cs.
Proof. exact (off_tick_spec VMS env params fuel w). Qed.

Lemma forced_request_facts VMS env params position w :
  let w' := snd (_async_request_valve_position VMS env params position true w) in
  clock_reads w' = S (S (clock_reads w))
  /\ _valve_position (entity w') = quantize VMS (clamp_position position)
  /\ _desired_valve_position (entity w') = Some (clamp_position position)
  /\ _last_valve_send_monotonic (entity w') = Some (monotonic env (S (clock_reads w)))
  /\ control_view (entity w') = control_view (entity w).
Proof.
  cbv zeta.
  pose proof (request_keeps_view VMS env params position true w) as Hview.
  destruct (request_frame VMS env params position true w) as (v & a & m & l & E).
  rewrite request_spec in *. cbn [orb] in *.
  destruct (send_and_stamp_stamp VMS env params position w) as [Hc Hs].
  split; [exact Hc |]. split.
  { unfold send_and_stamp.
    cbn [entity set_last_valve_send_monotonic _valve_position].
    apply (set_valve_position_commits VMS env params (clamp_position position)
             (record_only position w)). }
  split; [rewrite E; reflexivity |]. split; [exact Hs | exact Hview].
Qed.

(** X19: entering boost ([async_set_hvac_mode(HEAT)]) completes whatever the
    fuel, leaves the mode HEAT, the desired position fully open, the
    committed position the quantized fully-open position, and the boost
    expiry at the clock reading taken after the forced send plus the boost
    duration; a timer handle is held exactly when scheduling the timer did
    not raise. *)
Theorem boost_entry VMS env params fuel w :
  let r := async_set_hvac_mode VMS env params fuel HEAT w in
  fst r = Some tt
  /\ _hvac_mode (entity (snd r)) = HEAT
  /\ _desired_valve_position (entity (snd r)) = Some VALVE_OPEN_POSITION
  /\ _valve_position (entity (snd r)) = quantize VMS VALVE_OPEN_POSITION
  /\ _boost_until (entity (snd r))
     = Some (monotonic env (S (S (clock_reads w))) + DEFAULT_BOOST_DURATION_S)
  /\ _boost_unsub (entity (snd r))
     = negb (call_later_raises env (S (S (S (clock_reads w))))).
Proof.
  cbv zeta. unfold async_set_hvac_mode, set_hvac_mode_with, _cancel_boost.
  cbn [existsb _attr_hvac_modes HVACMode_eqb orb negb].
  set (req := _async_request_valve_position VMS env params VALVE_OPEN_POSITION true).
  unfold bind, self_set, self_do, ret, time_monotonic, async_call_later, with_entity.
  cbn [entity clock_reads service_calls].
  lazymatch goal with
  | |- context [req ?w1] =>
      pose proof (forced_request_facts VMS env params VALVE_OPEN_POSITION w1)
        as (Hc & Hv & Hd & _ & Hview)
  end.
  fold req in Hc, Hv, Hd, Hview.
  destruct (req _) as [[] w2]. cbn [snd] in Hc, Hv, Hd, Hview.
  cbn [clock_reads entity] in Hc.
  unfold control_view in Hview. cbn in Hview.
  injection Hview as _ Hmode _ _ _ _ _.
  cbn [fst snd entity set_boost_until set_boost_unsub _hvac_mode
       _desired_valve_position _valve_position _boost_until _boost_unsub].
  rewrite Hc.
  repeat split; assumption || reflexivity.
Qed.

Lemma handle_off_mode_not_off VMS env params w :
  _hvac_mode (entity w) <> OFF ->
  _handle_off_mode VMS env params w = (false, w).
Proof.
  intros H. unfold _handle_off_mode, bind, self_get, ret.
  destruct (_hvac_mode (entity w)); try reflexivity. congruence.
Qed.

Lemma set_auto_spec VMS env params fuel w :
  let w1 :=
    with_entity
      (set_hvac_mode AUTO (set_boost_until None (set_boost_unsub false (entity w)))) w in
  set_hvac_mode_with VMS env params
    (_async_control_heating VMS env params (S fuel)) AUTO w
  = (Some tt, snd (control_auto VMS env params w1)).
Proof.
  cbv zeta. unfold set_hvac_mode_with, _cancel_boost.
  cbn [existsb _attr_hvac_modes HVACMode_eqb orb negb].
  set (tick := _async_control_heating VMS env params (S fuel)).
  unfold bind, self_set, self_do, with_entity.
  cbn [entity clock_reads service_calls].
  subst tick. apply control_heating_auto. reflexivity.
Qed.

Lemma heat_tick_spec VMS env params fuel w :
  _hvac_mode (entity w) = HEAT ->
  let w1 := snd (_async_request_valve_position VMS env params VALVE_OPEN_POSITION true w) in
  let now := monotonic env (clock_reads w1) in
  let w2 :=
    {| entity := entity w1; clock_reads := S (clock_reads w1);
       service_calls := service_calls w1 |} in
  _async_control_heating VMS env params (S (S fuel)) w
  = (Some tt,
     match _boost_until (entity w1) with
     | None => w1
     | Some boost_until =>
         if boost_until <=? now then
           snd (control_auto VMS env params
                  (with_entity
                     (set_hvac_mode AUTO
                        (set_boost_until None (set_boost_unsub false (entity w2))))
                     w2))
         else w2
     end).
Proof.
  intros Hmode. cbv zeta.
  change (_async_control_heating VMS env params (S (S fuel)))
    with (let* off := _handle_off_mode VMS env params in
          if off then ret (Some tt)
          else
            let* boost :=
              handle_boost_mode_with VMS env params
                (set_hvac_mode_with VMS env params
                   (_async_control_heating VMS env params (S fuel)) AUTO) in
            match boost with
            | None => ret None
            | Some true => ret (Some tt)
            | Some false => control_auto VMS env params ;; ret (Some tt)
            end).
  unfold bind at 1. rewrite handle_off_mode_not_off by congruence.
  unfold bind at 1. unfold handle_boost_mode_with.
  unfold bind at 1. unfold self_get at 1. rewrite Hmode. cbn [HVACMode_eqb negb].
  unfold bind at 1.
  destruct (_async_request_valve_position VMS env params VALVE_OPEN_POSITION true w)
    as [[] w1].
  cbn [snd]. unfold bind at 1. unfold self_get at 1.
  destruct (_boost_until (entity w1)) as [boost_until |]; [| reflexivity].
  unfold bind at 1. unfold time_monotonic at 1.
  destruct (boost_until <=? monotonic env (clock_reads w1)); [| reflexivity].
  unfold bind at 1. rewrite set_auto_spec. reflexivity.
Qed.

(** X20: a tick in HEAT mode completes; if the boost expiry has passed at the
    clock reading after the forced send, the entity ends in AUTO with the
    boost state cleared; if no expiry has passed, it stays in HEAT with the
    valve requested and committed fully open. *)
Theorem boost_tick VMS env params fuel w :
  _hvac_mode (entity w) = HEAT ->
  let r := _async_control_heating VMS env params (S (S fuel)) w in
  let now := monotonic env (S (S (clock_reads w))) in
  fst r = Some tt
  /\ (forall boost_until,
        _boost_until (entity w) = Some boost_until -> boost_until <= now ->
        _hvac_mode (entity (snd r)) = AUTO
        /\ _boost_until (entity (snd r)) = None
        /\ _boost_unsub (entity (snd r)) = false)
  /\ ((forall boost_until,
         _boost_until (entity w) = Some boost_until -> now < boost_until) ->
      _hvac_mode (entity (snd r)) = HEAT
      /\ _desired_valve_position (entity (snd r)) = Some VALVE_OPEN_POSITION
      /\ _valve_position (entity (snd r)) = quantize VMS VALVE_OPEN_POSITION).
Proof.
  intros Hmode. cbv zeta. rewrite heat_tick_spec by assumption. cbn [fst snd].
  destruct (forced_request_facts VMS env params VALVE_OPEN_POSITION w)
    as (Hc & Hv & Hd & _ & Hview).
  set (w1 := snd (_async_request_valve_position VMS env params VALVE_OPEN_POSITION true w))
    in *.
  unfold control_view in Hview.
  injection Hview as _ Hm _ _ Hb _ _.
  rewrite Hc, Hb. split; [reflexivity |]. split.
  - intros boost_until Hu Hle. rewrite Hu, (Rleb_true _ _ Hle).
    pose proof (control_auto_keeps_view VMS env params
                  (with_entity
                     (set_hvac_mode AUTO
                        (set_boost_until None
                           (set_boost_unsub false
                              (entity
                                 {| entity := entity w1;
                                    clock_reads := S (S (S (clock_reads w)));
                                    service_calls := service_calls w1 |}))))
                     {| entity := entity w1;
                        clock_reads := S (S (S (clock_reads w)));
                        service_calls := service_calls w1 |})) as Hk.
    unfold control_view in Hk. injection Hk as _ Hk1 _ Hk2 Hk3 _ _.
    repeat split; assumption.
  - intros Hnot.
    change (clamp_position VALVE_OPEN_POSITION) with VALVE_OPEN_POSITION in *.
    destruct (_boost_until (entity w)) as [boost_until |].
    + rewrite (Rleb_false boost_until) by (apply Hnot; reflexivity).
      cbn [entity]. rewrite Hm, Hmode. auto.
    + rewrite Hm, Hmode. auto.
Qed.

(** X21: two levels of nesting are enough for [_async_control_heating]: with
    them the tick always completes, and more levels give the same result. *)
Theorem tick_needs_two_levels VMS env params fuel w :
  fst (_async_control_heating VMS env params (S (S fuel)) w) = Some tt
  /\ _async_control_heating VMS env params (S (S fuel)) w
     = _async_control_heating VMS env params 2 w.
Proof.
  destruct (_hvac_mode (entity w)) eqn:Hmode.
  2: { rewrite !heat_tick_spec by assumption. split; reflexivity. }
  1: { pose proof (off_tick_spec VMS env params (S fuel) w Hmode)
         as [H _].
       split; [exact H |].
       cbn [_async_control_heating]. unfold _handle_off_mode.
       set (req := _async_request_valve_position VMS env params
                     VALVE_CLOSED_POSITION true).
       unfold bind, self_get. rewrite Hmode. cbn [HVACMode_eqb negb].
       destruct (req w) as [[] w1]. reflexivity. }
  all: assert (Ha : forall f, _async_control_heating VMS env params (S f) w
                    = (Some tt, snd (control_auto VMS env params w)));
    [ intros f; cbn [_async_control_heating];
      unfold bind at 1; rewrite handle_off_mode_not_off by congruence;
      unfold bind at 1; unfold handle_boost_mode_with;
      unfold bind at 1; unfold self_get at 1; rewrite Hmode;
      cbn [HVACMode_eqb negb]; unfold ret at 1; unfold bind, ret;
      destruct (control_auto VMS env params w) as [[] w']; reflexivity
    | rewrite !Ha; split; reflexivity ].
Qed.

Lemma round_unit_range u :
  0 <= u <= 1 ->
  (VALVE_CLOSED_POSITION <= Py.round (u * IZR VALVE_OPEN_POSITION)
   <= VALVE_OPEN_POSITION)%Z.
Proof.
  intros H. unfold VALVE_CLOSED_POSITION, VALVE_OPEN_POSITION. split.
  - apply round_nonneg. lra.
  - rewrite <- (round_integer 255) at 2. apply round_monotone. lra.
Qed.

Lemma pipeline_command params now ff_now s :
  (forall u, _last_u_total s = Some u -> 0 <= u <= 1) ->
  exists u,
    0 <= u <= 1
    /\ fst (auto_pipeline params now ff_now s) = Py.round (u * IZR VALVE_OPEN_POSITION)
    /\ _last_u_total (snd (auto_pipeline params now ff_now s)) = Some u
    /\ _diag_u_total (snd (auto_pipeline params now ff_now s)) = Some u.
Proof.
  intros H. unfold auto_pipeline.
  destruct (compute_error_and_timing_at params now s)
    as [[[[error temp_range] norm_error] dt] s2] eqn:E2.
  assert (L2 : _last_u_total s2 = _last_u_total s).
  { unfold compute_error_and_timing_at in E2. injection E2 as _ _ _ _ <-. reflexivity. }
  destruct (update_feedforward_at params ff_now s2) as [[u_ff_raw u_ff] s3] eqn:E3.
  assert (L3 : _last_u_total s3 = _last_u_total s2).
  { unfold update_feedforward_at in E3. injection E3 as _ _ <-.
    cbn [set_diag_u_ff _last_u_total].
    destruct (_boiler_flow_temp _); destruct (_outdoor_temp _); reflexivity. }
  destruct (_classify_band error (_steady_deadband_c params))
    as [[in_band heat_side] cool_side].
  set (s4 := _update_integral params norm_error heat_side cool_side dt u_ff s3).
  assert (L4 : _last_u_total s4 = _last_u_total s3).
  { subst s4. unfold _update_integral. split_ifs; reflexivity. }
  destruct (_compute_pi params norm_error s4) as [[u_pi u_i] s5] eqn:E5.
  assert (L5 : _last_u_total s5 = _last_u_total s4).
  { unfold _compute_pi in E5. injection E5 as _ _ <-. reflexivity. }
  exists (_decide_u_total params u_pi u_ff error heat_side dt s5).
  split.
  { apply decide_u_total_range. intros u Hu. apply H. congruence. }
  repeat split; reflexivity.
Qed.

(** X22: on an AUTO tick with a room temperature and no window suppression,
    if the previous command (when there is one) lies in [0, 1], the tick
    stores a command [u] in [0, 1] both as the last and as the diagnostic
    command, and the desired valve position is [round(u * 255)], which lies
    in 0..255 without any clamping. *)
Theorem normal_tick_requests_committed_command VMS env params w c s1 :
  _current_temperature (entity w) = Some c ->
  _check_window_open params c (monotonic env (clock_reads w)) (entity w) = (false, s1) ->
  (forall u, _last_u_total (entity w) = Some u -> 0 <= u <= 1) ->
  let w' := snd (control_auto VMS env params w) in
  exists u,
    0 <= u <= 1
    /\ _last_u_total (entity w') = Some u
    /\ _diag_u_total (entity w') = Some u
    /\ _desired_valve_position (entity w')
       = Some (Py.round (u * IZR VALVE_OPEN_POSITION))
    /\ (VALVE_CLOSED_POSITION <= Py.round (u * IZR VALVE_OPEN_POSITION)
        <= VALVE_OPEN_POSITION)%Z.
Proof.
  intros Hc Hw Hr. cbv zeta.
  rewrite (control_auto_normal VMS env params w c s1 Hc Hw).
  assert (L1 : _last_u_total s1 = _last_u_total (entity w)).
  { replace s1 with (snd (_check_window_open params c (monotonic env (clock_reads w))
                            (entity w))) by (rewrite Hw; reflexivity).
    unfold _check_window_open. split_ifs; reflexivity. }
  destruct (pipeline_command params (monotonic env (S (clock_reads w)))
              (monotonic env (S (S (clock_reads w)))) s1)
    as (u & Hu & Hp & Hl & Hd).
  { intros u Hu. apply Hr. congruence. }
  destruct (auto_pipeline _ _ _ _) as [position s2]. cbn [fst snd] in Hp, Hl, Hd.
  pose proof (round_unit_range u Hu) as Hrange.
  lazymatch goal with
  | |- context [_async_request_valve_position _ _ ?p ?pos ?f ?w1] =>
      destruct (request_frame VMS env p pos f w1) as (v & a & m & l & E)
  end.
  exists u. rewrite E. cbn [entity].
  split; [exact Hu |]. split; [exact Hl |]. split; [exact Hd |].
  split; [| exact Hrange].
  cbn [set_last_valve_send_monotonic set_actual_valve_map set_actual_valve_position
       set_valve_position set_desired_valve_position _desired_valve_position].
  rewrite Hp. f_equal. unfold clamp_position.
  unfold VALVE_CLOSED_POSITION, VALVE_OPEN_POSITION in *. lia.
Qed.

(** ** Instances of the further properties *)

Lemma init_range_and_target_witness :
  __init__ example_config = Ok (example_params, example_state)
  /\ _min_temp example_params <= _max_temp example_params
  /\ _min_temp example_params <= _target_temp example_state <= _max_temp example_params
  /\ 0 < _window_threshold_per_min example_params
  /\ _proportional_gain example_params
     = imc_tau example_config * _integral_gain example_params.
Proof.
  split; [exact init_example |].
  exact (init_range_and_target example_config example_params example_state init_example).
Defined.

Lemma accumulator_stays_nonnegative_witness :
  0 <= 1
  /\ 0 <= _i_accum example_state
  /\ 0 <= _i_accum
            (_update_integral example_params 1 true false (Some 60) 0 example_state).
Proof.
  assert (H1 : 0 <= 1) by lra.
  assert (H2 : 0 <= _i_accum example_state)
    by (change (_i_accum example_state) with 0; lra).
  split; [exact H1 |]. split; [exact H2 |].
  exact (accumulator_stays_nonnegative example_params 1 true false (Some 60) 0
           example_state H1 H2).
Defined.

Lemma integral_bleed_witness :
  let s := set_i_accum 10 example_state in
  let s' := _update_integral example_params 0 false true (Some 60) 0 s in
  0 < 60
  /\ 0 < _decay_tau_s example_params
  /\ 0 < _integral_gain example_params
  /\ 0 <= _i_accum s
  /\ _i_accum s' = _i_accum s * exp (- 60 / _decay_tau_s example_params)
  /\ (0 < _i_accum s -> _i_accum s' < _i_accum s).
Proof.
  cbv zeta.
  assert (H1 : 0 < 60) by lra.
  assert (H2 : 0 < _decay_tau_s example_params)
    by (change (_decay_tau_s example_params) with 900; lra).
  assert (H3 : 0 < _integral_gain example_params)
    by (change (_integral_gain example_params) with (23 / 25200); lra).
  assert (H4 : 0 <= _i_accum (set_i_accum 10 example_state))
    by (change (_i_accum (set_i_accum 10 example_state)) with 10; lra).
  split; [exact H1 |]. split; [exact H2 |]. split; [exact H3 |]. split; [exact H4 |].
  exact (integral_bleed example_params 0 true 60 0 (set_i_accum 10 example_state)
           H1 H2 H3 H4).
Defined.

Lemma command_stays_in_unit_interval_witness :
  let s := set_last_u_total (Some (1 / 5)) example_state in
  (forall u, _last_u_total s = Some u -> 0 <= u <= 1)
  /\ 0 <= _decide_u_total example_params (3 / 7) 0 0 false (Some 60) s <= 1.
Proof.
  cbv zeta.
  assert (H : forall u,
             _last_u_total (set_last_u_total (Some (1 / 5)) example_state) = Some u ->
             0 <= u <= 1).
  { intros u Hu. change (Some (1 / 5) = Some u) in Hu. injection Hu as <-. lra. }
  split; [exact H |].
  exact (command_stays_in_unit_interval example_params (3 / 7) 0 0 false (Some 60)
           (set_last_u_total (Some (1 / 5)) example_state) H).
Defined.

Lemma cool_side_decays_exponentially_witness :
  let s := set_last_u_total (Some (1 / 5)) example_state in
  -1 < - _steady_deadband_c example_params
  /\ 0 <= _steady_deadband_c example_params
  /\ 0 < 60
  /\ 0 < _decay_tau_s example_params
  /\ 0 <= prev_u s
  /\ _decide_u_total example_params (3 / 7) 0 (-1)
       (_classify_band (-1) (_steady_deadband_c example_params)).1.2 (Some 60) s
     = prev_u s * exp (- 60 / _decay_tau_s example_params).
Proof.
  cbv zeta.
  assert (H1 : -1 < - _steady_deadband_c example_params)
    by (change (_steady_deadband_c example_params) with (1 / 2); lra).
  assert (H2 : 0 <= _steady_deadband_c example_params)
    by (change (_steady_deadband_c example_params) with (1 / 2); lra).
  assert (H3 : 0 < 60) by lra.
  assert (H4 : 0 < _decay_tau_s example_params)
    by (change (_decay_tau_s example_params) with 900; lra).
  assert (H5 : 0 <= prev_u (set_last_u_total (Some (1 / 5)) example_state))
    by (change (prev_u (set_last_u_total (Some (1 / 5)) example_state)) with (1 / 5);
        lra).
  repeat (split; [assumption |]).
  exact (cool_side_decays_exponentially example_params (3 / 7) 0 (-1) 60
           (set_last_u_total (Some (1 / 5)) example_state) H1 H2 H3 H4 H5).
Defined.

Lemma cool_side_decay_after_n_ticks_witness :
  let s := set_last_u_total (Some (1 / 5)) example_state in
  -1 < - _steady_deadband_c example_params
  /\ 0 <= _steady_deadband_c example_params
  /\ 0 < 60
  /\ 0 < _decay_tau_s example_params
  /\ 0 <= prev_u s
  /\ prev_u (decide_repeatedly example_params (3 / 7) 0 (-1)
               (_classify_band (-1) (_steady_deadband_c example_params)).1.2
               (Some 60) 3 s)
     = prev_u s * exp (- (INR 3 * 60) / _decay_tau_s example_params).
Proof.
  cbv zeta.
  assert (H1 : -1 < - _steady_deadband_c example_params)
    by (change (_steady_deadband_c example_params) with (1 / 2); lra).
  assert (H2 : 0 <= _steady_deadband_c example_params)
    by (change (_steady_deadband_c example_params) with (1 / 2); lra).
  assert (H3 : 0 < 60) by lra.
  assert (H4 : 0 < _decay_tau_s example_params)
    by (change (_decay_tau_s example_params) with 900; lra).
  assert (H5 : 0 <= prev_u (set_last_u_total (Some (1 / 5)) example_state))
    by (change (prev_u (set_last_u_total (Some (1 / 5)) example_state)) with (1 / 5);
        lra).
  repeat (split; [assumption |]).
  exact (cool_side_decay_after_n_ticks example_params (3 / 7) 0 (-1) 60 3
           (set_last_u_total (Some (1 / 5)) example_state) H1 H2 H3 H4 H5).
Defined.

Lemma deadband_shrinks_towards_zero_witness :
  0 < 1 / 2
  /\ Py.abs (_apply_deadband 2 (1 / 2)) = Py.max 0 (Py.abs 2 - 1 / 2)
  /\ _apply_deadband (- 2) (1 / 2) = - _apply_deadband 2 (1 / 2)
  /\ (0 <= 2 -> 0 <= _apply_deadband 2 (1 / 2) <= 2).
Proof.
  assert (H : 0 < 1 / 2) by lra.
  split; [exact H |].
  exact (deadband_shrinks_towards_zero 2 (1 / 2) H).
Defined.

Lemma snap_to_step_nearest_multiple_witness :
  let v := _clampZ 133 0 255 in
  let q := _snap_to_step 133 10 0 255 in
  (1 < 10)%Z
  /\ (0 <= 255)%Z
  /\ (0 <= q <= 255)%Z
  /\ ((exists k, q = (k * 10)%Z) \/ q = 255%Z)
  /\ 2 * Rabs (IZR q - IZR v) <= IZR 10
  /\ _snap_to_step q 10 0 255 = q.
Proof.
  cbv zeta.
  assert (H1 : (1 < 10)%Z) by lia.
  assert (H2 : (0 <= 255)%Z) by lia.
  split; [exact H1 |]. split; [exact H2 |].
  exact (snap_to_step_nearest_multiple 133 10 255 H1 H2).
Defined.

Lemma window_check_ignores_rise_witness :
  0 < _window_threshold_per_min example_params
  /\ (forall expiry, _window_open_until rapid_drop_state = Some expiry -> expiry <= 1120)
  /\ (forall last_temp last_time,
        _last_window_check rapid_drop_state = Some (last_temp, last_time) ->
        last_temp <= 21)
  /\ fst (_check_window_open example_params 21 1120 rapid_drop_state) = false
  /\ _window_open_until (snd (_check_window_open example_params 21 1120 rapid_drop_state))
     = None.
Proof.
  assert (H1 : 0 < _window_threshold_per_min example_params)
    by (change (_window_threshold_per_min example_params) with 1; lra).
  assert (H2 : forall expiry,
             _window_open_until rapid_drop_state = Some expiry -> expiry <= 1120).
  { intros expiry H. change (None = Some expiry) in H. discriminate H. }
  assert (H3 : forall last_temp last_time,
             _last_window_check rapid_drop_state = Some (last_temp, last_time) ->
             last_temp <= 21).
  { intros last_temp last_time H. change (Some (20, 1000) = Some (last_temp, last_time)) in H.
    injection H as <- <-. lra. }
  split; [exact H1 |]. split; [exact H2 |]. split; [exact H3 |].
  exact (window_check_ignores_rise example_params 21 1120 rapid_drop_state H1 H2 H3).
Defined.

Lemma window_detects_exactly_fast_drops_witness :
  let r := _check_window_open example_params 17 1120 rapid_drop_state in
  (forall expiry, _window_open_until rapid_drop_state = Some expiry -> expiry <= 1120)
  /\ _last_window_check rapid_drop_state = Some (20, 1000)
  /\ WINDOW_CHECK_MIN_INTERVAL_S <= 1120 - 1000
  /\ (fst r = true
      <-> _window_threshold_per_min example_params * (1120 - 1000) / 60 < 20 - 17)
  /\ _last_window_check (snd r) = Some (17, 1120).
Proof.
  cbv zeta.
  assert (H1 : forall expiry,
             _window_open_until rapid_drop_state = Some expiry -> expiry <= 1120).
  { intros expiry H. change (None = Some expiry) in H. discriminate H. }
  assert (H2 : _last_window_check rapid_drop_state = Some (20, 1000)) by reflexivity.
  assert (H3 : WINDOW_CHECK_MIN_INTERVAL_S <= 1120 - 1000) by (unfold_constants; lra).
  split; [exact H1 |]. split; [exact H2 |]. split; [exact H3 |].
  exact (window_detects_exactly_fast_drops example_params 17 1120 rapid_drop_state
           20 1000 H1 H2 H3).
Defined.

Lemma position_change_reaches_every_known_trv_witness :
  let env := present_env 0 in
  let w := world_of two_trv_state in
  let pos := quantize 1 200 in
  let w' := snd (_async_set_valve_position 1 env two_trv_params 200 w) in
  quantize 1 200 <> _valve_position (entity w)
  /\ service_calls w'
     = service_calls w
       ++ flat_map (trv_calls env two_trv_params pos false (_actual_valve_map (entity w)))
            (_trv_entities two_trv_params)
  /\ (forall trv,
        trv_calls env two_trv_params pos false (_actual_valve_map (entity w)) trv <> []
        <-> is_Some (states_get env trv)).
Proof.
  cbv zeta.
  assert (H : quantize 1 200 <> _valve_position (entity (world_of two_trv_state))).
  { change (_valve_position (entity (world_of two_trv_state))) with 150%Z.
    vm_compute. discriminate. }
  split; [exact H |].
  exact (position_change_reaches_every_known_trv 1 (present_env 0) two_trv_params 200
           (world_of two_trv_state) H).
Defined.

(** On the host that knows only the switched-off TRV, the dispatch issues the
    mode call and then the setpoint call; when calls raise, the iteration
    ends after the mode call. *)
Lemma off_trv_dispatch raises :
  service_calls
    (snd (_async_set_valve_position 1 (off_trv_env raises) two_trv_params 200
            (world_of two_trv_state)))
  = climate_set_hvac_mode "climate.trv_a" HEAT
    :: (if raises then []
        else [climate_set_temperature "climate.trv_a"
                (_min_temp two_trv_params
                 + IZR 200 / IZR VALVE_OPEN_POSITION
                   * (_max_temp two_trv_params - _min_temp two_trv_params))]).
Proof.
  rewrite set_valve_position_spec.
  change (quantize 1 200) with 200%Z.
  change (_valve_position (entity (world_of two_trv_state))) with 150%Z.
  cbn [Z.eqb Pos.eqb andb negb snd].
  unfold refresh_actual. destruct (read_actuals _ _ _ _).
  cbn [with_entity add_calls service_calls world_of app].
  destruct raises; reflexivity.
Qed.


Lemma off_tick_closes_and_resets_witness :
  let w := world_of (set_hvac_mode OFF rapid_drop_state) in
  let r := _async_control_heating 1 (present_env 0) example_params 1 w in
  _hvac_mode (entity w) = OFF
  /\ fst r = Some tt
  /\ _valve_position (entity (snd r)) = VALVE_CLOSED_POSITION
  /\ _desired_valve_position (entity (snd r)) = Some VALVE_CLOSED_POSITION
  /\ _i_accum (entity (snd r)) = 0
  /\ _last_update_monotonic (entity (snd r)) = None
  /\ _diag_error_c (entity (snd r)) = None
  /\ _diag_error_norm (entity (snd r)) = None
  /\ _diag_u_pi (entity (snd r)) = None
  /\ _diag_u_i (entity (snd r)) = None
  /\ _diag_u_ff (entity (snd r)) = None
  /\ _diag_u_total (entity (snd r)) = None
  /\ exists cs, service_calls (snd r) = service_calls w ++ cs /\ Forall closes cs.
Proof.
  cbv zeta.
  split; [reflexivity |].
  exact (off_tick_closes_and_resets 1 (present_env 0) example_params 0
           (world_of (set_hvac_mode OFF rapid_drop_state)) eq_refl).
Defined.

Lemma boost_tick_witness :
  let env := present_env 0 in
  let w := world_of (set_boost_until (Some 900) (set_hvac_mode HEAT example_state)) in
  let r := _async_control_heating 1 env example_params 2 w in
  let now := monotonic env (S (S (clock_reads w))) in
  _hvac_mode (entity w) = HEAT
  /\ fst r = Some tt
  /\ (forall boost_until,
        _boost_until (entity w) = Some boost_until -> boost_until <= now ->
        _hvac_mode (entity (snd r)) = AUTO
        /\ _boost_until (entity (snd r)) = None
        /\ _boost_unsub (entity (snd r)) = false)
  /\ ((forall boost_until,
         _boost_until (entity w) = Some boost_until -> now < boost_until) ->
      _hvac_mode (entity (snd r)) = HEAT
      /\ _desired_valve_position (entity (snd r)) = Some VALVE_OPEN_POSITION
      /\ _valve_position (entity (snd r)) = quantize 1 VALVE_OPEN_POSITION).
Proof.
  cbv zeta.
  split; [reflexivity |].
  exact (boost_tick 1 (present_env 0) example_params 0
           (world_of (set_boost_until (Some 900) (set_hvac_mode HEAT example_state)))
           eq_refl).
Defined.

Lemma normal_tick_requests_committed_command_witness :
  let env := present_env 0 in
  let w := world_of (set_current_temperature (Some 20) example_state) in
  let w' := snd (control_auto 1 env example_params w) in
  _current_temperature (entity w) = Some 20
  /\ fst (_check_window_open example_params 20 (monotonic env (clock_reads w)) (entity w))
     = false
  /\ (forall u, _last_u_total (entity w) = Some u -> 0 <= u <= 1)
  /\ exists u,
       0 <= u <= 1
       /\ _last_u_total (entity w') = Some u
       /\ _diag_u_total (entity w') = Some u
       /\ _desired_valve_position (entity w')
          = Some (Py.round (u * IZR VALVE_OPEN_POSITION))
       /\ (VALVE_CLOSED_POSITION <= Py.round (u * IZR VALVE_OPEN_POSITION)
           <= VALVE_OPEN_POSITION)%Z.
Proof.
  cbv zeta.
  pose proof (example_window_check
                (monotonic (present_env 0)
                   (clock_reads (world_of (set_current_temperature (Some 20)
                                             example_state))))) as Hw.
  assert (H3 : forall u,
             _last_u_total (entity (world_of (set_current_temperature (Some 20)
                                                example_state))) = Some u ->
             0 <= u <= 1).
  { intros u Hu. change (None = Some u) in Hu. discriminate Hu. }
  split; [reflexivity |].
  split; [exact (f_equal fst Hw) |].
  split; [exact H3 |].
  exact (normal_tick_requests_committed_command 1 (present_env 0) example_params
           (world_of (set_current_temperature (Some 20) example_state)) 20 _
           eq_refl Hw H3).
Defined.
